(** * data-export-cli: a shallow embedding of the export-job lifecycle client

    The development follows [data-export-cli.py] function by function:
    Python strings are [string] (a sequence of code points below 256),
    JSON values and Python dictionaries are [json] with insertion-ordered
    association lists, and the effects of the script (printing, HTTP
    requests, sleeping, reading the clock, Ctrl+C) are threaded through a
    small state-and-exception monad whose state records the trace of
    effects. *)

From Stdlib Require Import ZArith List String Ascii Bool Lia.
From Stdlib Require Import DecimalString.
Import ListNotations.

Local Open Scope string_scope.
Local Open Scope Z_scope.

(** ** Python string primitives *)

Module PyStr.

(** [s.startswith(p)] *)
Definition startswith (s p : string) : bool := String.prefix p s.

(** [sub in s]: some suffix of [s] starts with [sub]. *)
Fixpoint contains (sub s : string) : bool :=
  String.prefix sub s ||
  match s with
  | EmptyString => false
  | String _ s' => contains sub s'
  end.


(** [sep.join(l)] *)
Fixpoint join (sep : string) (l : list string) : string :=
  match l with
  | [] => ""
  | [x] => x
  | x :: rest => x ++ sep ++ join sep rest
  end.

End PyStr.

(** ** Decimal and hexadecimal rendering of integers *)

Module PyInt.

(** [str(n)] for a Python [int]. *)
Definition to_str (n : Z) : string := NilZero.string_of_int (Z.to_int n).

Definition digit_char (d : Z) : ascii := ascii_of_nat (48 + Z.to_nat d).

(** [n] rendered on exactly [w] decimal digits, zero padded (the low [w]
    digits when [n] is larger): the ["%02d"]/["%04d"] conversions that
    [strftime] uses for its numeric fields. *)
Fixpoint zpad (w : nat) (n : Z) : string :=
  match w with
  | O => ""
  | S w' => zpad w' (n / 10) ++ String (digit_char (n mod 10)) ""
  end.

Definition hex_char (d : Z) : ascii :=
  if d <? 10 then ascii_of_nat (48 + Z.to_nat d)
  else ascii_of_nat (87 + Z.to_nat d).

(** Two lowercase hexadecimal digits of a code point below 256. *)
Definition hex2 (c : ascii) : string :=
  let n := Z.of_nat (nat_of_ascii c) in
  String (hex_char (n / 16)) (String (hex_char (n mod 16)) "").

End PyInt.

(** ** JSON values, as [json.loads] and [Response.json()] produce them

    A Python [dict] keeps its keys in insertion order and [json.dumps]
    prints them in that order, so an object is an association list; keys
    are unique in a dictionary and [dict_get] reads the first binding.
    JSON numbers are restricted to integers. *)

#[warnings="-register-all"]
Inductive json : Type :=
| JNull
| JBool (b : bool)
| JNum (n : Z)
| JStr (s : string)
| JArr (items : list json)
| JObj (fields : list (string * json)).

Module Py.

Definition LF : string := String "010"%char "".

(** The text of one double quote. *)
Definition DQ : string := String "034"%char "".

Fixpoint dict_get (kv : list (string * json)) (k : string) : option json :=
  match kv with
  | [] => None
  | (k', v) :: rest => if String.eqb k' k then Some v else dict_get rest k
  end.

(** Truth value of an object, as [if x:], [x or y] and [all] test it. *)
Definition truthy (v : json) : bool :=
  match v with
  | JNull => false
  | JBool b => b
  | JNum n => negb (n =? 0)
  | JStr s => negb (String.eqb s "")
  | JArr l => match l with [] => false | _ => true end
  | JObj kv => match kv with [] => false | _ => true end
  end.

(** [x or y] *)
Definition or_ (x y : json) : json := if truthy x then x else y.

(** An optional string held in a Python variable: [None] or a [str]. *)
Definition of_opt (o : option string) : json :=
  match o with None => JNull | Some s => JStr s end.

(** *** [repr] and [str] *)

Definition is_printable (c : ascii) : bool :=
  let n := nat_of_ascii c in
  (Nat.leb 32 n && Nat.ltb n 127) ||
  (Nat.leb 161 n && negb (Nat.eqb n 173)).

Definition repr_char (quote c : ascii) : string :=
  if Ascii.eqb c quote || Ascii.eqb c "\"%char then String "\"%char (String c "")
  else if Ascii.eqb c "009"%char then "\t"
  else if Ascii.eqb c "010"%char then "\n"
  else if Ascii.eqb c "013"%char then "\r"
  else if is_printable c then String c ""
  else "\x" ++ PyInt.hex2 c.

Fixpoint has_char (c : ascii) (s : string) : bool :=
  match s with
  | EmptyString => false
  | String x s' => Ascii.eqb x c || has_char c s'
  end.

Fixpoint flat_map_str (f : ascii -> string) (s : string) : string :=
  match s with
  | EmptyString => ""
  | String c s' => f c ++ flat_map_str f s'
  end.

(** [repr(s)] for a [str]: single quotes unless the text has a single
    quote and no double quote. *)
Definition repr_str (s : string) : string :=
  let quote : ascii :=
    if has_char "'"%char s && negb (has_char "034"%char s)
    then "034"%char else "'"%char in
  String quote (flat_map_str (repr_char quote) s) ++ String quote "".

Fixpoint repr (v : json) : string :=
  match v with
  | JNull => "None"
  | JBool true => "True"
  | JBool false => "False"
  | JNum n => PyInt.to_str n
  | JStr s => repr_str s
  | JArr l => "[" ++ PyStr.join ", " (map repr l) ++ "]"
  | JObj kv =>
      "{" ++ PyStr.join ", "
               (map (fun p => repr_str (fst p) ++ ": " ++ repr (snd p)) kv)
          ++ "}"
  end.

(** [str(v)], which is what an f-string field [{v}] inserts. *)
Definition str (v : json) : string :=
  match v with
  | JStr s => s
  | _ => repr v
  end.

(** *** [json.dumps(v, indent=2)] *)

Definition escape_char (c : ascii) : string :=
  if Ascii.eqb c "034"%char then "\" ++ DQ
  else if Ascii.eqb c "\"%char then "\\"
  else if Ascii.eqb c "010"%char then "\n"
  else if Ascii.eqb c "013"%char then "\r"
  else if Ascii.eqb c "009"%char then "\t"
  else if Ascii.eqb c "008"%char then "\b"
  else if Ascii.eqb c "012"%char then "\f"
  else
    let n := nat_of_ascii c in
    if Nat.leb 32 n && Nat.leb n 126 then String c ""
    else "\u00" ++ PyInt.hex2 c.

Definition encode_str (s : string) : string :=
  DQ ++ flat_map_str escape_char s ++ DQ.

Fixpoint spaces (n : nat) : string :=
  match n with O => "" | S n' => String " "%char (spaces n') end.

Definition newline_indent (level : nat) : string := LF ++ spaces (2 * level).

Fixpoint dumps_at (level : nat) (v : json) : string :=
  match v with
  | JNull => "null"
  | JBool true => "true"
  | JBool false => "false"
  | JNum n => PyInt.to_str n
  | JStr s => encode_str s
  | JArr [] => "[]"
  | JArr l =>
      "[" ++ newline_indent (S level)
          ++ PyStr.join ("," ++ newline_indent (S level))
                        (map (dumps_at (S level)) l)
          ++ newline_indent level ++ "]"
  | JObj [] => "{}"
  | JObj kv =>
      "{" ++ newline_indent (S level)
          ++ PyStr.join ("," ++ newline_indent (S level))
               (map (fun p => encode_str (fst p) ++ ": "
                                ++ dumps_at (S level) (snd p)) kv)
          ++ newline_indent level ++ "}"
  end.

Definition dumps_indent2 (v : json) : string := dumps_at 0 v.

End Py.

(** ** Exceptions and results of pure Python expressions *)

(** What a response object of [requests] exposes to the script.
    [json_result] is what [Response.json()] does: it returns the decoded
    body ([inr]) or raises a decode error with a message ([inl]). *)
Record response : Type := {
  status_code : Z;
  reason : string;
  resp_url : string;
  text : string;
  json_result : string + json
}.

Inductive exn : Type :=
| KeyboardInterrupt
| HTTPError (msg : string) (resp : response)
| RequestException (msg : string)
| JSONDecodeError (msg : string)
| TypeError (msg : string)
| AttributeError (msg : string)
| ValueError (msg : string)
| OverflowError (msg : string)
| OtherException (msg : string).

(** [str(e)] *)
Definition exn_str (e : exn) : string :=
  match e with
  | KeyboardInterrupt => ""
  | HTTPError msg _ | RequestException msg | JSONDecodeError msg
  | TypeError msg | AttributeError msg | ValueError msg
  | OverflowError msg | OtherException msg => msg
  end.

(** [isinstance(e, Exception)]: [KeyboardInterrupt] derives from
    [BaseException] only. *)
Definition is_Exception (e : exn) : bool :=
  match e with KeyboardInterrupt => false | _ => true end.

Inductive pyres (A : Type) : Type :=
| Ok (a : A)
| Err (e : exn).
Arguments Ok {A} a.
Arguments Err {A} e.

Module PyObj.

Definition type_name (v : json) : string :=
  match v with
  | JNull => "NoneType"
  | JBool _ => "bool"
  | JNum _ => "int"
  | JStr _ => "str"
  | JArr _ => "list"
  | JObj _ => "dict"
  end.

Definition no_attribute (v : json) (attr : string) : exn :=
  AttributeError ("'" ++ type_name v ++ "' object has no attribute '"
                      ++ attr ++ "'").

(** [v.get(k, default)] *)
Definition get (v : json) (k : string) (default : json) : pyres json :=
  match v with
  | JObj kv => Ok (match Py.dict_get kv k with
                   | Some x => x
                   | None => default
                   end)
  | _ => Err (no_attribute v "get")
  end.

Definition is_str (s : string) (v : json) : bool :=
  match v with JStr s' => String.eqb s s' | _ => false end.

(** [s in v] for a [str] literal [s]: substring search in a [str],
    element search in a [list], key search in a [dict]. *)
Definition str_in (s : string) (v : json) : pyres bool :=
  match v with
  | JStr t => Ok (PyStr.contains s t)
  | JArr l => Ok (existsb (is_str s) l)
  | JObj kv => Ok (existsb (fun p => String.eqb s (fst p)) kv)
  | _ => Err (TypeError ("argument of type '" ++ type_name v
                           ++ "' is not iterable"))
  end.

(** [v.startswith(p)] *)
Definition startswith (v : json) (p : string) : pyres bool :=
  match v with
  | JStr t => Ok (PyStr.startswith t p)
  | _ => Err (no_attribute v "startswith")
  end.

(** [v == s] for a [str] literal [s], and [v in [s1, ..., sn]]. *)
Definition eq_str (v : json) (s : string) : bool := is_str s v.

Definition in_strs (v : json) (l : list string) : bool :=
  existsb (eq_str v) l.

(** [len(v)] *)
Definition len (v : json) : pyres Z :=
  match v with
  | JStr t => Ok (Z.of_nat (String.length t))
  | JArr l => Ok (Z.of_nat (List.length l))
  | JObj kv => Ok (Z.of_nat (List.length kv))
  | _ => Err (TypeError ("object of type '" ++ type_name v
                           ++ "' has no len()"))
  end.

Fixpoint chars (t : string) : list json :=
  match t with
  | EmptyString => []
  | String c t' => JStr (String c "") :: chars t'
  end.

(** The items a [for] loop over [v] visits. *)
Definition iter (v : json) : pyres (list json) :=
  match v with
  | JStr t => Ok (chars t)
  | JArr l => Ok l
  | JObj kv => Ok (map (fun p => JStr (fst p)) kv)
  | _ => Err (TypeError ("'" ++ type_name v ++ "' object is not iterable"))
  end.

(** The last piece of [t.split(sep)] for a one-character separator. *)
Fixpoint last_segment (sep : ascii) (t : string) : string :=
  match t with
  | EmptyString => ""
  | String _ t' => if Py.has_char sep t then last_segment sep t' else t
  end.

(** [v.split("/")[-1]] *)
Definition split_last (v : json) : pyres string :=
  match v with
  | JStr t => Ok (last_segment "/"%char t)
  | _ => Err (no_attribute v "split")
  end.

Definition ljust (width : nat) (t : string) : string :=
  t ++ Py.spaces (width - String.length t).

(** The f-string field [{v:<width}]. *)
Definition format_left (v : json) (width : nat) : pyres string :=
  match v with
  | JStr t => Ok (ljust width t)
  | JNum n => Ok (ljust width (PyInt.to_str n))
  | JBool b => Ok (ljust width (if b then "1" else "0"))
  | _ => Err (TypeError ("unsupported format string passed to "
                           ++ type_name v ++ ".__format__"))
  end.

End PyObj.

(** ** [datetime] and [timedelta]

    The proleptic Gregorian calendar of Python's [datetime] module: day 1
    is 0001-01-01 and the last representable day, 9999-12-31, is
    [_MAXORDINAL]. *)

Module DateTime.

Record t : Type := {
  year : Z; month : Z; day : Z;
  hour : Z; minute : Z; second : Z; microsecond : Z
}.

Definition MINYEAR : Z := 1.
Definition MAXYEAR : Z := 9999.
Definition _MAXORDINAL : Z := 3652059.

Definition _DAYS_IN_MONTH : list Z :=
  [-1; 31; 28; 31; 30; 31; 30; 31; 31; 30; 31; 30; 31].

Definition _DAYS_BEFORE_MONTH : list Z :=
  [-1; 0; 31; 59; 90; 120; 151; 181; 212; 243; 273; 304; 334].

Definition table (l : list Z) (i : Z) : Z := nth (Z.to_nat i) l 0.

Definition _is_leap (y : Z) : bool :=
  (y mod 4 =? 0) && (negb (y mod 100 =? 0) || (y mod 400 =? 0)).

Definition _days_before_year (y0 : Z) : Z :=
  let y := y0 - 1 in y * 365 + y / 4 - y / 100 + y / 400.

Definition _days_in_month (y m : Z) : Z :=
  if (m =? 2) && _is_leap y then 29 else table _DAYS_IN_MONTH m.

Definition _days_before_month (y m : Z) : Z :=
  table _DAYS_BEFORE_MONTH m + (if (2 <? m) && _is_leap y then 1 else 0).

Definition _ymd2ord (y m d : Z) : Z :=
  _days_before_year y + _days_before_month y m + d.

Definition _DI400Y : Z := 146097.
Definition _DI100Y : Z := 36524.
Definition _DI4Y : Z := 1461.

Definition _ord2ymd (n0 : Z) : Z * Z * Z :=
  let n := n0 - 1 in
  let n400 := n / _DI400Y in
  let n := n mod _DI400Y in
  let year := n400 * 400 + 1 in
  let n100 := n / _DI100Y in
  let n := n mod _DI100Y in
  let n4 := n / _DI4Y in
  let n := n mod _DI4Y in
  let n1 := n / 365 in
  let n := n mod 365 in
  let year := year + n100 * 100 + n4 * 4 + n1 in
  if (n1 =? 4) || (n100 =? 4) then (year - 1, 12, 31)
  else
    let leapyear := (n1 =? 3) && (negb (n4 =? 24) || (n100 =? 3)) in
    let month := Z.shiftr (n + 50) 5 in
    let preceding :=
      table _DAYS_BEFORE_MONTH month
      + (if (2 <? month) && leapyear then 1 else 0) in
    if n <? preceding then
      let month := month - 1 in
      let preceding :=
        preceding - (table _DAYS_IN_MONTH month
                     + (if (month =? 2) && leapyear then 1 else 0)) in
      (year, month, n - preceding + 1)
    else (year, month, n - preceding + 1).

(** [dt.toordinal()] *)
Definition toordinal (dt : t) : Z := _ymd2ord (year dt) (month dt) (day dt).

(** The values a [datetime] object can hold. *)
Definition valid (dt : t) : Prop :=
  MINYEAR <= year dt <= MAXYEAR /\ 1 <= month dt <= 12
  /\ 1 <= day dt <= _days_in_month (year dt) (month dt)
  /\ 0 <= hour dt < 24 /\ 0 <= minute dt < 60 /\ 0 <= second dt < 60
  /\ 0 <= microsecond dt < 1000000.

(** [datetime.timedelta(days=d)], a whole number of days; the messages
    are those of CPython's [_datetime]: the day count is first converted
    to a C [int] (from -2147483648 to 2147483647) and then checked for
    its magnitude. *)
Definition timedelta_days (d : Z) : pyres Z :=
  if (d >? 2147483647) || (d <? -2147483648) then
    Err (OverflowError "Python int too large to convert to C int")
  else if Z.abs d >? 999999999 then
    Err (OverflowError ("days=" ++ PyInt.to_str d
                          ++ "; must have magnitude <= 999999999"))
  else Ok d.

(** [dt - delta] for a [timedelta] of [delta] whole days: the same time
    of day on the day whose ordinal is [delta] less, when that day is
    representable. *)
Definition sub_days (dt : t) (delta : Z) : pyres t :=
  let n := toordinal dt - delta in
  if (1 <=? n) && (n <=? _MAXORDINAL) then
    let '(y, m, d) := _ord2ymd n in
    Ok {| year := y; month := m; day := d;
          hour := hour dt; minute := minute dt; second := second dt;
          microsecond := microsecond dt |}
  else Err (OverflowError "date value out of range").

(** [dt.strftime("%Y-%m-%dT%H:%M:%SZ")].  CPython hands the format to
    the C library: the two-digit fields are zero padded, and [%Y] is the
    year as glibc prints it, in decimal without padding, so a year below
    1000 takes fewer than four digits (999-12-31T09:30:05Z). *)
Definition strftime_rfc3339 (dt : t) : string :=
  PyInt.to_str (year dt) ++ "-" ++ PyInt.zpad 2 (month dt) ++ "-"
    ++ PyInt.zpad 2 (day dt) ++ "T" ++ PyInt.zpad 2 (hour dt) ++ ":"
    ++ PyInt.zpad 2 (minute dt) ++ ":" ++ PyInt.zpad 2 (second dt) ++ "Z".

(** [dt.strftime('%H:%M:%S')] *)
Definition strftime_hms (dt : t) : string :=
  PyInt.zpad 2 (hour dt) ++ ":" ++ PyInt.zpad 2 (minute dt) ++ ":"
    ++ PyInt.zpad 2 (second dt).

End DateTime.

(** ** Configuration: the class attributes of [Config]

    The fields hold what [os.getenv] returned when the class body ran
    ([None] for an unset variable); [TIMEOUT] is the integer the class body
    already converted. The two derived attributes are the f-strings of the
    class body, in which an unset variable prints as [None]. *)

Record Config : Type := {
  SERVICE_ACCOUNT_FILE : option string;
  SCOPES : option string;
  PROJECT_ID : option string;
  LOCATION : option string;
  INSTANCE_ID : option string;
  GCS_BUCKET : option string;
  SECOPS_API_BASE_URL : option string;
  TIMEOUT : Z
}.

Definition fmt (o : option string) : string := Py.str (Py.of_opt o).

Definition API_BASE_URL (cfg : Config) : string :=
  match SECOPS_API_BASE_URL cfg with
  | Some u => u
  | None => "https://chronicle." ++ fmt (LOCATION cfg) ++ ".googleapis.com"
  end.

Definition INSTANCE_BASE_PATH (cfg : Config) : string :=
  "v1alpha/projects/" ++ fmt (PROJECT_ID cfg) ++ "/locations/"
    ++ fmt (LOCATION cfg) ++ "/instances/" ++ fmt (INSTANCE_ID cfg).

(** ** [_normalize_id] *)

Definition _normalize_id (cfg : Config) (export_id : json) : pyres json :=
  match PyObj.str_in "projects/" export_id with
  | Err e => Err e
  | Ok false =>
      Ok (JStr (INSTANCE_BASE_PATH cfg ++ "/dataExports/" ++ Py.str export_id))
  | Ok true =>
      match PyObj.startswith export_id "projects/" with
      | Err e => Err e
      | Ok true => Ok (JStr ("v1alpha/" ++ Py.str export_id))
      | Ok false => Ok export_id
      end
  end.

Definition pyres_bind {A B} (r : pyres A) (k : A -> pyres B) : pyres B :=
  match r with
  | Ok a => k a
  | Err e => Err e
  end.

(** ** The outside world and the effects of the script

    The script acts on the world by printing, loading the credential
    file, sending HTTP requests and sleeping; a run is described by the
    trace of these events.  The world answers through oracles: [server]
    gives the reply to the n-th request (a transport failure with its
    message, or a response), the two clocks give the time when n events
    have happened, [credentials] tells whether the key file loads, and
    [sigint] is the number of events after which Ctrl+C arrives: the
    event in progress at that point is recorded and
    [KeyboardInterrupt] is raised where it was called.

    The console is taken to work: a [print] that is not interrupted
    succeeds.  The failures of writing to the standard output
    ([UnicodeEncodeError], [OSError]) are not part of this world, so
    nothing here speaks of the exceptions that such a failure lets out
    of [main]. *)

Inductive method : Type := GET | POST.

Record request : Type := {
  req_method : method;
  req_url : string;
  req_json : option json;
  req_timeout : Z
}.

Inductive event : Type :=
| EPrint (line : string)
| ELoadCredentials (file : string) (scopes : option string)
| ERequest (r : request)
| ESleep (seconds : Z).

Definition trace : Type := list event.

Record world : Type := {
  server : nat -> request -> string + response;
  utc_now : nat -> DateTime.t;
  local_now : nat -> DateTime.t;
  credentials : string -> option string;
  sigint : option nat
}.

Inductive outcome (A : Type) : Type :=
| Ret (a : A)
| Raise (e : exn)
| OutOfFuel.
Arguments Ret {A} a.
Arguments Raise {A} e.
Arguments OutOfFuel {A}.

Definition M (A : Type) : Type := trace -> outcome A * trace.

Definition ret {A} (a : A) : M A := fun tr => (Ret a, tr).

Definition raise {A} (e : exn) : M A := fun tr => (Raise e, tr).

Definition bind {A B} (c : M A) (k : A -> M B) : M B :=
  fun tr =>
    match c tr with
    | (Ret a, tr') => k a tr'
    | (Raise e, tr') => (Raise e, tr')
    | (OutOfFuel, tr') => (OutOfFuel, tr')
    end.

Declare Scope py_scope.
Delimit Scope py_scope with py.
Notation "x <- c ;; k" := (bind c (fun x => k))
  (at level 61, c at next level, right associativity) : py_scope.
Notation "c ;; k" := (bind c (fun _ => k))
  (at level 61, right associativity) : py_scope.

(** A pure expression that may raise. *)
Definition lift {A} (r : pyres A) : M A :=
  match r with
  | Ok a => ret a
  | Err e => raise e
  end.

(** [try: body / except ...: handler]: [handler e] is [None] when no
    [except] clause matches [e], which then propagates. *)
Definition try_except {A} (body : M A) (handler : exn -> option (M A)) : M A :=
  fun tr =>
    match body tr with
    | (Raise e, tr') =>
        match handler e with
        | Some h => h tr'
        | None => (Raise e, tr')
        end
    | r => r
    end.

Definition is_request (e : event) : bool :=
  match e with ERequest _ => true | _ => false end.

Definition count_requests (tr : trace) : nat :=
  List.length (filter is_request tr).

Definition interrupted (W : world) (tr : trace) : bool :=
  match sigint W with
  | Some k => Nat.eqb k (List.length tr)
  | None => false
  end.

(** [resp.raise_for_status()] *)
Definition raise_for_status (resp : response) : pyres unit :=
  let code := status_code resp in
  if (400 <=? code) && (code <? 500) then
    Err (HTTPError (PyInt.to_str code ++ " Client Error: " ++ reason resp
                      ++ " for url: " ++ resp_url resp) resp)
  else if (500 <=? code) && (code <? 600) then
    Err (HTTPError (PyInt.to_str code ++ " Server Error: " ++ reason resp
                      ++ " for url: " ++ resp_url resp) resp)
  else Ok tt.

(** [resp.json()] *)
Definition resp_json (resp : response) : pyres json :=
  match json_result resp with
  | inr v => Ok v
  | inl msg => Err (JSONDecodeError msg)
  end.

Inductive session : Type := AuthorizedSession (file : string) (scopes : option string).

(** The command line after [parser.parse_args()]. *)
Record Args : Type := {
  create : bool;
  track : option string;
  fetch_sa : bool;
  list_ : bool;
  cancel : option string;
  days : Z;
  log_types : option (list string)
}.

Section Script.

Variable W : world.
Variable cfg : Config.

Local Open Scope py_scope.

(** *** Primitive effects *)

Definition emit (e : event) : M unit :=
  fun tr =>
    if interrupted W tr then (Raise KeyboardInterrupt, (tr ++ [e])%list)
    else (Ret tt, (tr ++ [e])%list).

Definition print (line : string) : M unit := emit (EPrint line).

Definition sleep (seconds : Z) : M unit := emit (ESleep seconds).

Definition send (r : request) : M response :=
  fun tr =>
    if interrupted W tr then (Raise KeyboardInterrupt, (tr ++ [ERequest r])%list)
    else
      match server W (count_requests tr) r with
      | inl msg => (Raise (RequestException msg), (tr ++ [ERequest r])%list)
      | inr resp => (Ret resp, (tr ++ [ERequest r])%list)
      end.

(** [session.get(url, timeout=Config.TIMEOUT)] *)
Definition session_get (s : session) (url : string) : M response :=
  send {| req_method := GET; req_url := url; req_json := None;
          req_timeout := TIMEOUT cfg |}.

(** [session.post(url, json=body, timeout=Config.TIMEOUT)] *)
Definition session_post (s : session) (url : string) (body : option json)
  : M response :=
  send {| req_method := POST; req_url := url; req_json := body;
          req_timeout := TIMEOUT cfg |}.

Definition now_utc : M DateTime.t :=
  fun tr => (Ret (utc_now W (List.length tr)), tr).

Definition now_local : M DateTime.t :=
  fun tr => (Ret (local_now W (List.length tr)), tr).

(** [service_account.Credentials.from_service_account_file(...)] followed
    by [requests.AuthorizedSession(credentials)] *)
Definition load_session (file : string) (scopes : option string) : M session :=
  emit (ELoadCredentials file scopes) ;;
  match credentials W file with
  | Some msg => raise (OtherException msg)
  | None => ret (AuthorizedSession file scopes)
  end.

(** *** [get_authorized_session] *)

Definition get_authorized_session : M session :=
  try_except
    (if negb (Py.truthy (Py.of_opt (SERVICE_ACCOUNT_FILE cfg))) then
       raise (ValueError "SECOPS_ACCOUNT_JSON not found in .env")
     else
       load_session (fmt (SERVICE_ACCOUNT_FILE cfg)) (SCOPES cfg))
    (fun e =>
       if is_Exception e then
         Some (print ("Authentication Error: " ++ exn_str e) ;; raise e)
       else None).

(** *** [fetch_service_account] *)

Definition fetch_service_account (s : session) : M json :=
  let url := API_BASE_URL cfg ++ "/" ++ INSTANCE_BASE_PATH cfg
               ++ "/dataExports:fetchServiceAccountForDataExport" in
  print (Py.LF ++ "[Action] Fetching Chronicle Service Account...") ;;
  resp <- session_get s url ;;
  lift (raise_for_status resp) ;;
  data <- lift (resp_json resp) ;;
  first <- lift (PyObj.get data "serviceAccountEmail" JNull) ;;
  sa_email <- (if Py.truthy first then ret first
               else lift (PyObj.get data "email" JNull)) ;;
  print ("Chronicle Service Account: " ++ Py.str sa_email) ;;
  print ("-> INSTRUCTION: Grant '" ++ Py.str sa_email
           ++ "' the 'Storage Object Admin' role on your target bucket.") ;;
  ret sa_email.

(** *** [list_data_exports] *)

(** The body of the [for export in exports] loop. *)
Definition print_export (export : json) : M unit :=
  name_field <- lift (PyObj.get export "name" (JStr "UNKNOWN")) ;;
  name <- lift (PyObj.split_last name_field) ;;
  status <- lift (PyObj.get export "dataExportStatus" (JObj [])) ;;
  stage <- lift (PyObj.get status "stage" (JStr "UNKNOWN")) ;;
  create_time <- lift (PyObj.get export "createTime" (JStr "")) ;;
  name_col <- lift (PyObj.format_left (JStr name) 38) ;;
  stage_col <- lift (PyObj.format_left stage 20) ;;
  print ("ID: " ++ name_col ++ " | Stage: " ++ stage_col
           ++ " | Created: " ++ Py.str create_time).

Fixpoint for_each (items : list json) (body : json -> M unit) : M unit :=
  match items with
  | [] => ret tt
  | x :: rest => body x ;; for_each rest body
  end.

Definition list_data_exports (s : session) : M json :=
  let url := API_BASE_URL cfg ++ "/" ++ INSTANCE_BASE_PATH cfg
               ++ "/dataExports" in
  print (Py.LF ++ "[Action] Listing Data Exports...") ;;
  resp <- session_get s url ;;
  lift (raise_for_status resp) ;;
  data <- lift (resp_json resp) ;;
  exports <- lift (PyObj.get data "dataExports" (JArr [])) ;;
  if negb (Py.truthy exports) then
    print "No data exports found." ;;
    ret JNull
  else
    n <- lift (PyObj.len exports) ;;
    print ("Found " ++ PyInt.to_str n ++ " export(s):" ++ Py.LF) ;;
    items <- lift (PyObj.iter exports) ;;
    for_each items print_export ;;
    ret JNull.

(** *** [get_data_export_status] *)

Definition get_data_export_status (s : session) (export_id : json) : M json :=
  full_path <- lift (_normalize_id cfg export_id) ;;
  let url := API_BASE_URL cfg ++ "/" ++ Py.str full_path in
  resp <- session_get s url ;;
  lift (raise_for_status resp) ;;
  lift (resp_json resp).

(** *** [cancel_data_export] *)

Definition cancel_data_export (s : session) (export_id : json) : M json :=
  full_path <- lift (_normalize_id cfg export_id) ;;
  let url := API_BASE_URL cfg ++ "/" ++ Py.str full_path ++ ":cancel" in
  print (Py.LF ++ "[Action] Cancelling Data Export job: "
           ++ Py.str export_id ++ "...") ;;
  resp <- session_post s url None ;;
  lift (raise_for_status resp) ;;
  print "Cancel request issued successfully." ;;
  get_data_export_status s export_id ;;
  ret JNull.

(** *** [create_data_export] *)

Definition log_type_path (lt : string) : string :=
  "projects/" ++ fmt (PROJECT_ID cfg) ++ "/locations/" ++ fmt (LOCATION cfg)
    ++ "/instances/" ++ fmt (INSTANCE_ID cfg) ++ "/logTypes/" ++ lt.

(** [if log_types:] for [None] or a list. *)
Definition log_types_given (lts : option (list string)) : bool :=
  match lts with
  | Some (_ :: _) => true
  | _ => false
  end.

Definition log_types_obj (lts : option (list string)) : json :=
  match lts with
  | Some l => JArr (map JStr l)
  | None => JNull
  end.

(** The time range and the [payload] dictionary, from the clock reading
    [end_time_dt]. *)
Definition build_payload (end_time_dt : DateTime.t) (days_back : Z)
    (lts : option (list string)) : pyres json :=
  pyres_bind (DateTime.timedelta_days days_back) (fun delta =>
  pyres_bind (DateTime.sub_days end_time_dt delta) (fun start_time_dt =>
  Ok (JObj
        ([("startTime", JStr (DateTime.strftime_rfc3339 start_time_dt));
          ("endTime", JStr (DateTime.strftime_rfc3339 end_time_dt));
          ("gcsBucket", Py.of_opt (GCS_BUCKET cfg))]
         ++ (if log_types_given lts then
               [("includeLogTypes",
                 JArr (map (fun lt => JStr (log_type_path lt))
                           (match lts with Some l => l | None => [] end)))]
             else []))))).

Definition create_data_export (s : session) (days_back : Z)
    (lts : option (list string)) : M json :=
  let url := API_BASE_URL cfg ++ "/" ++ INSTANCE_BASE_PATH cfg
               ++ "/dataExports" in
  end_time_dt <- now_utc ;;
  payload <- lift (build_payload end_time_dt days_back lts) ;;
  print (Py.LF ++ "[Action] Creating Data Export Job...") ;;
  print ("Target: " ++ fmt (GCS_BUCKET cfg) ++ " | Range: Last "
           ++ PyInt.to_str days_back ++ " days") ;;
  (if log_types_given lts then
     print ("Log Types: " ++ Py.str (log_types_obj lts))
   else ret tt) ;;
  resp <- session_post s url (Some payload) ;;
  lift (raise_for_status resp) ;;
  export_data <- lift (resp_json resp) ;;
  export_id <- lift (PyObj.get export_data "name" JNull) ;;
  print ("Success. Job Created: " ++ Py.str export_id) ;;
  ret export_id.

(** *** [track_export_until_completion] *)

(** The [while True] loop; [fuel] bounds the number of iterations the
    model runs. *)
Fixpoint track_loop (fuel : nat) (s : session) (export_id : json) : M unit :=
  match fuel with
  | O => fun tr => (OutOfFuel, tr)
  | S fuel' =>
      status_data <- get_data_export_status s export_id ;;
      status <- lift (PyObj.get status_data "dataExportStatus" (JObj [])) ;;
      state <- lift (PyObj.get status "stage" (JStr "UNKNOWN")) ;;
      timestamp <- now_local ;;
      print ("[" ++ DateTime.strftime_hms timestamp ++ "] Status: "
               ++ Py.str state) ;;
      if PyObj.eq_str state "FINISHED_SUCCESS" then
        print (Py.LF ++ "--- Export COMPLETED SUCCESSFULLY ---")
      else if PyObj.in_strs state ["FINISHED_FAILURE"; "CANCELLED"] then
        print (Py.LF ++ "--- Export " ++ Py.str state ++ " ---") ;;
        print (Py.dumps_indent2 status_data)
      else if PyObj.in_strs state ["IN_QUEUE"; "PROCESSING"; "PENDING"] then
        sleep 30 ;;
        track_loop fuel' s export_id
      else
        print ("Unknown state '" ++ Py.str state ++ "'. Stopping tracker.") ;;
        print (Py.dumps_indent2 status_data)
  end.

Definition track_export_until_completion (fuel : nat) (s : session)
    (export_id : json) : M unit :=
  print (Py.LF ++ "[Tracker] Tracking status for: " ++ Py.str export_id) ;;
  print "Press Ctrl+C to stop tracking (job will continue running in background)." ;;
  try_except (track_loop fuel s export_id)
    (fun e =>
       match e with
       | KeyboardInterrupt =>
           Some (print (Py.LF ++ "Tracking stopped by user. Job continues in Chronicle."))
       | _ => None
       end).

(** *** [main] *)

(** [all([PROJECT_ID, INSTANCE_ID, GCS_BUCKET])] *)
Definition config_complete : bool :=
  forallb (fun v => Py.truthy (Py.of_opt v))
          [PROJECT_ID cfg; INSTANCE_ID cfg; GCS_BUCKET cfg].

(** The [except requests_lib.exceptions.HTTPError as e] clause.  The
    response of an [HTTPError] raised by [raise_for_status] is never
    [None]; the inner bare [except:] catches every exception. *)
Definition report_http_error (msg : string) (resp : response) : M unit :=
  print (Py.LF ++ "API Error: " ++ msg) ;;
  try_except
    (err_json <- lift (resp_json resp) ;;
     print ("Details: " ++ Py.dumps_indent2 err_json))
    (fun _ => Some (print ("API Response: " ++ text resp))).

Definition main (fuel : nat) (args : Args) : M unit :=
  if negb config_complete then
    print "Error: Missing critical .env configuration."
  else
    try_except
      (s <- get_authorized_session ;;
       if fetch_sa args then
         fetch_service_account s ;; ret tt
       else if list_ args then
         list_data_exports s ;; ret tt
       else if Py.truthy (Py.of_opt (cancel args)) then
         cancel_data_export s (Py.of_opt (cancel args)) ;; ret tt
       else if Py.truthy (Py.of_opt (track args)) then
         track_export_until_completion fuel s (Py.of_opt (track args))
       else
         new_id <- create_data_export s (days args) (log_types args) ;;
         track_export_until_completion fuel s new_id)
      (fun e =>
         match e with
         | HTTPError msg resp => Some (report_http_error msg resp)
         | KeyboardInterrupt => None
         | _ => Some (print (Py.LF ++ "Error: " ++ exn_str e))
         end).

End Script.

(** The two conditions of the source, as properties of the text. *)
Definition has_substring (sub s : string) : Prop :=
  exists a b, s = a ++ sub ++ b.

Definition has_prefix (p s : string) : Prop :=
  exists b, s = p ++ b.

(** ** Vocabulary of the poller's properties *)

(** The request by which [get_data_export_status] fetches the resource at
    the normalized path [path]. *)
Definition status_request (cfg : Config) (path : string) : request := {|
  req_method := GET;
  req_url := API_BASE_URL cfg ++ "/" ++ path;
  req_json := None;
  req_timeout := TIMEOUT cfg
|}.

(** The line the tracker prints for an observation made when the trace is
    [tr]. *)
Definition status_line (W : world) (tr : trace) (stage : json) : event :=
  EPrint ("[" ++ DateTime.strftime_hms (local_now W (List.length tr))
              ++ "] Status: " ++ Py.str stage).

(** At trace [tr], the next status fetch for [export_id] goes to [path]
    and is answered, without an HTTP error, by the resource [payload]
    whose stage reads as [stage] (the text [UNKNOWN] when the resource has
    no stage). *)
Definition observes (W : world) (cfg : Config) (tr : trace)
    (export_id : json) (path : string) (payload stage : json) : Prop :=
  _normalize_id cfg export_id = Ok (JStr path)
  /\ exists resp status,
       server W (count_requests tr) (status_request cfg path) = inr resp
       /\ raise_for_status resp = Ok tt
       /\ json_result resp = inr payload
       /\ PyObj.get payload "dataExportStatus" (JObj []) = Ok status
       /\ PyObj.get status "stage" (JStr "UNKNOWN") = Ok stage.

Definition known_stages : list string :=
  ["FINISHED_SUCCESS"; "FINISHED_FAILURE"; "CANCELLED";
   "IN_QUEUE"; "PROCESSING"; "PENDING"].

Definition success_line : string :=
  Py.LF ++ "--- Export COMPLETED SUCCESSFULLY ---".

Definition failure_line (stage : json) : string :=
  Py.LF ++ "--- Export " ++ Py.str stage ++ " ---".

Definition anomaly_line (stage : json) : string :=
  "Unknown state '" ++ Py.str stage ++ "'. Stopping tracker.".

(** The run [r] of the tracker stopped and reported [stage] as an
    anomaly. *)
Definition stops_with_anomaly (stage : json) (r : outcome unit * trace) : Prop :=
  fst r = Ret tt /\ In (EPrint (anomaly_line stage)) (snd r).

Definition is_post (e : event) : bool :=
  match e with
  | ERequest r => match req_method r with POST => true | GET => false end
  | _ => false
  end.

(** The request of [fetch_service_account]. *)
Definition fetch_request (cfg : Config) : request := {|
  req_method := GET;
  req_url := API_BASE_URL cfg ++ "/" ++ INSTANCE_BASE_PATH cfg
               ++ "/dataExports:fetchServiceAccountForDataExport";
  req_json := None;
  req_timeout := TIMEOUT cfg
|}.

(** The computation [c], started at [tr] in a world whose server answers
    the next request with [resp], ends by raising the HTTP error of
    [resp]. *)
Definition raises_http (W : world) (resp : response) (msg : string)
    {A : Type} (c : M A) (tr : trace) : Prop :=
  (forall r, server W (count_requests tr) r = inr resp) ->
  exists before,
    c tr = (Raise (HTTPError msg resp), (tr ++ before)%list).

(** Every request that [c] sends and that the server answers with a 4xx
    or 5xx response is the last event of [c], and [c] raises the
    [HTTPError] of that response: no such answer is passed over. *)
Definition stops_at_http_error (W : world) {A : Type} (c : M A) : Prop :=
  forall tr : trace, exists new : trace,
    snd (c tr) = (tr ++ new)%list
    /\ forall pre r post resp,
         new = (pre ++ ERequest r :: post)%list ->
         server W (count_requests (tr ++ pre)%list) r = inr resp ->
         400 <= status_code resp < 600 ->
         post = []
         /\ exists msg,
              raise_for_status resp = Err (HTTPError msg resp)
              /\ fst (c tr) = Raise (HTTPError msg resp).

(** [c] sends no request. *)
Definition sends_nothing {A : Type} (c : M A) : Prop :=
  forall tr : trace, exists new : trace,
    snd (c tr) = (tr ++ new)%list
    /\ Forall (fun e => is_request e = false) new.

(** ** Vocabulary of the listing properties *)

(** The request of [list_data_exports]. *)
Definition list_request (cfg : Config) : request := {|
  req_method := GET;
  req_url := API_BASE_URL cfg ++ "/" ++ INSTANCE_BASE_PATH cfg ++ "/dataExports";
  req_json := None;
  req_timeout := TIMEOUT cfg
|}.

(** An export job as the service lists it: its resource name, its stage
    and its creation time. *)
Record export_job : Type := {
  job_name : string;
  job_stage : string;
  job_created : string
}.

Definition export_json (j : export_job) : json :=
  JObj [("name", JStr (job_name j));
        ("dataExportStatus", JObj [("stage", JStr (job_stage j))]);
        ("createTime", JStr (job_created j))].

(** The summary line of a job: short id, stage and creation time. *)
Definition summary_line (j : export_job) : string :=
  "ID: " ++ PyObj.ljust 38 (PyObj.last_segment "/"%char (job_name j))
         ++ " | Stage: " ++ PyObj.ljust 20 (job_stage j)
         ++ " | Created: " ++ job_created j.

(** What [list_data_exports] prints after its request for the listed
    [jobs]. *)
Definition listing (jobs : list export_job) : trace :=
  match jobs with
  | [] => [EPrint "No data exports found."]
  | _ =>
      EPrint ("Found " ++ PyInt.to_str (Z.of_nat (List.length jobs))
                       ++ " export(s):" ++ Py.LF)
      :: map (fun j => EPrint (summary_line j)) jobs
  end.

(** ** Vocabulary of the time-range properties *)

(** The reading of a timestamp text of the form [YYYY-MM-DDTHH:MM:SSZ]:
    its six numeric fields, and the instant it denotes in seconds counted
    from the start of day 0 of the proleptic Gregorian calendar.  A text of
    any other form has no reading. *)
Module Rfc3339.

Definition digit_val (c : ascii) : option Z :=
  let n := nat_of_ascii c in
  if Nat.leb 48 n && Nat.leb n 57 then Some (Z.of_nat n - 48) else None.

(** Read exactly [w] decimal digits. *)
Fixpoint take_digits (w : nat) (acc : Z) (s : string) : option (Z * string) :=
  match w with
  | O => Some (acc, s)
  | S w' =>
      match s with
      | EmptyString => None
      | String c s' =>
          match digit_val c with
          | Some v => take_digits w' (acc * 10 + v) s'
          | None => None
          end
      end
  end.

Definition expect (c : ascii) (s : string) : option string :=
  match s with
  | EmptyString => None
  | String x s' => if Ascii.eqb x c then Some s' else None
  end.

Definition obind {A B} (o : option A) (k : A -> option B) : option B :=
  match o with
  | Some a => k a
  | None => None
  end.

Definition fields (s : string) : option (Z * Z * Z * Z * Z * Z) :=
  obind (take_digits 4 0 s) (fun '(y, s) =>
  obind (expect "-"%char s) (fun s =>
  obind (take_digits 2 0 s) (fun '(mo, s) =>
  obind (expect "-"%char s) (fun s =>
  obind (take_digits 2 0 s) (fun '(d, s) =>
  obind (expect "T"%char s) (fun s =>
  obind (take_digits 2 0 s) (fun '(h, s) =>
  obind (expect ":"%char s) (fun s =>
  obind (take_digits 2 0 s) (fun '(mi, s) =>
  obind (expect ":"%char s) (fun s =>
  obind (take_digits 2 0 s) (fun '(sec, s) =>
  obind (expect "Z"%char s) (fun s =>
  match s with
  | EmptyString => Some (y, mo, d, h, mi, sec)
  | _ => None
  end)))))))))))).

Definition seconds_of (f : Z * Z * Z * Z * Z * Z) : Z :=
  let '(y, mo, d, h, mi, sec) := f in
  DateTime._ymd2ord y mo d * 86400 + h * 3600 + mi * 60 + sec.

Definition instant (s : string) : option Z :=
  option_map seconds_of (fields s).

End Rfc3339.

(** [f] holds of the [len] integers from [start] on. *)
Fixpoint range_all (f : Z -> bool) (start : Z) (len : nat) : bool :=
  match len with
  | O => true
  | S len' => if f start then range_all f (start + 1) len' else false
  end.

(** The check of [_ord2ymd] on day [r] of the 400-year cycle: the date it
    gives has ordinal [r + 1], lies in the years 1 to 400 with a month and
    a day that exist, and in the year 400 only in the last year of the
    cycle. *)
Definition cycle_ok (r : Z) : bool :=
  let '(y, m, d) := DateTime._ord2ymd (r + 1) in
  (DateTime._ymd2ord y m d =? r + 1)
  && (1 <=? y) && (y <=? 400) && (1 <=? m) && (m <=? 12)
  && (1 <=? d) && (d <=? DateTime._days_in_month y m)
  && ((145731 <=? r) || (y <=? 399)).

(** The request of [create_data_export]. *)
Definition create_request (cfg : Config) (payload : json) : request := {|
  req_method := POST;
  req_url := API_BASE_URL cfg ++ "/" ++ INSTANCE_BASE_PATH cfg ++ "/dataExports";
  req_json := Some payload;
  req_timeout := TIMEOUT cfg
|}.

(** ** Vocabulary of the interruption properties *)

(** A computation is [sound] for an event property [P] when, from every
    trace, it only appends events that satisfy [P]; when Ctrl+C arrives
    during one of these events it raises [KeyboardInterrupt] with that
    event as its last one; and it raises [KeyboardInterrupt] in no other
    case. *)
Definition sound (W : world) (P : event -> Prop) {A : Type} (c : M A) : Prop :=
  forall tr : trace, exists new : trace,
    snd (c tr) = (tr ++ new)%list
    /\ Forall P new
    /\ (forall k, sigint W = Some k ->
          (List.length tr <= k < List.length tr + List.length new)%nat ->
          fst (c tr) = Raise KeyboardInterrupt
          /\ (List.length tr + List.length new = S k)%nat)
    /\ (fst (c tr) = Raise KeyboardInterrupt ->
          exists k, sigint W = Some k
            /\ (List.length tr <= k < List.length tr + List.length new)%nat).

Definition not_post (e : event) : Prop := is_post e = false.

Definition stopped_message : string :=
  Py.LF ++ "Tracking stopped by user. Job continues in Chronicle.".

(** From the trace [tr], the computation [c] issues no POST request, and
    if Ctrl+C arrives during one of its events after the first [skip]
    ones, it returns normally right after printing the stop message. *)
Definition stops_on_interrupt (W : world) (skip : nat) (c : M unit)
    (tr : trace) : Prop :=
  exists new,
    snd (c tr) = (tr ++ new)%list
    /\ Forall not_post new
    /\ forall k, sigint W = Some k ->
         (List.length tr + skip <= k < List.length tr + List.length new)%nat ->
         fst (c tr) = Ret tt
         /\ exists before,
              new = (before ++ [EPrint stopped_message])%list
              /\ (List.length tr + List.length before = S k)%nat.

(** ** Sample configurations and scripted worlds *)

Definition example_config : Config := {|
  SERVICE_ACCOUNT_FILE := Some "sa.json";
  SCOPES := Some "https://www.googleapis.com/auth/cloud-platform";
  PROJECT_ID := Some "p1";
  LOCATION := Some "us";
  INSTANCE_ID := Some "i1";
  GCS_BUCKET := Some "my-bucket";
  SECOPS_API_BASE_URL := None;
  TIMEOUT := 60
|}.

Definition sample_now : DateTime.t := {|
  DateTime.year := 2026; DateTime.month := 11; DateTime.day := 4;
  DateTime.hour := 9; DateTime.minute := 30; DateTime.second := 5;
  DateTime.microsecond := 123456
|}.

(** A status resource whose [dataExportStatus.stage] is [stage]. *)
Definition status_payload (stage : json) : json :=
  JObj [("name", JStr "projects/p1/locations/us/instances/i1/dataExports/f0");
        ("dataExportStatus", JObj [("stage", stage)])].

Definition json_response (code : Z) (phrase : string) (body_text : string)
    (body : json) : response := {|
  status_code := code;
  reason := phrase;
  resp_url := "https://chronicle.us.googleapis.com/";
  text := body_text;
  json_result := inr body
|}.

Definition ok_response (body : json) : response :=
  json_response 200 "OK" (Py.dumps_indent2 body) body.

(** A world whose server answers the n-th request with the n-th reply of
    the script and refuses the connection afterwards. *)
Definition scripted_world (replies : list response) (ctrl_c : option nat)
    : world := {|
  server := fun n _ =>
    match nth_error replies n with
    | Some r => inr r
    | None => inl "Connection refused"
    end;
  utc_now := fun _ => sample_now;
  local_now := fun _ => sample_now;
  credentials := fun _ => None;
  sigint := ctrl_c
|}.

(** A world whose server answers every request with [reply]. *)
Definition constant_world (reply : response) (ctrl_c : option nat) : world := {|
  server := fun _ _ => inr reply;
  utc_now := fun _ => sample_now;
  local_now := fun _ => sample_now;
  credentials := fun _ => None;
  sigint := ctrl_c
|}.

(** The script of the scenario PROCESSING, PROCESSING, FINISHED_SUCCESS. *)
Definition scripted_three : world :=
  scripted_world
    (map (fun st => ok_response (status_payload (JStr st)))
         ["PROCESSING"; "PROCESSING"; "FINISHED_SUCCESS"])
    None.

Definition sample_session : session :=
  AuthorizedSession "sa.json" (Some "https://www.googleapis.com/auth/cloud-platform").

Definition no_action : Args := {|
  create := false; track := None; fetch_sa := false; list_ := false;
  cancel := None; days := 1; log_types := None
|}.

(** The simulated 403 reply whose body is the JSON text
    of an object [error] holding [message: forbidden]. *)
Definition forbidden_detail : json :=
  JObj [("error", JObj [("message", JStr "forbidden")])].

Definition forbidden_response : response :=
  json_response 403 "Forbidden"
    ("{" ++ Py.DQ ++ "error" ++ Py.DQ ++ ":{" ++ Py.DQ ++ "message" ++ Py.DQ
         ++ ":" ++ Py.DQ ++ "forbidden" ++ Py.DQ ++ "}}")
    forbidden_detail.

Definition forbidden_world : world := constant_world forbidden_response None.

(** A reply outside 2xx that is not an error for [raise_for_status]: a
    simulated 304 with the same JSON body. *)
Definition not_modified_response : response :=
  json_response 304 "Not Modified" (text forbidden_response) forbidden_detail.

(** A server that accepts the first request of a run and answers the
    second with the simulated 403. *)
Definition forbidden_later_world : world :=
  scripted_world [ok_response (JObj []); forbidden_response] None.

Definition fetch_sa_action : Args := {|
  create := false; track := None; fetch_sa := true; list_ := false;
  cancel := None; days := 1; log_types := None
|}.

Definition cancel_action : Args := {|
  create := false; track := None; fetch_sa := false; list_ := false;
  cancel := Some "f0"; days := 1; log_types := None
|}.

(** No printed line of [tr] contains [sub]. *)
Definition never_prints (sub : string) (tr : trace) : bool :=
  forallb (fun e => match e with
                    | EPrint line => negb (PyStr.contains sub line)
                    | _ => true
                    end) tr.

(** One command line for each of the five actions. *)
Definition five_actions : list Args :=
  [ {| create := false; track := None; fetch_sa := true; list_ := false;
       cancel := None; days := 1; log_types := None |};
    {| create := false; track := None; fetch_sa := false; list_ := true;
       cancel := None; days := 1; log_types := None |};
    {| create := false; track := None; fetch_sa := false; list_ := false;
       cancel := Some "f0"; days := 1; log_types := None |};
    {| create := false; track := Some "f0"; fetch_sa := false; list_ := false;
       cancel := None; days := 1; log_types := None |};
    {| create := true; track := None; fetch_sa := false; list_ := false;
       cancel := None; days := 1; log_types := Some ["OKTA"] |} ].

(** The last line a run printed. *)
Definition last_printed (tr : trace) : string :=
  match last tr (EPrint "") with
  | EPrint line => line
  | _ => ""
  end.

Definition sample_job : export_job := {|
  job_name := "projects/p1/locations/us/instances/i1/dataExports/f0015a77";
  job_stage := "FINISHED_SUCCESS";
  job_created := "2026-11-03T09:30:05Z"
|}.

Definition second_job : export_job := {|
  job_name := "projects/p1/locations/us/instances/i1/dataExports/a1";
  job_stage := "PROCESSING";
  job_created := "2026-11-04T08:00:00Z"
|}.

(** A world whose service lists [jobs]. *)
Definition listing_world (jobs : list export_job) : world :=
  constant_world
    (ok_response (JObj [("dataExports", JArr (map export_json jobs))])) None.

(** ** Vocabulary of further properties *)

(** From every trace, the computation [c] only appends events that
    satisfy [P]. *)
Definition emits (P : event -> Prop) {A : Type} (c : M A) : Prop :=
  forall tr : trace, exists new : trace,
    snd (c tr) = (tr ++ new)%list /\ Forall P new.

(** The events of the tracker for the job at [path]: printed lines, waits
    of 30 seconds and GET requests of the status of that job. *)
Definition tracker_event (cfg : Config) (path : string) (e : event) : Prop :=
  match e with
  | EPrint _ => True
  | ESleep seconds => seconds = 30
  | ERequest r => r = status_request cfg path
  | ELoadCredentials _ _ => False
  end.

Definition is_sleep (e : event) : bool :=
  match e with ESleep _ => true | _ => false end.

Definition count_sleeps (tr : trace) : nat :=
  List.length (filter is_sleep tr).

(** The three stages on which the tracker waits and polls again. *)
Definition non_terminal_stages : list string :=
  ["IN_QUEUE"; "PROCESSING"; "PENDING"].

(** The script of a job seen in the stages [stages] one after the other. *)
Definition stage_script (stages : list string) : list response :=
  map (fun st => ok_response (status_payload (JStr st))) stages.

(** The request of [cancel_data_export] for the job at [path]. *)
Definition cancel_request (cfg : Config) (path : string) : request := {|
  req_method := POST;
  req_url := API_BASE_URL cfg ++ "/" ++ path ++ ":cancel";
  req_json := None;
  req_timeout := TIMEOUT cfg
|}.

(** An entry of a listing in which any of the three fields may be
    missing. *)
Definition export_entry (name stage created : option string) : json :=
  JObj ((match name with Some n => [("name", JStr n)] | None => [] end)
        ++ (match stage with
            | Some st => [("dataExportStatus", JObj [("stage", JStr st)])]
            | None => []
            end)
        ++ (match created with Some c => [("createTime", JStr c)] | None => [] end)).

Definition or_default (o : option string) (default : string) : string :=
  match o with Some v => v | None => default end.

(** The command line [args] with its [--cancel] and [--track] values
    dropped. *)
Definition without_ids (args : Args) : Args := {|
  create := create args; track := None; fetch_sa := fetch_sa args;
  list_ := list_ args; cancel := None; days := days args;
  log_types := log_types args
|}.

(** A value that is absent or the empty text. *)
Definition blank (o : option string) : Prop := o = None \/ o = Some "".

(** The session that [get_authorized_session] returns. *)
Definition the_session (cfg : Config) : session :=
  AuthorizedSession (fmt (SERVICE_ACCOUNT_FILE cfg)) (SCOPES cfg).

Definition load_event (cfg : Config) : event :=
  ELoadCredentials (fmt (SERVICE_ACCOUNT_FILE cfg)) (SCOPES cfg).

Definition any_event (e : event) : Prop := True.

Definition is_print (e : event) : bool :=
  match e with EPrint _ => true | _ => false end.

(** The computation [c], started at [tr], prints, sends one request and
    ends there by raising [e]. *)
Definition fails_at_first_request (e : exn) {A : Type} (c : M A) (tr : trace)
    : Prop :=
  exists prints r,
    c tr = (Raise e, (tr ++ prints ++ [ERequest r])%list)
    /\ forallb is_print prints = true.

(** What the [except] clauses of [main] do with the exception [e]. *)
Definition main_handler (W : world) (e : exn) : M unit :=
  match e with
  | HTTPError msg resp => report_http_error W msg resp
  | KeyboardInterrupt => raise KeyboardInterrupt
  | _ => print W (Py.LF ++ "Error: " ++ exn_str e)
  end.

(** The configuration [cfg] with its location replaced. *)
Definition with_location (cfg : Config) (loc : option string) : Config := {|
  SERVICE_ACCOUNT_FILE := SERVICE_ACCOUNT_FILE cfg;
  SCOPES := SCOPES cfg;
  PROJECT_ID := PROJECT_ID cfg;
  LOCATION := loc;
  INSTANCE_ID := INSTANCE_ID cfg;
  GCS_BUCKET := GCS_BUCKET cfg;
  SECOPS_API_BASE_URL := SECOPS_API_BASE_URL cfg;
  TIMEOUT := TIMEOUT cfg
|}.

(** What [main] makes of the outcome of its [try] body. *)
Definition main_except (W : world) (r : outcome unit * trace)
    : outcome unit * trace :=
  match r with
  | (Raise e, tr) => main_handler W e tr
  | _ => r
  end.

(** The lines [create_data_export] prints before its request. *)
Definition create_banner (cfg : Config) (days_back : Z)
    (lts : option (list string)) : trace :=
  ([EPrint (Py.LF ++ "[Action] Creating Data Export Job...");
    EPrint ("Target: " ++ fmt (GCS_BUCKET cfg) ++ " | Range: Last "
              ++ PyInt.to_str days_back ++ " days")]
   ++ (if log_types_given lts
       then [EPrint ("Log Types: " ++ Py.str (log_types_obj lts))]
       else []))%list.

(** The two lines the tracker prints before it polls. *)
Definition tracker_banner (export_id : json) : trace :=
  [EPrint (Py.LF ++ "[Tracker] Tracking status for: " ++ Py.str export_id);
   EPrint "Press Ctrl+C to stop tracking (job will continue running in background)."].

(** * Properties *)

Module PyStrFacts.
Import PyStr.

Lemma append_assoc (a b c : string) : (a ++ b) ++ c = a ++ (b ++ c).
Proof. induction a as [|x a IH]; simpl; [reflexivity | now rewrite IH]. Qed.

Lemma append_nil_r (a : string) : a ++ "" = a.
Proof. induction a as [|x a IH]; simpl; [reflexivity | now rewrite IH]. Qed.

Lemma prefix_app (p b : string) : String.prefix p (p ++ b) = true.
Proof.
  induction p as [|x p IH]; simpl.
  - now destruct b.
  - destruct (ascii_dec x x) as [_|N]; [exact IH | now elim N].
Qed.

Lemma prefix_inv (p s : string) :
  String.prefix p s = true -> exists b, s = p ++ b.
Proof.
  revert s; induction p as [|x p IH]; intros s H.
  - now exists s.
  - destruct s as [|y s]; simpl in H; [discriminate|].
    destruct (ascii_dec x y) as [->|_]; [|discriminate].
    destruct (IH s H) as [b ->]. now exists b.
Qed.

Lemma startswith_iff (s p : string) :
  startswith s p = true <-> exists b, s = p ++ b.
Proof.
  unfold startswith; split.
  - apply prefix_inv.
  - intros [b ->]. apply prefix_app.
Qed.

Lemma contains_iff (sub s : string) :
  contains sub s = true <-> exists a b, s = a ++ sub ++ b.
Proof.
  split.
  - induction s as [|c s IH]; cbn [contains]; intros H.
    + rewrite orb_false_r in H. destruct (prefix_inv _ _ H) as [b E].
      now exists "", b.
    + apply orb_true_iff in H as [H|H].
      * destruct (prefix_inv _ _ H) as [b E]. now exists "", b.
      * destruct (IH H) as (a & b & ->). now exists (String c a), b.
  - intros (a & b & ->). induction a as [|c a IH].
    + change (""%string ++ sub ++ b)%string with (sub ++ b)%string.
      destruct (sub ++ b)%string eqn:E; cbn [contains]; rewrite <- E;
        now rewrite prefix_app.
    + change (String c a ++ sub ++ b)%string with (String c (a ++ sub ++ b)).
      cbn [contains]. rewrite IH. apply orb_true_r.
Qed.

Lemma contains_false_iff (sub s : string) :
  contains sub s = false <-> ~ exists a b, s = a ++ sub ++ b.
Proof.
  rewrite <- contains_iff. destruct (contains sub s); split; intros H.
  - discriminate.
  - now elim H.
  - discriminate.
  - reflexivity.
Qed.


End PyStrFacts.

Example dumps_forbidden :
  Py.dumps_indent2 (JObj [("error", JObj [("message", JStr "forbidden")])])
  = "{" ++ Py.LF ++ "  " ++ Py.DQ ++ "error" ++ Py.DQ ++ ": {" ++ Py.LF
        ++ "    " ++ Py.DQ ++ "message" ++ Py.DQ ++ ": " ++ Py.DQ ++ "forbidden"
        ++ Py.DQ ++ Py.LF ++ "  }" ++ Py.LF ++ "}".
Proof. reflexivity. Qed.

Example repr_list_okta : Py.str (JArr [JStr "OKTA"; JStr "it's"; JNum (-3)])
  = "['OKTA', " ++ Py.DQ ++ "it's" ++ Py.DQ ++ ", -3]".
Proof. reflexivity. Qed.

Example normalize_short :
  _normalize_id example_config (JStr "f0015a77")
  = Ok (JStr "v1alpha/projects/p1/locations/us/instances/i1/dataExports/f0015a77").
Proof. reflexivity. Qed.

Example normalize_none :
  _normalize_id example_config JNull
  = Err (TypeError "argument of type 'NoneType' is not iterable").
Proof. reflexivity. Qed.

Section Normalizer.

Variable cfg : Config.

Lemma normalize_short_id (s : string) :
  ~ has_substring "projects/" s ->
  _normalize_id cfg (JStr s)
  = Ok (JStr (INSTANCE_BASE_PATH cfg ++ "/dataExports/" ++ s)).
Proof.
  intros H. apply PyStrFacts.contains_false_iff in H.
  unfold _normalize_id. cbn [PyObj.str_in]. now rewrite H.
Qed.

Lemma has_prefix_substring (p s : string) :
  has_prefix p s -> has_substring p s.
Proof. intros [b ->]. now exists "", b. Qed.

Lemma normalize_unversioned (p : string) :
  has_prefix "projects/" p ->
  _normalize_id cfg (JStr p) = Ok (JStr ("v1alpha/" ++ p)).
Proof.
  intros H. pose proof (has_prefix_substring _ _ H) as Hc.
  apply PyStrFacts.contains_iff in Hc. apply PyStrFacts.startswith_iff in H.
  unfold _normalize_id. cbn [PyObj.str_in PyObj.startswith].
  now rewrite Hc, H.
Qed.

Lemma normalize_versioned (v : string) :
  has_substring "projects/" v -> ~ has_prefix "projects/" v ->
  _normalize_id cfg (JStr v) = Ok (JStr v).
Proof.
  intros Hc Hp. apply PyStrFacts.contains_iff in Hc.
  assert (PyStr.startswith v "projects/" = false) as Hs.
  { destruct (PyStr.startswith v "projects/") eqn:E; [|reflexivity].
    elim Hp. now apply PyStrFacts.startswith_iff. }
  unfold _normalize_id. cbn [PyObj.str_in PyObj.startswith].
  now rewrite Hc, Hs.
Qed.

Lemma normalize_str_total (s : string) :
  exists r, _normalize_id cfg (JStr s) = Ok (JStr r).
Proof.
  unfold _normalize_id. cbn [PyObj.str_in PyObj.startswith].
  destruct (PyStr.contains "projects/" s); [|eauto].
  destruct (PyStr.startswith s "projects/"); eauto.
Qed.

(** Every result of the normalizer is a versioned path, because the
    instance base path itself begins with [v1alpha/projects/]. *)
Lemma base_path_versioned (rest : string) :
  has_substring "projects/" (INSTANCE_BASE_PATH cfg ++ rest)
  /\ ~ has_prefix "projects/" (INSTANCE_BASE_PATH cfg ++ rest).
Proof.
  unfold INSTANCE_BASE_PATH. split.
  - exists "v1alpha/". eexists.
    rewrite !PyStrFacts.append_assoc. reflexivity.
  - intros [b E]. discriminate E.
Qed.

Lemma normalize_idempotent (s : string) :
  pyres_bind (_normalize_id cfg (JStr s)) (_normalize_id cfg)
  = _normalize_id cfg (JStr s).
Proof.
  destruct (PyStr.contains "projects/" s) eqn:Hc.
  - apply PyStrFacts.contains_iff in Hc.
    destruct (PyStr.startswith s "projects/") eqn:Hs.
    + apply PyStrFacts.startswith_iff in Hs.
      rewrite (normalize_unversioned s Hs). cbn [pyres_bind].
      apply normalize_versioned.
      * exists "v1alpha/". destruct Hs as [b ->]. now exists b.
      * intros [b E]. discriminate E.
    + assert (~ has_prefix "projects/" s) as Hp.
      { intros H. apply PyStrFacts.startswith_iff in H. congruence. }
      rewrite (normalize_versioned s Hc Hp). cbn [pyres_bind].
      now apply normalize_versioned.
  - apply PyStrFacts.contains_false_iff in Hc.
    rewrite (normalize_short_id s Hc). cbn [pyres_bind].
    destruct (base_path_versioned ("/dataExports/" ++ s)) as [H1 H2].
    now apply normalize_versioned.
Qed.

End Normalizer.

(** C2: identifier normalization is a total function of the raw id and
    the instance base path with exactly three ordered cases.  On every
    string without the substring [projects/] it returns the instance base
    path, then [/dataExports/], then the string; on every string that
    starts with [projects/] it returns [v1alpha/] followed by the string;
    every other string is returned unchanged; on every string it returns a
    string and never raises; and two configurations with the same
    instance base path normalize every string alike. *)
Theorem normalize_three_cases (cfg : Config) :
  (forall s, ~ has_substring "projects/" s ->
     _normalize_id cfg (JStr s)
     = Ok (JStr (INSTANCE_BASE_PATH cfg ++ "/dataExports/" ++ s)))
  /\ (forall p, has_prefix "projects/" p ->
       _normalize_id cfg (JStr p) = Ok (JStr ("v1alpha/" ++ p)))
  /\ (forall v, has_substring "projects/" v -> ~ has_prefix "projects/" v ->
       _normalize_id cfg (JStr v) = Ok (JStr v))
  /\ (forall s, exists r, _normalize_id cfg (JStr s) = Ok (JStr r))
  /\ (forall cfg' s, INSTANCE_BASE_PATH cfg' = INSTANCE_BASE_PATH cfg ->
       _normalize_id cfg' (JStr s) = _normalize_id cfg (JStr s)).
Proof.
  repeat split.
  - apply normalize_short_id.
  - apply normalize_unversioned.
  - apply normalize_versioned.
  - apply normalize_str_total.
  - intros cfg' s E. unfold _normalize_id. now rewrite E.
Qed.

Lemma normalize_three_cases_witness :
  ~ has_substring "projects/" "f0015a77"
  /\ has_prefix "projects/" "projects/p1/locations/us/instances/i1/dataExports/f0"
  /\ has_substring "projects/" "v1alpha/projects/p1/dataExports/f0"
  /\ ~ has_prefix "projects/" "v1alpha/projects/p1/dataExports/f0"
  /\ _normalize_id example_config (JStr "f0015a77")
     = Ok (JStr "v1alpha/projects/p1/locations/us/instances/i1/dataExports/f0015a77")
  /\ _normalize_id example_config
       (JStr "projects/p1/locations/us/instances/i1/dataExports/f0")
     = Ok (JStr "v1alpha/projects/p1/locations/us/instances/i1/dataExports/f0")
  /\ _normalize_id example_config (JStr "v1alpha/projects/p1/dataExports/f0")
     = Ok (JStr "v1alpha/projects/p1/dataExports/f0").
Proof.
  assert (~ has_substring "projects/" "f0015a77") as H1.
  { apply PyStrFacts.contains_false_iff. reflexivity. }
  assert (has_prefix "projects/"
            "projects/p1/locations/us/instances/i1/dataExports/f0") as H2.
  { eexists. reflexivity. }
  assert (has_substring "projects/" "v1alpha/projects/p1/dataExports/f0") as H3.
  { exists "v1alpha/". eexists. reflexivity. }
  assert (~ has_prefix "projects/" "v1alpha/projects/p1/dataExports/f0") as H4.
  { intros [b E]. discriminate E. }
  destruct (normalize_three_cases example_config) as (C1 & C2 & C3 & _).
  exact (conj H1 (conj H2 (conj H3 (conj H4
           (conj (C1 _ H1) (conj (C2 _ H2) (C3 _ H3 H4))))))).
Defined.

(** C6: on an already versioned path [v], one that contains [projects/]
    without starting with it, normalization returns [v] itself, and so
    normalizing the result again gives the same result. *)
Theorem normalize_versioned_idempotent (cfg : Config) (v : string) :
  has_substring "projects/" v -> ~ has_prefix "projects/" v ->
  _normalize_id cfg (JStr v) = Ok (JStr v)
  /\ pyres_bind (_normalize_id cfg (JStr v)) (_normalize_id cfg)
     = _normalize_id cfg (JStr v).
Proof.
  intros Hc Hp. pose proof (normalize_versioned cfg v Hc Hp) as E.
  split; [exact E|]. rewrite E. cbn [pyres_bind]. exact E.
Qed.

Lemma normalize_versioned_idempotent_witness :
  _normalize_id example_config (JStr "v1alpha/projects/p1/dataExports/f0")
  = Ok (JStr "v1alpha/projects/p1/dataExports/f0")
  /\ pyres_bind
       (_normalize_id example_config (JStr "v1alpha/projects/p1/dataExports/f0"))
       (_normalize_id example_config)
     = _normalize_id example_config (JStr "v1alpha/projects/p1/dataExports/f0").
Proof.
  apply (normalize_versioned_idempotent example_config
           "v1alpha/projects/p1/dataExports/f0").
  - exists "v1alpha/". eexists. reflexivity.
  - intros [b E]. discriminate E.
Defined.

Example ord2ymd_2026 : DateTime._ord2ymd 739924 = (2026, 11, 4).
Proof. reflexivity. Qed.

Example ymd2ord_2026 : DateTime._ymd2ord 2026 11 4 = 739924.
Proof. reflexivity. Qed.

Example ord2ymd_max : DateTime._ord2ymd DateTime._MAXORDINAL = (9999, 12, 31).
Proof. reflexivity. Qed.

(** ** The tracker under interruption *)

Section Interruption.
Variable W : world.
Variable cfg : Config.
Variable P : event -> Prop.

Ltac sound_parts := split; [|split; [|split]].

(** A computation that leaves the trace alone and does not report an
    interrupt is sound. *)
Lemma sound_silent {A} (c : M A) :
  (forall tr, snd (c tr) = tr) ->
  (forall tr, fst (c tr) <> Raise KeyboardInterrupt) ->
  sound W P c.
Proof.
  intros Hs Hf tr. exists []. rewrite app_nil_r. sound_parts.
  - apply Hs.
  - constructor.
  - intros k _ Hk. cbn in Hk. lia.
  - intros E. now elim (Hf tr).
Qed.

Lemma sound_ret {A} (a : A) : sound W P (ret a).
Proof. apply sound_silent; intros tr; [reflexivity | discriminate]. Qed.

Lemma sound_lift {A} (r : pyres A) :
  r <> Err KeyboardInterrupt -> sound W P (lift r).
Proof.
  intros Hr. apply sound_silent; intros tr; destruct r as [a|e]; cbn;
    try reflexivity; try discriminate.
  intros E. elim Hr. congruence.
Qed.

Lemma sound_now_local : sound W P (now_local W).
Proof. apply sound_silent; intros tr; [reflexivity | discriminate]. Qed.

Lemma sound_out_of_fuel {A} : sound W P (fun tr => (@OutOfFuel A, tr)).
Proof. apply sound_silent; intros tr; [reflexivity | discriminate]. Qed.

Lemma sound_emit (e : event) : P e -> sound W P (emit W e).
Proof.
  intros He tr. exists [e]. unfold emit, interrupted.
  destruct (sigint W) as [k|] eqn:Hk.
  - destruct (Nat.eqb_spec k (List.length tr)) as [->|Hne]; cbn.
    + sound_parts; auto.
      * intros k' E _. injection E as <-. split; [reflexivity|lia].
      * intros _. exists (List.length tr). split; [reflexivity|lia].
    + sound_parts; auto.
      * intros k' E Hr. injection E as <-. lia.
      * discriminate.
  - cbn. sound_parts; auto; discriminate.
Qed.

Lemma sound_send (r : request) : P (ERequest r) -> sound W P (send W r).
Proof.
  intros He tr. exists [ERequest r]. unfold send, interrupted.
  destruct (sigint W) as [k|] eqn:Hk.
  - destruct (Nat.eqb_spec k (List.length tr)) as [->|Hne]; cbn.
    + sound_parts; auto.
      * intros k' E _. injection E as <-. split; [reflexivity|lia].
      * intros _. exists (List.length tr). split; [reflexivity|lia].
    + destruct (server W (count_requests tr) r); cbn; sound_parts; auto;
        try discriminate; intros k' E Hr; injection E as <-; lia.
  - destruct (server W (count_requests tr) r); cbn; sound_parts; auto;
      discriminate.
Qed.

Lemma sound_bind {A B} (c : M A) (k : A -> M B) :
  sound W P c -> (forall a, sound W P (k a)) -> sound W P (bind c k).
Proof.
  intros Hc Hk tr. destruct (Hc tr) as (n1 & E1 & F1 & I1 & R1).
  unfold bind. destruct (c tr) as [[a|e|] tr1] eqn:Ec; cbn in E1, I1, R1.
  - subst tr1. destruct (Hk a (tr ++ n1)%list) as (n2 & E2 & F2 & I2 & R2).
    exists (n1 ++ n2)%list. rewrite app_assoc, <- E2.
    rewrite length_app in I2, R2. rewrite length_app.
    sound_parts.
    + reflexivity.
    + now apply Forall_app.
    + intros j Hj Hrange.
      destruct (Nat.lt_ge_cases j (List.length tr + List.length n1)) as [Hlt|Hge].
      * destruct (I1 j Hj) as [X _]; [lia|discriminate X].
      * destruct (I2 j Hj) as [X Y]; [lia|]. split; [exact X|lia].
    + intros X. destruct (R2 X) as (j & Hj & Hr). exists j. split; [exact Hj|lia].
  - exists n1. cbn. sound_parts; auto.
    + intros j Hj Hr. destruct (I1 j Hj Hr) as [X Y].
      injection X as ->. now split.
    + intros X. injection X as ->. now apply R1.
  - exists n1. cbn. sound_parts; auto.
    + intros j Hj Hr. destruct (I1 j Hj Hr) as [X _]. discriminate X.
    + discriminate.
Qed.


Lemma get_no_interrupt v k d : PyObj.get v k d <> Err KeyboardInterrupt.
Proof. destruct v; discriminate. Qed.

Lemma normalize_no_interrupt v : _normalize_id cfg v <> Err KeyboardInterrupt.
Proof.
  unfold _normalize_id. destruct v; cbn; try discriminate.
  - destruct (PyStr.contains _ _); [|discriminate].
    destruct (PyStr.startswith _ _); discriminate.
  - destruct (existsb _ _); discriminate.
  - destruct (existsb _ _); discriminate.
Qed.

Lemma raise_for_status_no_interrupt r :
  raise_for_status r <> Err KeyboardInterrupt.
Proof.
  unfold raise_for_status.
  destruct (_ && _); [discriminate|]. destruct (_ && _); discriminate.
Qed.

Lemma resp_json_no_interrupt r : resp_json r <> Err KeyboardInterrupt.
Proof. unfold resp_json. destruct (json_result r); discriminate. Qed.

End Interruption.

Create HintDb sound.

Section TrackerInterruption.
Variable W : world.
Variable cfg : Config.

#[local] Hint Resolve sound_ret sound_lift sound_now_local sound_out_of_fuel
  sound_emit sound_send sound_bind get_no_interrupt normalize_no_interrupt
  raise_for_status_no_interrupt resp_json_no_interrupt : sound.

Lemma sound_get_status s eid :
  sound W not_post (get_data_export_status W cfg s eid).
Proof.
  unfold get_data_export_status, session_get.
  repeat (apply sound_bind; [|intros ?]); auto with sound.
  apply sound_send. reflexivity.
Qed.

Lemma sound_print line : sound W not_post (print W line).
Proof. apply sound_emit. reflexivity. Qed.

Lemma sound_track_loop fuel s eid :
  sound W not_post (track_loop W cfg fuel s eid).
Proof.
  induction fuel as [|fuel IH]; cbn [track_loop].
  - apply sound_out_of_fuel.
  - apply sound_bind; [apply sound_get_status | intros status_data].
    apply sound_bind; [auto with sound | intros status].
    apply sound_bind; [auto with sound | intros state].
    apply sound_bind; [apply sound_now_local | intros timestamp].
    apply sound_bind; [apply sound_print | intros _].
    destruct (PyObj.eq_str _ _); [apply sound_print|].
    destruct (PyObj.in_strs _ _).
    { apply sound_bind; [apply sound_print | intros _; apply sound_print]. }
    destruct (PyObj.in_strs _ _).
    { apply sound_bind; [|intros _; exact IH]. apply sound_emit. reflexivity. }
    apply sound_bind; [apply sound_print | intros _; apply sound_print].
Qed.

(** The [try]/[except KeyboardInterrupt] of the tracker around a sound
    body. *)
Lemma try_interrupt_spec (body : M unit) (tr : trace) :
  sound W not_post body ->
  exists new,
    snd (try_except body
           (fun e => match e with
                     | KeyboardInterrupt => Some (print W stopped_message)
                     | _ => None
                     end) tr) = (tr ++ new)%list
    /\ Forall not_post new
    /\ forall k, sigint W = Some k ->
         (List.length tr <= k < List.length tr + List.length new)%nat ->
         fst (try_except body
                (fun e => match e with
                          | KeyboardInterrupt => Some (print W stopped_message)
                          | _ => None
                          end) tr) = Ret tt
         /\ exists before,
              new = (before ++ [EPrint stopped_message])%list
              /\ (List.length tr + List.length before = S k)%nat.
Proof.
  intros Hb. destruct (Hb tr) as (nb & Eb & Fb & Ib & Rb).
  unfold try_except. destruct (body tr) as [[[]|e|] trb] eqn:Ebody;
    cbn in Eb, Ib, Rb; subst trb.
  - exists nb. cbn. split; [reflexivity|]. split; [exact Fb|].
    intros k Hk Hr. destruct (Ib k Hk Hr) as [X _]. discriminate X.
  - destruct e;
      try (exists nb; cbn; split; [reflexivity|]; split; [exact Fb|];
           intros k Hk Hr; destruct (Ib k Hk Hr) as [X _]; discriminate X).
    destruct (Rb eq_refl) as (k & Hk & Hr).
    destruct (Ib k Hk Hr) as [_ Hlen].
    exists (nb ++ [EPrint stopped_message])%list.
    unfold print, emit, interrupted. rewrite Hk, length_app.
    destruct (Nat.eqb_spec k (List.length tr + List.length nb)) as [Heq|_]; [lia|].
    cbn [fst snd]. rewrite app_assoc. split; [reflexivity|].
    split; [apply Forall_app; split; [exact Fb | now repeat constructor]|].
    intros k' Hk' _. split; [reflexivity|].
    exists nb. split; [reflexivity|]. congruence.
  - exists nb. cbn. split; [reflexivity|]. split; [exact Fb|].
    intros k Hk Hr. destruct (Ib k Hk Hr) as [X _]. discriminate X.
Qed.

Lemma print_then_stops (line : string) (c : M unit) (skip : nat) (tr : trace) :
  (forall tr', stops_on_interrupt W skip c tr') ->
  stops_on_interrupt W (S skip) (bind (print W line) (fun _ => c)) tr.
Proof.
  intros Hc. unfold stops_on_interrupt, bind, print, emit.
  destruct (interrupted W tr) eqn:I1.
  - exists [EPrint line]. cbn. split; [reflexivity|].
    split; [now repeat constructor|]. intros k Hk Hr. lia.
  - destruct (Hc (tr ++ [EPrint line])%list) as (new & E & F & I).
    exists (EPrint line :: new). rewrite <- app_assoc in E. cbn in E.
    split; [exact E|]. split; [constructor; [reflexivity | exact F]|].
    intros k Hk Hr. rewrite length_app in I. cbn in Hr, I.
    destruct (I k Hk) as (X & before & Eb & Lb); [lia|].
    split; [exact X|]. exists (EPrint line :: before). cbn.
    split; [now rewrite Eb | lia].
Qed.

End TrackerInterruption.

(** C5: in every execution of the tracker, whatever the replies of the
    server and wherever Ctrl+C arrives, no POST request (hence no cancel
    request) is issued; and when Ctrl+C arrives during an event of the
    polling loop, the tracker returns normally and the only event after
    the interrupted one is the message that tracking stopped: no further
    status fetch is made. *)
Theorem tracker_interrupt_never_cancels
    (W : world) (cfg : Config) (fuel : nat) (s : session) (export_id : json)
    (tr : trace) :
  exists new,
    snd (track_export_until_completion W cfg fuel s export_id tr) = (tr ++ new)%list
    /\ Forall not_post new
    /\ forall k, sigint W = Some k ->
         (List.length tr + 2 <= k < List.length tr + List.length new)%nat ->
         fst (track_export_until_completion W cfg fuel s export_id tr) = Ret tt
         /\ exists before,
              new = (before ++ [EPrint stopped_message])%list
              /\ (List.length tr + List.length before = S k)%nat.
Proof.
  unfold track_export_until_completion.
  apply (print_then_stops W). intros tr1.
  apply (print_then_stops W). intros tr2.
  destruct (try_interrupt_spec W (track_loop W cfg fuel s export_id) tr2
              (sound_track_loop W cfg fuel s export_id)) as (new & E & F & I).
  exists new. split; [exact E|]. split; [exact F|].
  intros k Hk Hr. apply (I k Hk). lia.
Qed.

Lemma tracker_interrupt_never_cancels_witness :
  let W := constant_world (ok_response (status_payload (JStr "PENDING")))
                          (Some 4%nat) in
  let run := track_export_until_completion W example_config 5 sample_session
               (JStr "f0") [] in
  fst run = Ret tt
  /\ Forall not_post (snd run)
  /\ exists before,
       snd run = (before ++ [EPrint stopped_message])%list
       /\ List.length before = 5%nat
       /\ nth_error before 4 = Some (ESleep 30).
Proof.
  intros W run.
  destruct (tracker_interrupt_never_cancels W example_config 5 sample_session
              (JStr "f0") []) as (new & E & F & I).
  fold run in E, I. cbn [app] in E. rewrite E.
  assert (List.length new = 6%nat) as Hlen by (now rewrite <- E).
  destruct (I 4%nat eq_refl) as (Hret & before & Hnew & Hbefore).
  { cbn [List.length]. lia. }
  split; [exact Hret|]. split; [exact F|].
  exists before. split; [exact Hnew|]. split; [exact Hbefore|].
  assert (nth_error new 4 = Some (ESleep 30)) as H4 by (now rewrite <- E).
  rewrite Hnew, nth_error_app1 in H4; [exact H4|]. cbn in Hbefore. lia.
Defined.

(** ** The polling state machine *)

Section PollerFacts.
Variable W : world.
Variable cfg : Config.
Hypothesis quiet : sigint W = None.

Lemma emit_quiet (e : event) (tr : trace) :
  emit W e tr = (Ret tt, (tr ++ [e])%list).
Proof. unfold emit, interrupted. now rewrite quiet. Qed.

Lemma print_quiet (line : string) (tr : trace) :
  print W line tr = (Ret tt, (tr ++ [EPrint line])%list).
Proof. apply emit_quiet. Qed.

Lemma send_quiet (r : request) (resp : response) (tr : trace) :
  server W (count_requests tr) r = inr resp ->
  send W r tr = (Ret resp, (tr ++ [ERequest r])%list).
Proof. intros H. unfold send, interrupted. now rewrite quiet, H. Qed.

Lemma bind_run {A B} (c : M A) (k : A -> M B) (a : A) (tr tr' : trace) :
  c tr = (Ret a, tr') -> bind c k tr = k a tr'.
Proof. intros H. unfold bind. now rewrite H. Qed.

Lemma bind_lift {A B} (r : pyres A) (k : A -> M B) (a : A) (tr : trace) :
  r = Ok a -> bind (lift r) k tr = k a tr.
Proof. now intros ->. Qed.

Lemma bind_assoc {A B C} (c : M A) (k1 : A -> M B) (k2 : B -> M C) (tr : trace) :
  bind (bind c k1) k2 tr = bind c (fun a => bind (k1 a) k2) tr.
Proof. unfold bind. now destruct (c tr) as [[a|e|] tr']. Qed.

Lemma get_status_observe s eid path payload stage tr :
  observes W cfg tr eid path payload stage ->
  get_data_export_status W cfg s eid tr
  = (Ret payload, (tr ++ [ERequest (status_request cfg path)])%list).
Proof.
  intros (Hn & resp & status & Hs & Hr & Hj & _).
  unfold get_data_export_status.
  rewrite (bind_lift _ _ _ _ Hn).
  unfold session_get. cbn [Py.str]. fold (status_request cfg path).
  rewrite (bind_run _ _ _ _ _ (send_quiet _ _ _ Hs)).
  rewrite (bind_lift _ _ _ _ Hr).
  unfold resp_json. now rewrite Hj.
Qed.

(** One iteration of the loop, up to the printed status line. *)
Lemma track_loop_observe fuel s eid path payload stage tr :
  observes W cfg tr eid path payload stage ->
  track_loop W cfg (S fuel) s eid tr =
  (if PyObj.eq_str stage "FINISHED_SUCCESS" then print W success_line
   else if PyObj.in_strs stage ["FINISHED_FAILURE"; "CANCELLED"] then
     bind (print W (failure_line stage))
          (fun _ => print W (Py.dumps_indent2 payload))
   else if PyObj.in_strs stage ["IN_QUEUE"; "PROCESSING"; "PENDING"] then
     bind (sleep W 30) (fun _ => track_loop W cfg fuel s eid)
   else
     bind (print W (anomaly_line stage))
          (fun _ => print W (Py.dumps_indent2 payload)))
    (tr ++ [ERequest (status_request cfg path);
            status_line W (tr ++ [ERequest (status_request cfg path)]) stage])%list.
Proof.
  intros Hobs. pose proof (get_status_observe s _ _ _ _ _ Hobs) as Hget.
  destruct Hobs as (Hn & resp & status & Hs & Hr & Hj & Hg1 & Hg2).
  cbn [track_loop].
  rewrite (bind_run _ _ _ _ _ Hget).
  rewrite (bind_lift _ _ _ _ Hg1), (bind_lift _ _ _ _ Hg2).
  unfold now_local at 1. unfold bind at 1.
  rewrite (bind_run _ _ _ _ _ (print_quiet _ _)).
  rewrite <- app_assoc. reflexivity.
Qed.

Lemma bind_send_first {A} (P : event -> Prop) (r : request)
    (k : response -> M A) (tr : trace) :
  (forall resp, sound W P (k resp)) ->
  exists rest,
    snd (bind (send W r) k tr) = (tr ++ ERequest r :: rest)%list.
Proof.
  intros Hk. unfold bind, send.
  destruct (interrupted W tr); [now exists []|].
  destruct (server W (count_requests tr) r) as [msg|resp]; [now exists []|].
  destruct (Hk resp (tr ++ [ERequest r])%list) as (new & E & _).
  exists new. rewrite E, <- app_assoc. reflexivity.
Qed.

Lemma track_loop_fetches_first fuel s eid path tr :
  _normalize_id cfg eid = Ok (JStr path) ->
  exists rest,
    snd (track_loop W cfg (S fuel) s eid tr)
    = (tr ++ ERequest (status_request cfg path) :: rest)%list.
Proof.
  intros Hn. cbn [track_loop]. unfold get_data_export_status.
  rewrite bind_assoc, (bind_lift _ _ _ _ Hn), bind_assoc.
  unfold session_get. cbn [Py.str]. fold (status_request cfg path).
  apply (bind_send_first not_post). intros resp.
  repeat first
    [ apply sound_bind; [|intros ?]
    | apply sound_print
    | apply sound_now_local
    | apply sound_track_loop
    | apply sound_emit; reflexivity
    | apply sound_lift;
      first [ apply get_no_interrupt | apply raise_for_status_no_interrupt
            | apply resp_json_no_interrupt ]
    | match goal with
      | |- sound _ _ (if ?b then _ else _) => destruct b
      end ].
Qed.

Lemma eq_str_refl (k : string) : PyObj.eq_str (JStr k) k = true.
Proof. apply String.eqb_refl. Qed.

(** A stage that is none of the six known texts fails every test of the
    loop. *)
Lemma unknown_stage_tests (stage : json) :
  (forall k, In k known_stages -> stage <> JStr k) ->
  PyObj.eq_str stage "FINISHED_SUCCESS" = false
  /\ PyObj.in_strs stage ["FINISHED_FAILURE"; "CANCELLED"] = false
  /\ PyObj.in_strs stage ["IN_QUEUE"; "PROCESSING"; "PENDING"] = false.
Proof.
  intros H.
  assert (forall k, In k known_stages -> PyObj.eq_str stage k = false) as Hk.
  { intros k Hin. destruct stage; try reflexivity. cbn.
    destruct (String.eqb_spec k s) as [->|]; [|reflexivity].
    now elim (H s Hin). }
  unfold PyObj.in_strs. cbn [existsb].
  rewrite !Hk; cbn; auto 10.
Qed.

Lemma poller_classification fuel s export_id path payload stage tr :
  observes W cfg tr export_id path payload stage ->
  let req := ERequest (status_request cfg path) in
  let seen := (tr ++ [req; status_line W (tr ++ [req]) stage])%list in
  (stage = JStr "FINISHED_SUCCESS" ->
     track_loop W cfg (S fuel) s export_id tr
     = (Ret tt, (seen ++ [EPrint success_line])%list))
  /\ (stage = JStr "FINISHED_FAILURE" \/ stage = JStr "CANCELLED" ->
      track_loop W cfg (S fuel) s export_id tr
      = (Ret tt, (seen ++ [EPrint (failure_line stage);
                           EPrint (Py.dumps_indent2 payload)])%list))
  /\ ((forall k, In k known_stages -> stage <> JStr k) ->
      track_loop W cfg (S fuel) s export_id tr
      = (Ret tt, (seen ++ [EPrint (anomaly_line stage);
                           EPrint (Py.dumps_indent2 payload)])%list))
  /\ (stage = JStr "IN_QUEUE" \/ stage = JStr "PROCESSING"
        \/ stage = JStr "PENDING" ->
      track_loop W cfg (S fuel) s export_id tr
      = track_loop W cfg fuel s export_id (seen ++ [ESleep 30])%list
      /\ exists rest,
           snd (track_loop W cfg (S (S fuel)) s export_id tr)
           = (seen ++ [ESleep 30; req] ++ rest)%list).
Proof.
  intros Hobs req seen.
  pose proof (fun f => track_loop_observe f s _ _ _ _ _ Hobs) as Hstep.
  fold req in Hstep. fold seen in Hstep.
  split; [|split; [|split]].
  - intros ->. rewrite Hstep. cbn [PyObj.eq_str PyObj.is_str String.eqb Ascii.eqb Bool.eqb].
    apply print_quiet.
  - intros [-> | ->]; rewrite Hstep; cbn;
      rewrite (bind_run _ _ _ _ _ (print_quiet _ _)), print_quiet,
        <- app_assoc; reflexivity.
  - intros Hunk. destruct (unknown_stage_tests _ Hunk) as (T1 & T2 & T3).
    rewrite Hstep, T1, T2, T3.
    rewrite (bind_run _ _ _ _ _ (print_quiet _ _)), print_quiet,
      <- app_assoc. reflexivity.
  - intros Hs.
    assert (forall f, track_loop W cfg (S f) s export_id tr
                      = track_loop W cfg f s export_id (seen ++ [ESleep 30])%list) as Hnext.
    { intros f. rewrite Hstep.
      destruct Hs as [-> | [-> | ->]]; cbn;
        unfold sleep; now rewrite (bind_run _ _ _ _ _ (emit_quiet _ _)). }
    split; [apply Hnext|]. rewrite Hnext.
    destruct (track_loop_fetches_first fuel s export_id path
                (seen ++ [ESleep 30])%list (proj1 Hobs)) as [rest E].
    exists rest. rewrite E, <- app_assoc. reflexivity.
Qed.
End PollerFacts.

Lemma scripted_three_observations (cfg : Config) (fuel : nat) (s : session)
    (id : string) :
  (3 <= fuel)%nat ->
  exists path,
    _normalize_id cfg (JStr id) = Ok (JStr path)
    /\ let req := ERequest (status_request cfg path) in
       track_loop scripted_three cfg fuel s (JStr id) []
       = (Ret tt,
          [req; EPrint "[09:30:05] Status: PROCESSING"; ESleep 30;
           req; EPrint "[09:30:05] Status: PROCESSING"; ESleep 30;
           req; EPrint "[09:30:05] Status: FINISHED_SUCCESS";
           EPrint success_line]).
Proof.
  intros Hfuel. destruct (normalize_str_total cfg id) as [path Hn].
  exists path. split; [exact Hn|]. intros req.
  destruct fuel as [|[|[|fuel]]]; try lia.
  assert (forall tr n st,
            count_requests tr = n ->
            nth_error ["PROCESSING"; "PROCESSING"; "FINISHED_SUCCESS"] n = Some st ->
            observes scripted_three cfg tr (JStr id) path
                     (status_payload (JStr st)) (JStr st)) as Hobs.
  { intros tr n st Hc Hnth. split; [exact Hn|].
    exists (ok_response (status_payload (JStr st))), (JObj [("stage", JStr st)]).
    cbn [scripted_three scripted_world server]. rewrite Hc.
    rewrite nth_error_map, Hnth. repeat split. }
  destruct (poller_classification scripted_three cfg eq_refl (S (S fuel))
              s _ _ _ _ [] (Hobs [] 0%nat "PROCESSING" eq_refl eq_refl))
    as (_ & _ & _ & H1).
  destruct (H1 (or_intror (or_introl eq_refl))) as [-> _]. clear H1.
  match goal with
  | |- track_loop _ _ _ _ _ ?tr = _ =>
      destruct (poller_classification scripted_three cfg eq_refl (S fuel)
                  s _ _ _ _ tr (Hobs tr 1%nat "PROCESSING" eq_refl eq_refl))
        as (_ & _ & _ & H2)
  end.
  destruct (H2 (or_intror (or_introl eq_refl))) as [-> _]. clear H2.
  match goal with
  | |- track_loop _ _ _ _ _ ?tr = _ =>
      destruct (poller_classification scripted_three cfg eq_refl fuel
                  s _ _ _ _ tr (Hobs tr 2%nat "FINISHED_SUCCESS" eq_refl eq_refl))
        as (H3 & _)
  end.
  rewrite (H3 eq_refl). reflexivity.
Qed.

Lemma observes_constant (stage : json) (tr : trace) :
  observes (constant_world (ok_response (status_payload stage)) None)
           example_config tr (JStr "f0")
           "v1alpha/projects/p1/locations/us/instances/i1/dataExports/f0"
           (status_payload stage) stage.
Proof.
  split; [reflexivity|].
  exists (ok_response (status_payload stage)), (JObj [("stage", stage)]).
  repeat split.
Qed.

(** C1, as amended: the polling loop classifies each observed stage as
    follows.  On FINISHED_SUCCESS it stops and reports success after that
    single observation; on FINISHED_FAILURE or CANCELLED it stops and
    reports the failure followed by the full status payload; on any value
    outside the six known values (the three above and IN_QUEUE, PROCESSING,
    PENDING) it stops without another fetch and reports the anomaly
    followed by the full payload; on IN_QUEUE, PROCESSING or PENDING it
    sleeps 30 seconds and fetches the status again.  For the scripted
    sequence PROCESSING, PROCESSING, FINISHED_SUCCESS the loop makes exactly
    three observations and ends in success. *)
Theorem poller_state_machine :
  (forall (W : world) (cfg : Config) (fuel : nat) (s : session)
          (export_id : json) (path : string) (payload stage : json)
          (tr : trace),
      sigint W = None ->
      observes W cfg tr export_id path payload stage ->
      let req := ERequest (status_request cfg path) in
      let seen := (tr ++ [req; status_line W (tr ++ [req]) stage])%list in
      (stage = JStr "FINISHED_SUCCESS" ->
         track_loop W cfg (S fuel) s export_id tr
         = (Ret tt, (seen ++ [EPrint success_line])%list))
      /\ (stage = JStr "FINISHED_FAILURE" \/ stage = JStr "CANCELLED" ->
          track_loop W cfg (S fuel) s export_id tr
          = (Ret tt, (seen ++ [EPrint (failure_line stage);
                               EPrint (Py.dumps_indent2 payload)])%list))
      /\ ((forall k, In k known_stages -> stage <> JStr k) ->
          track_loop W cfg (S fuel) s export_id tr
          = (Ret tt, (seen ++ [EPrint (anomaly_line stage);
                               EPrint (Py.dumps_indent2 payload)])%list))
      /\ (stage = JStr "IN_QUEUE" \/ stage = JStr "PROCESSING"
            \/ stage = JStr "PENDING" ->
          track_loop W cfg (S fuel) s export_id tr
          = track_loop W cfg fuel s export_id (seen ++ [ESleep 30])%list
          /\ exists rest,
               snd (track_loop W cfg (S (S fuel)) s export_id tr)
               = (seen ++ [ESleep 30; req] ++ rest)%list))
  /\ (forall (cfg : Config) (fuel : nat) (s : session) (id : string),
        (3 <= fuel)%nat ->
        exists path,
          _normalize_id cfg (JStr id) = Ok (JStr path)
          /\ let req := ERequest (status_request cfg path) in
             track_loop scripted_three cfg fuel s (JStr id) []
             = (Ret tt,
                [req; EPrint "[09:30:05] Status: PROCESSING"; ESleep 30;
                 req; EPrint "[09:30:05] Status: PROCESSING"; ESleep 30;
                 req; EPrint "[09:30:05] Status: FINISHED_SUCCESS";
                 EPrint success_line])).
Proof.
  split.
  - intros W cfg fuel s export_id path payload stage tr quiet Hobs.
    exact (poller_classification W cfg quiet fuel s _ _ _ _ _ Hobs).
  - exact scripted_three_observations.
Qed.

Lemma poller_state_machine_witness :
  let run stage :=
    track_loop (constant_world (ok_response (status_payload stage)) None)
               example_config 1 sample_session (JStr "f0") [] in
  run (JStr "FINISHED_SUCCESS")
  = (Ret tt,
     [ERequest (status_request example_config
                  "v1alpha/projects/p1/locations/us/instances/i1/dataExports/f0");
      EPrint "[09:30:05] Status: FINISHED_SUCCESS"; EPrint success_line])
  /\ fst (run (JStr "CANCELLED")) = Ret tt
  /\ fst (run (JStr "PAUSED")) = Ret tt
  /\ In (EPrint (anomaly_line (JStr "PAUSED"))) (snd (run (JStr "PAUSED")))
  /\ run (JStr "PENDING") = (OutOfFuel,
       [ERequest (status_request example_config
                    "v1alpha/projects/p1/locations/us/instances/i1/dataExports/f0");
        EPrint "[09:30:05] Status: PENDING"; ESleep 30])
  /\ (exists path,
        _normalize_id example_config (JStr "f0") = Ok (JStr path)
        /\ count_requests
             (snd (track_loop scripted_three example_config 3 sample_session
                     (JStr "f0") [])) = 3%nat).
Proof.
  destruct poller_state_machine as [classify scripted].
  intros run.
  pose proof (fun stage =>
    classify (constant_world (ok_response (status_payload stage)) None)
             example_config 0%nat sample_session (JStr "f0") _ _ stage []
             eq_refl (observes_constant stage [])) as at_stage.
  cbv zeta in at_stage.
  destruct (at_stage (JStr "FINISHED_SUCCESS")) as (Hs & _).
  destruct (at_stage (JStr "CANCELLED")) as (_ & Hc & _).
  destruct (at_stage (JStr "PAUSED")) as (_ & _ & Hu & _).
  destruct (at_stage (JStr "PENDING")) as (_ & _ & _ & Hp).
  assert (forall k, In k known_stages -> JStr "PAUSED" <> JStr k) as Hpaused.
  { intros k Hin E. injection E as <-. cbn in Hin.
    repeat (destruct Hin as [Hin|Hin]; [discriminate Hin|]). exact Hin. }
  destruct (scripted example_config 3%nat sample_session "f0" (le_n 3))
    as (path & Hpath & Hrun).
  unfold run. split; [exact (Hs eq_refl)|].
  split; [now rewrite (Hc (or_intror eq_refl))|].
  split; [now rewrite (Hu Hpaused)|].
  split; [rewrite (Hu Hpaused); cbn; auto|].
  split; [now rewrite (proj1 (Hp (or_intror (or_intror eq_refl))))|].
  exists path. split; [exact Hpath|]. cbv zeta in Hrun. now rewrite Hrun.
Defined.

(** C1 as stated speaks of five known values.  The loop knows six: for
    every choice of five stage names there is a stage outside the five
    that the loop does not report as an anomaly. *)
Lemma five_known_stages_counterexample :
  ~ exists five : list string,
      List.length five = 5%nat
      /\ forall stage : string, ~ In stage five ->
           stops_with_anomaly (JStr stage)
             (track_loop (constant_world (ok_response (status_payload (JStr stage))) None)
                         example_config 1 sample_session (JStr "f0") []).
Proof.
  intros (five & Hlen & Hall).
  assert (forall k, In k known_stages -> In k five) as Hincl.
  { intros k Hk. destruct (in_dec string_dec k five) as [Hin|Hout]; [exact Hin|].
    exfalso. specialize (Hall k Hout). destruct Hall as [Hret Hmsg].
    cbn in Hk.
    repeat (destruct Hk as [<-|Hk];
            [ vm_compute in Hret; vm_compute in Hmsg;
              try discriminate Hret;
              repeat (destruct Hmsg as [Hmsg|Hmsg]; [discriminate Hmsg|]);
              exact Hmsg |]).
    exact Hk. }
  assert (NoDup known_stages) as Hnd.
  { unfold known_stages.
    repeat (constructor; [cbn; intros H;
      repeat (destruct H as [H|H]; [discriminate H|]); exact H|]).
    constructor. }
  pose proof (NoDup_incl_length Hnd Hincl) as Hle.
  rewrite Hlen in Hle. cbn in Hle. lia.
Qed.

(** ** Configuration check and service-account lookup *)

Lemma count_requests_app (a b : trace) :
  count_requests (a ++ b)%list = (count_requests a + count_requests b)%nat.
Proof. unfold count_requests. now rewrite filter_app, length_app. Qed.

Lemma count_requests_print (tr : trace) (line : string) :
  count_requests (tr ++ [EPrint line])%list = count_requests tr.
Proof. rewrite count_requests_app. cbn. lia. Qed.

Lemma main_incomplete_config (W : world) (cfg : Config) (fuel : nat)
    (args : Args) :
  config_complete cfg = false ->
  main W cfg fuel args = print W "Error: Missing critical .env configuration.".
Proof. intros H. unfold main. now rewrite H. Qed.

(** C7: when the project id, the instance id or the bucket is absent,
    [main] prints the configuration error and returns; that message is the
    only event of the run, so no credential file is loaded, no session is
    created and no request is sent. *)
Theorem missing_config_fails_fast (W : world) (cfg : Config) (fuel : nat)
    (args : Args) (tr : trace) :
  PROJECT_ID cfg = None \/ INSTANCE_ID cfg = None \/ GCS_BUCKET cfg = None ->
  snd (main W cfg fuel args tr)
  = (tr ++ [EPrint "Error: Missing critical .env configuration."])%list
  /\ (interrupted W tr = false -> fst (main W cfg fuel args tr) = Ret tt).
Proof.
  intros H.
  assert (config_complete cfg = false) as Hc.
  { unfold config_complete. cbn [forallb].
    destruct H as [-> | [-> | ->]]; cbn [Py.of_opt Py.truthy];
      rewrite ?andb_false_r; reflexivity. }
  rewrite (main_incomplete_config W cfg fuel args Hc).
  unfold print, emit. destruct (interrupted W tr); split; auto. discriminate.
Qed.

Lemma send_quiet_at (W : world) (quiet : sigint W = None) (r : request)
    (resp : response) (tr : trace) (n : nat) :
  count_requests tr = n ->
  server W n r = inr resp ->
  send W r tr = (Ret resp, (tr ++ [ERequest r])%list).
Proof. intros <-. now apply send_quiet. Qed.

Lemma bind_ret {A B} (a : A) (k : A -> M B) (tr : trace) :
  bind (ret a) k tr = k a tr.
Proof. reflexivity. Qed.

Ltac lift_step :=
  match goal with
  | |- context [bind (lift ?r) ?k ?tr] => rewrite (bind_lift r k _ tr eq_refl)
  end.

Section FetchServiceAccount.
Variable W : world.
Variable cfg : Config.
Hypothesis quiet : sigint W = None.

Lemma fetch_service_account_result s tr resp fields :
  server W (count_requests tr) (fetch_request cfg) = inr resp ->
  raise_for_status resp = Ok tt ->
  json_result resp = inr (JObj fields) ->
  fst (fetch_service_account W cfg s tr)
  = Ret (Py.or_ (match Py.dict_get fields "serviceAccountEmail" with
                 | Some v => v | None => JNull end)
                (match Py.dict_get fields "email" with
                 | Some v => v | None => JNull end)).
Proof.
  intros Hs Hr Hj. unfold fetch_service_account.
  rewrite (bind_run _ _ _ _ _ (print_quiet W quiet _ _)).
  unfold session_get. fold (fetch_request cfg).
  rewrite (bind_run _ _ _ _ _
             (send_quiet_at W quiet _ _ _ _ (count_requests_print tr _) Hs)).
  rewrite (bind_lift _ _ _ _ Hr).
  rewrite (bind_lift _ _ (JObj fields) _); [|unfold resp_json; now rewrite Hj].
  lift_step.
  unfold Py.or_.
  destruct (Py.truthy _).
  - rewrite bind_ret.
    rewrite (bind_run _ _ _ _ _ (print_quiet W quiet _ _)).
    rewrite (bind_run _ _ _ _ _ (print_quiet W quiet _ _)). reflexivity.
  - lift_step.
    rewrite (bind_run _ _ _ _ _ (print_quiet W quiet _ _)).
    rewrite (bind_run _ _ _ _ _ (print_quiet W quiet _ _)). reflexivity.
Qed.
End FetchServiceAccount.

(** C10: the email returned by [fetch_service_account] is the
    [serviceAccountEmail] field of the response when that field holds a
    non-empty value; when the field is absent or empty it is the [email]
    field; and when neither field is present the function returns [None]
    without raising. *)
Theorem fetch_service_account_email_selection (W : world) (cfg : Config)
    (s : session) (tr : trace) (resp : response)
    (fields : list (string * json)) :
  sigint W = None ->
  server W (count_requests tr) (fetch_request cfg) = inr resp ->
  raise_for_status resp = Ok tt ->
  json_result resp = inr (JObj fields) ->
  let primary := Py.dict_get fields "serviceAccountEmail" in
  let fallback := Py.dict_get fields "email" in
  let returned := fst (fetch_service_account W cfg s tr) in
  (forall v, primary = Some v -> Py.truthy v = true -> returned = Ret v)
  /\ (primary = None \/ primary = Some (JStr "") ->
      returned = Ret (match fallback with Some v => v | None => JNull end))
  /\ (primary = None -> fallback = None -> returned = Ret JNull).
Proof.
  intros quiet Hs Hr Hj primary fallback returned.
  pose proof (fetch_service_account_result W cfg quiet s tr resp fields Hs Hr Hj)
    as E.
  fold primary fallback returned in E. rewrite E. unfold Py.or_.
  split; [|split].
  - intros v -> Hv. now rewrite Hv.
  - intros [-> | ->]; reflexivity.
  - intros -> ->. reflexivity.
Qed.

Lemma fetch_service_account_email_selection_witness :
  let reply fields := constant_world (ok_response (JObj fields)) None in
  let returned fields :=
    fst (fetch_service_account (reply fields) example_config sample_session []) in
  returned [("serviceAccountEmail", JStr "sa@chronicle.example");
            ("email", JStr "other@chronicle.example")]
  = Ret (JStr "sa@chronicle.example")
  /\ returned [("serviceAccountEmail", JStr "");
               ("email", JStr "other@chronicle.example")]
     = Ret (JStr "other@chronicle.example")
  /\ returned [("email", JStr "other@chronicle.example")]
     = Ret (JStr "other@chronicle.example")
  /\ returned [("unrelated", JNum 1)] = Ret JNull.
Proof.
  intros reply returned.
  pose proof (fun fields =>
    fetch_service_account_email_selection (reply fields) example_config
      sample_session [] (ok_response (JObj fields)) fields
      eq_refl eq_refl eq_refl eq_refl) as sel.
  cbv zeta in sel. unfold returned.
  split; [|split; [|split]].
  - destruct (sel [("serviceAccountEmail", JStr "sa@chronicle.example");
                   ("email", JStr "other@chronicle.example")]) as (H & _).
    exact (H _ eq_refl eq_refl).
  - destruct (sel [("serviceAccountEmail", JStr "");
                   ("email", JStr "other@chronicle.example")]) as (_ & H & _).
    exact (H (or_intror eq_refl)).
  - destruct (sel [("email", JStr "other@chronicle.example")]) as (_ & H & _).
    exact (H (or_introl eq_refl)).
  - destruct (sel [("unrelated", JNum 1)]) as (_ & _ & H).
    exact (H eq_refl eq_refl).
Defined.

Lemma missing_config_fails_fast_witness :
  let cfg := {|
    SERVICE_ACCOUNT_FILE := Some "sa.json"; SCOPES := None;
    PROJECT_ID := Some "p1"; LOCATION := Some "us"; INSTANCE_ID := None;
    GCS_BUCKET := Some "my-bucket"; SECOPS_API_BASE_URL := None; TIMEOUT := 60
  |} in
  main scripted_three cfg 5 no_action []
  = (Ret tt, [EPrint "Error: Missing critical .env configuration."]).
Proof.
  intros cfg.
  destruct (missing_config_fails_fast scripted_three cfg 5 no_action []
              (or_intror (or_introl eq_refl))) as [Htrace Hret].
  specialize (Hret eq_refl). cbn [app] in Htrace.
  destruct (main scripted_three cfg 5 no_action []) as [r tr'].
  cbn [fst snd] in Htrace, Hret. now rewrite Htrace, Hret.
Defined.

(** ** Surfacing of HTTP errors *)

Lemma bind_raise {A B} (c : M A) (k : A -> M B) (e : exn) (tr tr' : trace) :
  c tr = (Raise e, tr') -> bind c k tr = (Raise e, tr').
Proof. intros H. unfold bind. now rewrite H. Qed.

Lemma bind_lift_err {A B} (r : pyres A) (k : A -> M B) (e : exn) (tr : trace) :
  r = Err e -> bind (lift r) k tr = (Raise e, tr).
Proof. now intros ->. Qed.

Lemma raise_for_status_error (resp : response) :
  400 <= status_code resp < 600 ->
  exists msg, raise_for_status resp = Err (HTTPError msg resp).
Proof.
  intros H. unfold raise_for_status.
  destruct (Z.ltb_spec (status_code resp) 500).
  - replace (400 <=? status_code resp) with true by (symmetry; apply Z.leb_le; lia).
    cbn [andb]. eauto.
  - replace (status_code resp <? 600) with true by (symmetry; apply Z.ltb_lt; lia).
    replace (500 <=? status_code resp) with true by (symmetry; apply Z.leb_le; lia).
    rewrite andb_false_r. cbn [andb]. eauto.
Qed.

Lemma raise_for_status_ok (resp : response) :
  ~ 400 <= status_code resp < 600 -> raise_for_status resp = Ok tt.
Proof.
  intros H. unfold raise_for_status.
  destruct (Z.leb_spec 400 (status_code resp));
    destruct (Z.ltb_spec (status_code resp) 500);
    destruct (Z.leb_spec 500 (status_code resp));
    destruct (Z.ltb_spec (status_code resp) 600);
    cbn [andb]; try reflexivity; lia.
Qed.

Lemma count_requests_quiet (tr : trace) (e : event) :
  is_request e = false -> count_requests (tr ++ [e])%list = count_requests tr.
Proof. intros H. rewrite count_requests_app. unfold count_requests. cbn. rewrite H. cbn. lia. Qed.

Lemma bind_now_utc {B} (W : world) (k : DateTime.t -> M B) (tr : trace) :
  bind (now_utc W) k tr = k (utc_now W (List.length tr)) tr.
Proof. reflexivity. Qed.

Section ErrorSurfacing.
Variable W : world.
Variable cfg : Config.
Hypothesis quiet : sigint W = None.
Variable resp : response.
Variable msg : string.
Hypothesis failing : raise_for_status resp = Err (HTTPError msg resp).

Lemma print_then_raises {A} (line : string) (c : M A) (tr : trace) :
  raises_http W resp msg c (tr ++ [EPrint line])%list ->
  raises_http W resp msg (bind (print W line) (fun _ => c)) tr.
Proof.
  intros Hc Hsrv. destruct Hc as [before E].
  { intros r. rewrite count_requests_print. apply Hsrv. }
  exists (EPrint line :: before).
  rewrite (bind_run _ _ _ _ _ (print_quiet W quiet _ _)), E, <- app_assoc.
  reflexivity.
Qed.

Lemma send_then_raises {A} (r : request) (k : response -> M A) (tr : trace) :
  raises_http W resp msg
    (bind (send W r) (fun a => bind (lift (raise_for_status a)) (fun _ => k a))) tr.
Proof.
  intros Hsrv. exists [ERequest r].
  rewrite (bind_run _ _ _ _ _ (send_quiet W quiet _ _ _ (Hsrv r))).
  now rewrite (bind_lift_err _ _ _ _ failing).
Qed.

Lemma fetch_raises s tr : raises_http W resp msg (fetch_service_account W cfg s) tr.
Proof.
  unfold fetch_service_account. apply print_then_raises.
  unfold session_get. apply send_then_raises.
Qed.

Lemma list_raises s tr : raises_http W resp msg (list_data_exports W cfg s) tr.
Proof.
  unfold list_data_exports. apply print_then_raises.
  unfold session_get. apply send_then_raises.
Qed.

Lemma cancel_raises s id tr :
  raises_http W resp msg (cancel_data_export W cfg s (JStr id)) tr.
Proof.
  unfold cancel_data_export. destruct (normalize_str_total cfg id) as [path Hn].
  intros Hsrv. rewrite (bind_lift _ _ _ _ Hn). revert Hsrv.
  apply print_then_raises. unfold session_post. apply send_then_raises.
Qed.

Lemma get_status_raises s id tr :
  raises_http W resp msg (get_data_export_status W cfg s (JStr id)) tr.
Proof.
  unfold get_data_export_status. destruct (normalize_str_total cfg id) as [path Hn].
  intros Hsrv. rewrite (bind_lift _ _ _ _ Hn). revert Hsrv.
  unfold session_get.
  intros Hsrv. exists [ERequest (status_request cfg path)].
  cbn [Py.str]. fold (status_request cfg path).
  rewrite (bind_run _ _ _ _ _ (send_quiet W quiet _ _ _ (Hsrv _))).
  now rewrite (bind_lift_err _ _ _ _ failing).
Qed.

Lemma track_raises fuel s id tr :
  raises_http W resp msg
    (track_export_until_completion W cfg (S fuel) s (JStr id)) tr.
Proof.
  unfold track_export_until_completion.
  apply print_then_raises. apply print_then_raises.
  intros Hsrv. destruct (get_status_raises s id _ Hsrv) as [before E].
  exists before. unfold try_except. cbn [track_loop].
  now rewrite (bind_raise _ _ _ _ _ E).
Qed.

Lemma create_raises s days_back lts payload tr :
  build_payload cfg (utc_now W (List.length tr)) days_back lts = Ok payload ->
  raises_http W resp msg (create_data_export W cfg s days_back lts) tr.
Proof.
  intros Hp. unfold create_data_export.
  intros Hsrv. rewrite bind_now_utc, (bind_lift _ _ _ _ Hp). revert Hsrv.
  apply print_then_raises. apply print_then_raises.
  destruct (log_types_given lts).
  - apply print_then_raises. unfold session_post. apply send_then_raises.
  - intros Hsrv. rewrite bind_ret. revert Hsrv.
    unfold session_post. apply send_then_raises.
Qed.

Lemma report_http_error_details (detail : json) (tr : trace) :
  json_result resp = inr detail ->
  report_http_error W msg resp tr
  = (Ret tt, (tr ++ [EPrint (Py.LF ++ "API Error: " ++ msg);
                     EPrint ("Details: " ++ Py.dumps_indent2 detail)])%list).
Proof.
  intros Hj. unfold report_http_error.
  rewrite (bind_run _ _ _ _ _ (print_quiet W quiet _ _)).
  unfold try_except.
  rewrite (bind_lift _ _ detail _); [|unfold resp_json; now rewrite Hj].
  now rewrite print_quiet, <- app_assoc.
Qed.

Lemma session_loads (tr : trace) :
  Py.truthy (Py.of_opt (SERVICE_ACCOUNT_FILE cfg)) = true ->
  credentials W (fmt (SERVICE_ACCOUNT_FILE cfg)) = None ->
  get_authorized_session W cfg tr
  = (Ret (AuthorizedSession (fmt (SERVICE_ACCOUNT_FILE cfg)) (SCOPES cfg)),
     (tr ++ [ELoadCredentials (fmt (SERVICE_ACCOUNT_FILE cfg)) (SCOPES cfg)])%list).
Proof.
  intros Hf Hc. unfold get_authorized_session, try_except. rewrite Hf.
  cbn [negb]. unfold load_session.
  rewrite (bind_run _ _ _ _ _ (emit_quiet W quiet _ _)). now rewrite Hc.
Qed.

End ErrorSurfacing.

Lemma main_reports_http_error (W : world) (cfg : Config) (fuel : nat)
    (args : Args) (tr : trace) (resp : response) (detail : json) :
  sigint W = None ->
  config_complete cfg = true ->
  Py.truthy (Py.of_opt (SERVICE_ACCOUNT_FILE cfg)) = true ->
  credentials W (fmt (SERVICE_ACCOUNT_FILE cfg)) = None ->
  (forall r, server W (count_requests tr) r = inr resp) ->
  400 <= status_code resp < 600 ->
  json_result resp = inr detail ->
  (fetch_sa args = false -> list_ args = false ->
   Py.truthy (Py.of_opt (cancel args)) = false ->
   Py.truthy (Py.of_opt (track args)) = false ->
   exists payload,
     build_payload cfg (utc_now W (S (List.length tr))) (days args)
                   (log_types args) = Ok payload) ->
  exists before msg,
    raise_for_status resp = Err (HTTPError msg resp)
    /\ main W cfg (S fuel) args tr
       = (Ret tt,
          (tr ++ before ++ [EPrint (Py.LF ++ "API Error: " ++ msg);
                            EPrint ("Details: " ++ Py.dumps_indent2 detail)])%list).
Proof.
  intros quiet Hcfg Hfile Hcred Hsrv Hcode Hj Hcreate.
  destruct (raise_for_status_error resp Hcode) as [msg Hmsg].
  set (tr1 := (tr ++ [ELoadCredentials (fmt (SERVICE_ACCOUNT_FILE cfg))
                                        (SCOPES cfg)])%list).
  assert (forall r, server W (count_requests tr1) r = inr resp) as Hsrv1.
  { intros r. unfold tr1. rewrite count_requests_quiet; [apply Hsrv | reflexivity]. }
  assert (forall A (c : M A),
            raises_http W resp msg c tr1 ->
            forall B (k : A -> M B),
            exists before, bind c k tr1
                           = (Raise (HTTPError msg resp), (tr1 ++ before)%list))
    as Hbody.
  { intros A c Hc B k. destruct (Hc Hsrv1) as [before E].
    exists before. now rewrite (bind_raise _ _ _ _ _ E). }
  assert (exists before,
            (if fetch_sa args then
               bind (fetch_service_account W cfg
                       (AuthorizedSession (fmt (SERVICE_ACCOUNT_FILE cfg)) (SCOPES cfg)))
                    (fun _ => ret tt)
             else if list_ args then
               bind (list_data_exports W cfg
                       (AuthorizedSession (fmt (SERVICE_ACCOUNT_FILE cfg)) (SCOPES cfg)))
                    (fun _ => ret tt)
             else if Py.truthy (Py.of_opt (cancel args)) then
               bind (cancel_data_export W cfg
                       (AuthorizedSession (fmt (SERVICE_ACCOUNT_FILE cfg)) (SCOPES cfg))
                       (Py.of_opt (cancel args)))
                    (fun _ => ret tt)
             else if Py.truthy (Py.of_opt (track args)) then
               track_export_until_completion W cfg (S fuel)
                 (AuthorizedSession (fmt (SERVICE_ACCOUNT_FILE cfg)) (SCOPES cfg))
                 (Py.of_opt (track args))
             else
               bind (create_data_export W cfg
                       (AuthorizedSession (fmt (SERVICE_ACCOUNT_FILE cfg)) (SCOPES cfg))
                       (days args) (log_types args))
                    (fun new_id =>
                       track_export_until_completion W cfg (S fuel)
                         (AuthorizedSession (fmt (SERVICE_ACCOUNT_FILE cfg)) (SCOPES cfg))
                         new_id)) tr1
            = (Raise (HTTPError msg resp), (tr1 ++ before)%list)) as [before E].
  { destruct (fetch_sa args) eqn:A1.
    { apply Hbody. apply (fetch_raises W cfg quiet resp msg Hmsg). }
    destruct (list_ args) eqn:A2.
    { apply Hbody. apply (list_raises W cfg quiet resp msg Hmsg). }
    destruct (cancel args) as [id|] eqn:A3; cbn [Py.of_opt Py.truthy].
    - destruct (negb (id =? "")%string) eqn:A3'.
      { apply Hbody. apply (cancel_raises W cfg quiet resp msg Hmsg). }
      destruct (track args) as [id'|] eqn:A4; cbn [Py.of_opt Py.truthy].
      + destruct (negb (id' =? "")%string) eqn:A4'.
        { apply (track_raises W cfg quiet resp msg Hmsg). exact Hsrv1. }
        destruct (Hcreate eq_refl eq_refl A3' A4') as [payload Hp].
        apply Hbody. apply (create_raises W cfg quiet resp msg Hmsg _ _ _ payload).
        unfold tr1. rewrite length_app, Nat.add_comm. exact Hp.
      + destruct (Hcreate eq_refl eq_refl A3' eq_refl) as [payload Hp].
        apply Hbody. apply (create_raises W cfg quiet resp msg Hmsg _ _ _ payload).
        unfold tr1. rewrite length_app, Nat.add_comm. exact Hp.
    - destruct (track args) as [id'|] eqn:A4; cbn [Py.of_opt Py.truthy].
      + destruct (negb (id' =? "")%string) eqn:A4'.
        { apply (track_raises W cfg quiet resp msg Hmsg). exact Hsrv1. }
        destruct (Hcreate eq_refl eq_refl eq_refl A4') as [payload Hp].
        apply Hbody. apply (create_raises W cfg quiet resp msg Hmsg _ _ _ payload).
        unfold tr1. rewrite length_app, Nat.add_comm. exact Hp.
      + destruct (Hcreate eq_refl eq_refl eq_refl eq_refl) as [payload Hp].
        apply Hbody. apply (create_raises W cfg quiet resp msg Hmsg _ _ _ payload).
        unfold tr1. rewrite length_app, Nat.add_comm. exact Hp. }
  exists (ELoadCredentials (fmt (SERVICE_ACCOUNT_FILE cfg)) (SCOPES cfg) :: before), msg.
  split; [exact Hmsg|].
  unfold main. rewrite Hcfg. cbn [negb]. unfold try_except.
  rewrite (bind_run _ _ _ _ _ (session_loads W cfg quiet tr Hfile Hcred)).
  fold tr1. rewrite E.
  rewrite (report_http_error_details W quiet resp msg detail _ Hj).
  unfold tr1. now rewrite <- !app_assoc.
Qed.

(** ** Every request of a run *)

Lemma request_in_app (a b pre post : trace) (r : request) :
  (a ++ b)%list = (pre ++ ERequest r :: post)%list ->
  (exists post1, a = (pre ++ ERequest r :: post1)%list /\ post = (post1 ++ b)%list)
  \/ (exists pre2, pre = (a ++ pre2)%list /\ b = (pre2 ++ ERequest r :: post)%list).
Proof.
  intros H. apply app_eq_app in H. destruct H as [l [[Ha Hb]|[Ha Hb]]].
  - destruct l as [|x l].
    + right. exists []. rewrite app_nil_r in Ha. cbn [app] in Hb. subst.
      split; [now rewrite app_nil_r | reflexivity].
    + left. cbn [app] in Hb. injection Hb as <- ->. now exists l.
  - right. now exists l.
Qed.

Lemma request_not_in (b pre post : trace) (r : request) :
  Forall (fun e => is_request e = false) b ->
  b <> (pre ++ ERequest r :: post)%list.
Proof.
  intros Hb E. subst b. apply Forall_app in Hb. destruct Hb as [_ Hb].
  inversion Hb as [|x l Hx Hl]. discriminate Hx.
Qed.

Section EveryRequest.
Variable W : world.
Variable cfg : Config.
Hypothesis quiet : sigint W = None.

Lemma sends_nothing_stops {A} (c : M A) :
  sends_nothing c -> stops_at_http_error W c.
Proof.
  intros Hc tr. destruct (Hc tr) as (new & E & Hnew). exists new.
  split; [exact E|]. intros pre r post resp Hsplit.
  now elim (request_not_in new pre post r Hnew).
Qed.

Lemma stops_silent {A} (c : M A) :
  (forall tr, snd (c tr) = tr) -> stops_at_http_error W c.
Proof.
  intros Hc. apply sends_nothing_stops. intros tr. exists [].
  rewrite app_nil_r. split; [apply Hc | constructor].
Qed.

Lemma stops_ret {A} (a : A) : stops_at_http_error W (ret a).
Proof. now apply stops_silent. Qed.

Lemma stops_raise {A} (e : exn) : stops_at_http_error W (@raise A e).
Proof. now apply stops_silent. Qed.

Lemma stops_lift {A} (r : pyres A) : stops_at_http_error W (lift r).
Proof. apply stops_silent. now destruct r. Qed.

Lemma stops_now_utc : stops_at_http_error W (now_utc W).
Proof. now apply stops_silent. Qed.

Lemma stops_now_local : stops_at_http_error W (now_local W).
Proof. now apply stops_silent. Qed.

Lemma stops_out_of_fuel {A} :
  stops_at_http_error W (fun tr => (@OutOfFuel A, tr)).
Proof. now apply stops_silent. Qed.

Lemma stops_emit (e : event) :
  is_request e = false -> stops_at_http_error W (emit W e).
Proof.
  intros He. apply sends_nothing_stops. intros tr. exists [e].
  rewrite (emit_quiet W quiet). split; [reflexivity|]. now constructor.
Qed.

Lemma stops_bind {A B} (c : M A) (k : A -> M B) :
  stops_at_http_error W c -> (forall a, stops_at_http_error W (k a)) ->
  stops_at_http_error W (bind c k).
Proof.
  intros Hc Hk tr. destruct (Hc tr) as (new1 & E1 & H1). unfold bind.
  destruct (c tr) as [[a|e|] tr1]; cbn [fst snd] in *; subst tr1.
  - destruct (Hk a (tr ++ new1)%list) as (new2 & E2 & H2).
    exists (new1 ++ new2)%list. rewrite E2, app_assoc. split; [reflexivity|].
    intros pre r post resp Hsplit Hsrv Hcode.
    destruct (request_in_app _ _ _ _ _ Hsplit) as [(post1 & Hn & _)|(pre2 & -> & Hn)].
    + destruct (H1 pre r post1 resp Hn Hsrv Hcode) as (_ & msg & _ & Habs).
      discriminate Habs.
    + apply (H2 pre2 r post resp Hn); [|exact Hcode].
      now rewrite <- app_assoc.
  - exists new1. split; [reflexivity|].
    intros pre r post resp Hsplit Hsrv Hcode.
    destruct (H1 pre r post resp Hsplit Hsrv Hcode) as (Hpost & msg & Hmsg & Habs).
    injection Habs as ->. split; [exact Hpost|]. now exists msg.
  - exists new1. split; [reflexivity|].
    intros pre r post resp Hsplit Hsrv Hcode.
    destruct (H1 pre r post resp Hsplit Hsrv Hcode) as (_ & msg & _ & Habs).
    discriminate Habs.
Qed.

(** A request whose reply is checked by [raise_for_status] at once. *)
Lemma stops_checked_request {A} (r : request) (k : response -> M A) :
  (forall resp, stops_at_http_error W (k resp)) ->
  stops_at_http_error W
    (bind (send W r) (fun resp =>
     bind (lift (raise_for_status resp)) (fun _ => k resp))).
Proof.
  intros Hk tr.
  destruct (server W (count_requests tr) r) as [why|resp] eqn:Hsrv0.
  - assert (bind (send W r) (fun resp =>
              bind (lift (raise_for_status resp)) (fun _ => k resp)) tr
            = (Raise (RequestException why), (tr ++ [ERequest r])%list)) as Hrun.
    { unfold bind, send, interrupted. now rewrite quiet, Hsrv0. }
    rewrite Hrun. exists [ERequest r]. split; [reflexivity|].
    intros pre r' post resp' Hsplit Hsrv Hcode.
    destruct pre as [|x pre]; cbn [app] in Hsplit.
    + injection Hsplit as <- <-. rewrite app_nil_r in Hsrv. congruence.
    + injection Hsplit as _ Hsplit. now destruct pre.
  - rewrite (bind_run _ _ _ _ _ (send_quiet W quiet _ _ _ Hsrv0)).
    destruct (raise_for_status resp) as [[]|e] eqn:Hr.
    + rewrite (bind_lift _ _ tt _ eq_refl).
      destruct (Hk resp (tr ++ [ERequest r])%list) as (new2 & E2 & H2).
      exists (ERequest r :: new2). rewrite E2, <- app_assoc.
      split; [reflexivity|].
      intros pre r' post resp' Hsplit Hsrv Hcode.
      destruct pre as [|x pre]; cbn [app] in Hsplit.
      * injection Hsplit as <- <-. rewrite app_nil_r in Hsrv.
        assert (resp' = resp) as -> by congruence.
        destruct (raise_for_status_error resp Hcode) as [msg Hmsg]. congruence.
      * injection Hsplit as <- ->.
        apply (H2 pre r' post resp' eq_refl); [|exact Hcode].
        now rewrite <- app_assoc.
    + rewrite (bind_lift_err _ _ e _ eq_refl).
      exists [ERequest r]. split; [reflexivity|].
      intros pre r' post resp' Hsplit Hsrv Hcode.
      destruct pre as [|x pre]; cbn [app] in Hsplit.
      * injection Hsplit as <- <-. rewrite app_nil_r in Hsrv.
        assert (resp' = resp) as -> by congruence.
        split; [reflexivity|].
        destruct (raise_for_status_error resp Hcode) as [msg Hmsg].
        exists msg. split; [exact Hmsg|]. cbn [fst]. congruence.
      * injection Hsplit as _ Hsplit. now destruct pre.
Qed.

(** A [try] whose [except] clauses do not catch [HTTPError]. *)
Lemma stops_try_except {A} (body : M A) (handler : exn -> option (M A)) :
  stops_at_http_error W body ->
  (forall e h, handler e = Some h -> stops_at_http_error W h) ->
  (forall msg resp, handler (HTTPError msg resp) = None) ->
  stops_at_http_error W (try_except body handler).
Proof.
  intros Hb Hh Hnone tr. destruct (Hb tr) as (new1 & E1 & H1).
  unfold try_except.
  destruct (body tr) as [[a|e|] tr1]; cbn [fst snd] in *; subst tr1;
    try (exists new1; split; [reflexivity | exact H1]).
  destruct (handler e) as [h|] eqn:Eh.
  - destruct (Hh e h Eh (tr ++ new1)%list) as (new2 & E2 & H2).
    exists (new1 ++ new2)%list. rewrite E2, app_assoc. split; [reflexivity|].
    intros pre r post resp Hsplit Hsrv Hcode.
    destruct (request_in_app _ _ _ _ _ Hsplit) as [(post1 & Hn & _)|(pre2 & -> & Hn)].
    + destruct (H1 pre r post1 resp Hn Hsrv Hcode) as (_ & msg & _ & Habs).
      injection Habs as ->. now rewrite Hnone in Eh.
    + apply (H2 pre2 r post resp Hn); [|exact Hcode].
      now rewrite <- app_assoc.
  - exists new1. split; [reflexivity | exact H1].
Qed.

Lemma stops_for_each (items : list json) (body : json -> M unit) :
  (forall x, stops_at_http_error W (body x)) ->
  stops_at_http_error W (for_each items body).
Proof.
  intros Hb. induction items as [|x items IH]; cbn [for_each].
  - apply stops_ret.
  - apply stops_bind; [apply Hb | intros _; exact IH].
Qed.

Ltac stops_steps :=
  repeat first
    [ apply stops_checked_request; intros ?
    | apply stops_bind; [|intros ?]
    | apply stops_ret
    | apply stops_raise
    | apply stops_lift
    | apply stops_now_utc
    | apply stops_now_local
    | apply stops_emit; reflexivity
    | apply stops_for_each; intros ?
    | match goal with
      | |- stops_at_http_error _ (if ?b then _ else _) => destruct b
      end ].

Lemma stops_get_status s export_id :
  stops_at_http_error W (get_data_export_status W cfg s export_id).
Proof. unfold get_data_export_status, session_get. stops_steps. Qed.

Lemma stops_fetch s : stops_at_http_error W (fetch_service_account W cfg s).
Proof. unfold fetch_service_account, session_get, print. stops_steps. Qed.

Lemma stops_list s : stops_at_http_error W (list_data_exports W cfg s).
Proof.
  unfold list_data_exports, session_get, print_export, print. stops_steps.
Qed.

Lemma stops_cancel s export_id :
  stops_at_http_error W (cancel_data_export W cfg s export_id).
Proof.
  unfold cancel_data_export, session_post, print. stops_steps.
Qed.

Lemma stops_create s days_back lts :
  stops_at_http_error W (create_data_export W cfg s days_back lts).
Proof. unfold create_data_export, session_post, print. stops_steps. Qed.

Lemma stops_track_loop fuel s export_id :
  stops_at_http_error W (track_loop W cfg fuel s export_id).
Proof.
  induction fuel as [|fuel IH]; cbn [track_loop].
  - apply stops_out_of_fuel.
  - unfold print, sleep. stops_steps; try apply stops_get_status; exact IH.
Qed.

Lemma stops_track fuel s export_id :
  stops_at_http_error W (track_export_until_completion W cfg fuel s export_id).
Proof.
  unfold track_export_until_completion, print. stops_steps.
  apply stops_try_except.
  - apply stops_track_loop.
  - intros e h H. destruct e; try discriminate H. injection H as <-.
    now apply stops_emit.
  - reflexivity.
Qed.

Lemma session_sends_nothing : sends_nothing (get_authorized_session W cfg).
Proof.
  intros tr. unfold get_authorized_session, try_except, load_session.
  destruct (negb (Py.truthy (Py.of_opt (SERVICE_ACCOUNT_FILE cfg)))).
  - cbn [raise is_Exception].
    rewrite (bind_run _ _ _ _ _ (print_quiet W quiet _ _)).
    eexists [_]. split; [reflexivity|]. now repeat constructor.
  - rewrite (bind_run _ _ _ _ _ (emit_quiet W quiet _ _)).
    destruct (credentials W (fmt (SERVICE_ACCOUNT_FILE cfg))) as [why|].
    + cbn [raise is_Exception].
      rewrite (bind_run _ _ _ _ _ (print_quiet W quiet _ _)).
      eexists [_; _]. rewrite <- app_assoc. split; [reflexivity|].
      now repeat constructor.
    + eexists [_]. split; [reflexivity|]. now repeat constructor.
Qed.

(** The [try] body of [main]. *)
Lemma stops_main_body fuel args :
  stops_at_http_error W
    (bind (get_authorized_session W cfg) (fun s =>
       if fetch_sa args then
         bind (fetch_service_account W cfg s) (fun _ => ret tt)
       else if list_ args then
         bind (list_data_exports W cfg s) (fun _ => ret tt)
       else if Py.truthy (Py.of_opt (cancel args)) then
         bind (cancel_data_export W cfg s (Py.of_opt (cancel args)))
              (fun _ => ret tt)
       else if Py.truthy (Py.of_opt (track args)) then
         track_export_until_completion W cfg fuel s (Py.of_opt (track args))
       else
         bind (create_data_export W cfg s (days args) (log_types args))
              (fun new_id => track_export_until_completion W cfg fuel s new_id))).
Proof.
  apply stops_bind; [apply sends_nothing_stops, session_sends_nothing|].
  intros s.
  destruct (fetch_sa args); [apply stops_bind; [apply stops_fetch | intros; apply stops_ret]|].
  destruct (list_ args); [apply stops_bind; [apply stops_list | intros; apply stops_ret]|].
  destruct (Py.truthy (Py.of_opt (cancel args)));
    [apply stops_bind; [apply stops_cancel | intros; apply stops_ret]|].
  destruct (Py.truthy (Py.of_opt (track args))); [apply stops_track|].
  apply stops_bind; [apply stops_create | intros; apply stops_track].
Qed.

Lemma report_http_error_lines (msg : string) (resp : response) (tr : trace) :
  exists line,
    report_http_error W msg resp tr
    = (Ret tt, (tr ++ [EPrint (Py.LF ++ "API Error: " ++ msg); EPrint line])%list)
    /\ forall detail, json_result resp = inr detail ->
         line = "Details: " ++ Py.dumps_indent2 detail.
Proof.
  unfold report_http_error.
  rewrite (bind_run _ _ _ _ _ (print_quiet W quiet _ _)).
  unfold try_except, resp_json.
  destruct (json_result resp) as [why|detail].
  - rewrite (bind_lift_err _ _ (JSONDecodeError why) _ eq_refl).
    rewrite print_quiet, <- app_assoc by exact quiet.
    eexists. split; [reflexivity|]. intros detail H. discriminate H.
  - rewrite (bind_lift _ _ detail _ eq_refl).
    rewrite print_quiet, <- app_assoc by exact quiet.
    eexists. split; [reflexivity|]. intros detail' H. now injection H as <-.
Qed.

(** Whichever request of a run is answered with a 4xx or 5xx response
    whose body decodes as JSON, [main] stops there and reports it. *)
Lemma main_reports_every_http_error (fuel : nat) (args : Args) (tr pre post : trace)
    (r : request) (resp : response) (detail : json) :
  snd (main W cfg fuel args tr) = (tr ++ pre ++ ERequest r :: post)%list ->
  server W (count_requests (tr ++ pre)%list) r = inr resp ->
  400 <= status_code resp < 600 ->
  json_result resp = inr detail ->
  exists msg,
    raise_for_status resp = Err (HTTPError msg resp)
    /\ fst (main W cfg fuel args tr) = Ret tt
    /\ post = [EPrint (Py.LF ++ "API Error: " ++ msg);
               EPrint ("Details: " ++ Py.dumps_indent2 detail)].
Proof.
  intros Hrun Hsrv Hcode Hj. unfold main in *.
  destruct (negb (config_complete cfg)).
  { rewrite print_quiet in Hrun by exact quiet. cbn [snd] in Hrun.
    apply app_inv_head in Hrun. exfalso.
    refine (request_not_in _ pre post r _ Hrun). now repeat constructor. }
  destruct (stops_main_body fuel args tr) as (new & E & Hnew).
  assert (forall tail,
            (new ++ tail)%list = (pre ++ ERequest r :: post)%list ->
            Forall (fun e => is_request e = false) tail ->
            exists msg,
              raise_for_status resp = Err (HTTPError msg resp)
              /\ post = tail
              /\ fst (bind (get_authorized_session W cfg) (fun s =>
                     if fetch_sa args then
                       bind (fetch_service_account W cfg s) (fun _ => ret tt)
                     else if list_ args then
                       bind (list_data_exports W cfg s) (fun _ => ret tt)
                     else if Py.truthy (Py.of_opt (cancel args)) then
                       bind (cancel_data_export W cfg s (Py.of_opt (cancel args)))
                            (fun _ => ret tt)
                     else if Py.truthy (Py.of_opt (track args)) then
                       track_export_until_completion W cfg fuel s
                         (Py.of_opt (track args))
                     else
                       bind (create_data_export W cfg s (days args) (log_types args))
                            (fun new_id =>
                               track_export_until_completion W cfg fuel s new_id))
                     tr)
                 = Raise (HTTPError msg resp)) as Hfound.
  { intros tail Hsplit Htail.
    destruct (request_in_app _ _ _ _ _ Hsplit) as [(post1 & Hn & ->)|(pre2 & _ & Hn)].
    - destruct (Hnew pre r post1 resp Hn Hsrv Hcode) as (-> & msg & Hmsg & Hraise).
      exists msg. now repeat split.
    - now elim (request_not_in tail pre2 post r Htail). }
  clear Hnew. unfold try_except in *.
  match type of E with
  | snd (?b tr) = _ => destruct (b tr) as [[[]|e|] tr1]
  end; cbn [fst snd] in E, Hfound, Hrun |- *; revert Hrun; rewrite E; intros Hrun.
  - rewrite <- (app_nil_r new) in Hrun. apply app_inv_head in Hrun.
    destruct (Hfound [] Hrun (Forall_nil _)) as (msg & _ & _ & Habs).
    discriminate Habs.
  - destruct e as [|msg0 resp0| | | | | | |].
    2: { destruct (report_http_error_lines msg0 resp0 (tr ++ new)%list)
           as (line & Hrep & Hline).
         rewrite Hrep in Hrun |- *. cbn [fst snd] in Hrun |- *.
         rewrite <- app_assoc in Hrun. apply app_inv_head in Hrun.
         destruct (Hfound _ Hrun ltac:(now repeat constructor))
           as (msg & Hmsg & -> & Habs).
         injection Habs as -> ->. exists msg.
         split; [exact Hmsg|]. split; [reflexivity|].
         now rewrite (Hline detail Hj). }
    1: { cbn [fst snd] in Hrun. rewrite <- (app_nil_r new) in Hrun.
         apply app_inv_head in Hrun.
         destruct (Hfound [] Hrun (Forall_nil _)) as (msg & _ & _ & Habs).
         discriminate Habs. }
    all: rewrite print_quiet in Hrun by exact quiet; cbn [snd] in Hrun;
      rewrite <- app_assoc in Hrun; apply app_inv_head in Hrun;
      destruct (Hfound _ Hrun ltac:(now repeat constructor))
        as (m & _ & _ & Habs);
      discriminate Habs.
  - rewrite <- (app_nil_r new) in Hrun. apply app_inv_head in Hrun.
    destruct (Hfound [] Hrun (Forall_nil _)) as (msg & _ & _ & Habs).
    discriminate Habs.
Qed.

End EveryRequest.

(** C8, as amended: when a request is answered with a 4xx or 5xx
    response whose body decodes as JSON, [main] returns normally and the
    last two lines it prints are the API error message of the response and
    the decoded detail, rendered by [json.dumps(..., indent=2)].  This
    holds for the first request of any of the five actions, and for every
    later request of a run as well: whichever request gets such a reply,
    nothing follows it but the two lines of the report.  The 4xx and 5xx
    responses are exactly those on which [raise_for_status] fails.  For
    the simulated 403 response with body [error: message: forbidden], the
    reported detail contains the text [forbidden], whichever of the five
    actions ran. *)
Theorem http_error_detail_is_reported :
  (forall (W : world) (cfg : Config) (fuel : nat) (args : Args) (tr : trace)
          (resp : response) (detail : json),
      sigint W = None ->
      config_complete cfg = true ->
      Py.truthy (Py.of_opt (SERVICE_ACCOUNT_FILE cfg)) = true ->
      credentials W (fmt (SERVICE_ACCOUNT_FILE cfg)) = None ->
      (forall r, server W (count_requests tr) r = inr resp) ->
      400 <= status_code resp < 600 ->
      json_result resp = inr detail ->
      (fetch_sa args = false -> list_ args = false ->
       Py.truthy (Py.of_opt (cancel args)) = false ->
       Py.truthy (Py.of_opt (track args)) = false ->
       exists payload,
         build_payload cfg (utc_now W (S (List.length tr))) (days args)
                       (log_types args) = Ok payload) ->
      exists before msg,
        raise_for_status resp = Err (HTTPError msg resp)
        /\ main W cfg (S fuel) args tr
           = (Ret tt,
              (tr ++ before
                  ++ [EPrint (Py.LF ++ "API Error: " ++ msg);
                      EPrint ("Details: " ++ Py.dumps_indent2 detail)])%list))
  /\ (forall (W : world) (cfg : Config) (fuel : nat) (args : Args)
             (tr pre post : trace) (r : request) (resp : response)
             (detail : json),
        sigint W = None ->
        snd (main W cfg fuel args tr) = (tr ++ pre ++ ERequest r :: post)%list ->
        server W (count_requests (tr ++ pre)%list) r = inr resp ->
        400 <= status_code resp < 600 ->
        json_result resp = inr detail ->
        exists msg,
          raise_for_status resp = Err (HTTPError msg resp)
          /\ fst (main W cfg fuel args tr) = Ret tt
          /\ post = [EPrint (Py.LF ++ "API Error: " ++ msg);
                     EPrint ("Details: " ++ Py.dumps_indent2 detail)])
  /\ (forall resp : response,
        (exists msg, raise_for_status resp = Err (HTTPError msg resp))
        <-> 400 <= status_code resp < 600)
  /\ Forall (fun args =>
               fst (main forbidden_world example_config 1 args []) = Ret tt
               /\ last_printed (snd (main forbidden_world example_config 1 args []))
                  = "Details: " ++ Py.dumps_indent2 forbidden_detail
               /\ PyStr.contains "forbidden"
                    (last_printed
                       (snd (main forbidden_world example_config 1 args [])))
                  = true)
            five_actions.
Proof.
  split; [|split; [|split]].
  - exact main_reports_http_error.
  - intros W cfg fuel args tr pre post r resp detail quiet.
    exact (main_reports_every_http_error W cfg quiet fuel args tr pre post r
             resp detail).
  - intros resp. split.
    + intros [msg E].
      destruct (Z.le_gt_cases 400 (status_code resp));
        destruct (Z.lt_ge_cases (status_code resp) 600); try lia;
        rewrite raise_for_status_ok in E by lia; discriminate E.
    + apply raise_for_status_error.
  - repeat constructor; vm_compute; reflexivity.
Qed.

Lemma http_error_detail_is_reported_witness :
  (exists before msg,
     main forbidden_world example_config 1 no_action []
     = (Ret tt,
        (before ++ [EPrint (Py.LF ++ "API Error: " ++ msg);
                    EPrint ("Details: " ++ Py.dumps_indent2 forbidden_detail)])%list)
     /\ PyStr.contains "forbidden"
          ("Details: " ++ Py.dumps_indent2 forbidden_detail) = true)
  /\ (exists msg,
        raise_for_status forbidden_response = Err (HTTPError msg forbidden_response)
        /\ main forbidden_later_world example_config 1 cancel_action []
           = (Ret tt,
              [ELoadCredentials "sa.json"
                 (Some "https://www.googleapis.com/auth/cloud-platform");
               EPrint (Py.LF ++ "[Action] Cancelling Data Export job: f0...");
               ERequest
                 {| req_method := POST;
                    req_url := "https://chronicle.us.googleapis.com/v1alpha/projects/p1/locations/us/instances/i1/dataExports/f0:cancel";
                    req_json := None; req_timeout := 60 |};
               EPrint "Cancel request issued successfully.";
               ERequest
                 (status_request example_config
                    "v1alpha/projects/p1/locations/us/instances/i1/dataExports/f0");
               EPrint (Py.LF ++ "API Error: " ++ msg);
               EPrint ("Details: " ++ Py.dumps_indent2 forbidden_detail)])).
Proof.
  destruct http_error_detail_is_reported as (general & every & _ & _).
  split.
  - destruct (general forbidden_world example_config 0%nat no_action []
                forbidden_response forbidden_detail
                eq_refl eq_refl eq_refl eq_refl (fun _ => eq_refl)
                (conj (proj1 (Z.leb_le 400 403) eq_refl)
                      (proj1 (Z.ltb_lt 403 600) eq_refl))
                eq_refl
                (fun _ _ _ _ => ex_intro _ _ eq_refl))
      as (before & msg & _ & Hmain).
    exists before, msg. split; [exact Hmain | reflexivity].
  - destruct (every forbidden_later_world example_config 1%nat cancel_action []
                [ELoadCredentials "sa.json"
                   (Some "https://www.googleapis.com/auth/cloud-platform");
                 EPrint (Py.LF ++ "[Action] Cancelling Data Export job: f0...");
                 ERequest
                   {| req_method := POST;
                      req_url := "https://chronicle.us.googleapis.com/v1alpha/projects/p1/locations/us/instances/i1/dataExports/f0:cancel";
                      req_json := None; req_timeout := 60 |};
                 EPrint "Cancel request issued successfully."]
                (skipn 5 (snd (main forbidden_later_world example_config 1
                                 cancel_action [])))
                (status_request example_config
                   "v1alpha/projects/p1/locations/us/instances/i1/dataExports/f0")
                forbidden_response forbidden_detail
                eq_refl eq_refl eq_refl
                (conj (proj1 (Z.leb_le 400 403) eq_refl)
                      (proj1 (Z.ltb_lt 403 600) eq_refl))
                eq_refl)
      as (msg & Hmsg & Hret & Hpost).
    exists msg. split; [exact Hmsg|].
    rewrite (surjective_pairing (main forbidden_later_world example_config 1
                                   cancel_action [])).
    rewrite Hret. f_equal.
    change (snd (main forbidden_later_world example_config 1 cancel_action []))
      with ([ELoadCredentials "sa.json"
               (Some "https://www.googleapis.com/auth/cloud-platform");
             EPrint (Py.LF ++ "[Action] Cancelling Data Export job: f0...");
             ERequest
               {| req_method := POST;
                  req_url := "https://chronicle.us.googleapis.com/v1alpha/projects/p1/locations/us/instances/i1/dataExports/f0:cancel";
                  req_json := None; req_timeout := 60 |};
             EPrint "Cancel request issued successfully.";
             ERequest
               (status_request example_config
                  "v1alpha/projects/p1/locations/us/instances/i1/dataExports/f0")]
              ++ skipn 5 (snd (main forbidden_later_world example_config 1
                                 cancel_action [])))%list.
    now rewrite Hpost.
Defined.

(** C8 as stated speaks of every non-2xx response.  A 304 reply is
    outside 2xx, but [raise_for_status] does not fail on it: with the same
    JSON body, [main] handles the reply as a success, prints the service
    account lines for a body without an email, reports no error, and no
    line it prints contains [forbidden]. *)
Lemma redirect_body_not_reported_counterexample :
  ~ 200 <= status_code not_modified_response < 300
  /\ json_result not_modified_response = inr forbidden_detail
  /\ main (constant_world not_modified_response None) example_config 1
          fetch_sa_action []
     = (Ret tt,
        [ELoadCredentials "sa.json"
           (Some "https://www.googleapis.com/auth/cloud-platform");
         EPrint (Py.LF ++ "[Action] Fetching Chronicle Service Account...");
         ERequest (fetch_request example_config);
         EPrint "Chronicle Service Account: None";
         EPrint "-> INSTRUCTION: Grant 'None' the 'Storage Object Admin' role on your target bucket."])
  /\ never_prints "forbidden"
       (snd (main (constant_world not_modified_response None) example_config 1
               fetch_sa_action []))
     = true.
Proof.
  split; [cbn; lia|]. split; [reflexivity|]. split; reflexivity.
Qed.

(** ** Listing of export jobs *)

Section Listing.
Variable W : world.
Variable cfg : Config.
Hypothesis quiet : sigint W = None.

Lemma print_export_line (j : export_job) (tr : trace) :
  print_export W (export_json j) tr
  = (Ret tt, (tr ++ [EPrint (summary_line j)])%list).
Proof.
  unfold print_export. repeat lift_step.
  apply print_quiet. exact quiet.
Qed.

Lemma for_each_lines (jobs : list export_job) (tr : trace) :
  for_each (map export_json jobs) (print_export W) tr
  = (Ret tt, (tr ++ map (fun j => EPrint (summary_line j)) jobs)%list).
Proof.
  revert tr. induction jobs as [|j jobs IH]; intros tr; cbn [map for_each].
  - now rewrite app_nil_r.
  - rewrite (bind_run _ _ _ _ _ (print_export_line j tr)), IH, <- app_assoc.
    reflexivity.
Qed.

Lemma list_data_exports_run s tr resp fields jobs :
  server W (count_requests tr) (list_request cfg) = inr resp ->
  raise_for_status resp = Ok tt ->
  json_result resp = inr (JObj fields) ->
  match Py.dict_get fields "dataExports" with
  | Some v => v = JArr (map export_json jobs)
  | None => jobs = []
  end ->
  list_data_exports W cfg s tr
  = (Ret JNull,
     (tr ++ [EPrint (Py.LF ++ "[Action] Listing Data Exports...");
             ERequest (list_request cfg)] ++ listing jobs)%list).
Proof.
  intros Hs Hr Hj Hjobs. unfold list_data_exports.
  rewrite (bind_run _ _ _ _ _ (print_quiet W quiet _ _)).
  unfold session_get. fold (list_request cfg).
  rewrite (bind_run _ _ _ _ _
             (send_quiet_at W quiet _ _ _ _ (count_requests_print tr _) Hs)).
  rewrite (bind_lift _ _ _ _ Hr).
  rewrite (bind_lift _ _ (JObj fields) _); [|unfold resp_json; now rewrite Hj].
  assert (PyObj.get (JObj fields) "dataExports" (JArr [])
          = Ok (JArr (map export_json jobs))) as Hget.
  { cbn [PyObj.get]. destruct (Py.dict_get fields "dataExports"); now subst. }
  rewrite (bind_lift _ _ _ _ Hget).
  destruct jobs as [|j jobs].
  - cbn [map Py.truthy negb listing].
    rewrite (bind_run _ _ _ _ _ (print_quiet W quiet _ _)).
    unfold ret. now rewrite <- !app_assoc.
  - cbn [Py.truthy map negb]. lift_step. 
    rewrite (bind_run _ _ _ _ _ (print_quiet W quiet _ _)).
    lift_step. 
    change (export_json j :: map export_json jobs) with (map export_json (j :: jobs)).
    rewrite (bind_run _ _ _ _ _ (for_each_lines (j :: jobs) _)).
    unfold ret. cbn [listing]. rewrite length_map.
    now rewrite <- !app_assoc.
Qed.
End Listing.

(** C9, as amended: [list_data_exports] prints one summary line per
    listed export job, in the order in which the service lists them, after
    a line with their number, and returns [None]; when the service lists no
    job (an empty or an absent [dataExports] field) it prints that no data
    exports were found and returns [None] normally, without raising. *)
Theorem list_prints_summaries_in_order (W : world) (cfg : Config) (s : session)
    (tr : trace) (resp : response) (fields : list (string * json))
    (jobs : list export_job) :
  sigint W = None ->
  server W (count_requests tr) (list_request cfg) = inr resp ->
  raise_for_status resp = Ok tt ->
  json_result resp = inr (JObj fields) ->
  match Py.dict_get fields "dataExports" with
  | Some v => v = JArr (map export_json jobs)
  | None => jobs = []
  end ->
  list_data_exports W cfg s tr
  = (Ret JNull,
     (tr ++ [EPrint (Py.LF ++ "[Action] Listing Data Exports...");
             ERequest (list_request cfg)] ++ listing jobs)%list)
  /\ (jobs = [] -> listing jobs = [EPrint "No data exports found."])
  /\ (jobs <> [] ->
      listing jobs
      = EPrint ("Found " ++ PyInt.to_str (Z.of_nat (List.length jobs))
                         ++ " export(s):" ++ Py.LF)
        :: map (fun j => EPrint (summary_line j)) jobs).
Proof.
  intros quiet Hs Hr Hj Hjobs. split; [|split].
  - exact (list_data_exports_run W cfg quiet s tr resp fields jobs Hs Hr Hj Hjobs).
  - now intros ->.
  - intros Hne. destruct jobs; [now elim Hne | reflexivity].
Qed.

Lemma list_prints_summaries_in_order_witness :
  list_data_exports (listing_world [sample_job; second_job]) example_config
                    sample_session []
  = (Ret JNull,
     [EPrint (Py.LF ++ "[Action] Listing Data Exports...");
      ERequest (list_request example_config);
      EPrint ("Found 2 export(s):" ++ Py.LF);
      EPrint (summary_line sample_job);
      EPrint (summary_line second_job)])
  /\ list_data_exports (listing_world []) example_config sample_session []
     = (Ret JNull,
        [EPrint (Py.LF ++ "[Action] Listing Data Exports...");
         ERequest (list_request example_config);
         EPrint "No data exports found."]).
Proof.
  split.
  - exact (proj1 (list_prints_summaries_in_order
                    (listing_world [sample_job; second_job]) example_config
                    sample_session [] _ _ [sample_job; second_job]
                    eq_refl eq_refl eq_refl eq_refl eq_refl)).
  - exact (proj1 (list_prints_summaries_in_order
                    (listing_world []) example_config
                    sample_session [] _ _ []
                    eq_refl eq_refl eq_refl eq_refl eq_refl)).
Defined.

(** C9 as stated has [list_data_exports] return the sequence of
    summaries.  It returns [None]: on a service that lists one job the
    returned value is not a sequence. *)
Lemma list_returns_none_counterexample :
  fst (list_data_exports (listing_world [sample_job]) example_config
                         sample_session []) = Ret JNull
  /\ ~ exists summaries : list json,
        fst (list_data_exports (listing_world [sample_job]) example_config
                               sample_session []) = Ret (JArr summaries).
Proof.
  split; [reflexivity|]. intros [summaries E]. vm_compute in E. discriminate E.
Qed.

(** ** The calendar and the time range of an export *)

Lemma range_all_spec (f : Z -> bool) (len : nat) :
  forall start, range_all f start len = true ->
  forall z, start <= z < start + Z.of_nat len -> f z = true.
Proof.
  induction len as [|len IH]; intros start H z Hz; [lia|].
  cbn [range_all] in H. destruct (f start) eqn:E; [|discriminate].
  destruct (Z.eq_dec z start) as [->|Hne]; [exact E|].
  apply (IH (start + 1) H). lia.
Qed.

Lemma range_all_spec_Z (f : Z -> bool) (n : Z) (start : Z) :
  range_all f start (Z.to_nat n) = true ->
  forall z, start <= z < start + n -> f z = true.
Proof.
  intros H z Hz. apply (range_all_spec f (Z.to_nat n) start H).
  rewrite Z2Nat.id; lia.
Qed.

Lemma cycle_checked : range_all cycle_ok 0 (Z.to_nat 146097) = true.
Proof. vm_cast_no_check (@eq_refl bool true). Qed.

Lemma cycle_ok_all (r : Z) : 0 <= r < 146097 -> cycle_ok r = true.
Proof.
  intros H. exact (range_all_spec_Z cycle_ok 146097 0 cycle_checked r H).
Qed.

Section CalendarFacts.
Import DateTime.

(** [_ord2ymd] is periodic: 146097 days later is 400 years later. *)
Lemma ord2ymd_shift (q r : Z) :
  0 <= r < 146097 ->
  _ord2ymd (146097 * q + r + 1)
  = let '(y, m, d) := _ord2ymd (r + 1) in (y + 400 * q, m, d).
Proof.
  intros Hr. unfold _ord2ymd. cbv zeta. unfold _DI400Y.
  replace (146097 * q + r + 1 - 1) with (r + q * 146097) by ring.
  replace (r + 1 - 1) with r by ring.
  rewrite Z.div_add, Z.mod_add by lia.
  rewrite (Z.div_small r 146097), (Z.mod_small r 146097) by lia.
  destruct (_ || _).
  - f_equal. f_equal. ring.
  - destruct (_ <? _); f_equal; f_equal; ring.
Qed.

Lemma days_before_year_shift (y q : Z) :
  _days_before_year (y + 400 * q) = _days_before_year y + 146097 * q.
Proof.
  unfold _days_before_year. cbv zeta.
  replace (y + 400 * q - 1) with (y - 1 + (100 * q) * 4) at 2 by ring.
  replace (y + 400 * q - 1) with (y - 1 + (4 * q) * 100) at 2 by ring.
  replace (y + 400 * q - 1) with (y - 1 + q * 400) at 2 by ring.
  rewrite !Z.div_add by lia. ring.
Qed.

Lemma is_leap_shift (y q : Z) : _is_leap (y + 400 * q) = _is_leap y.
Proof.
  unfold _is_leap.
  replace ((y + 400 * q) mod 4) with (y mod 4)
    by (replace (y + 400 * q) with (y + (100 * q) * 4) by ring;
        now rewrite Z.mod_add by lia).
  replace ((y + 400 * q) mod 100) with (y mod 100)
    by (replace (y + 400 * q) with (y + (4 * q) * 100) by ring;
        now rewrite Z.mod_add by lia).
  replace ((y + 400 * q) mod 400) with (y mod 400)
    by (replace (y + 400 * q) with (y + q * 400) by ring;
        now rewrite Z.mod_add by lia).
  reflexivity.
Qed.

Lemma ymd2ord_shift (y m d q : Z) :
  _ymd2ord (y + 400 * q) m d = _ymd2ord y m d + 146097 * q.
Proof.
  unfold _ymd2ord, _days_before_month.
  rewrite days_before_year_shift, is_leap_shift. ring.
Qed.

Lemma days_in_month_shift (y m q : Z) :
  _days_in_month (y + 400 * q) m = _days_in_month y m.
Proof. unfold _days_in_month. now rewrite is_leap_shift. Qed.

(** Every representable ordinal is the ordinal of the date [_ord2ymd]
    gives for it, and that date is a valid one. *)
Lemma ord2ymd_roundtrip (n : Z) :
  1 <= n <= _MAXORDINAL ->
  let '(y, m, d) := _ord2ymd n in
  _ymd2ord y m d = n
  /\ MINYEAR <= y <= MAXYEAR /\ 1 <= m <= 12 /\ 1 <= d <= _days_in_month y m.
Proof.
  unfold _MAXORDINAL, MINYEAR, MAXYEAR. intros Hn.
  pose proof (Z.div_mod (n - 1) 146097 ltac:(lia)) as Hdm.
  pose proof (Z.mod_pos_bound (n - 1) 146097 ltac:(lia)) as Hr.
  set (q := (n - 1) / 146097) in *. set (r := (n - 1) mod 146097) in *.
  assert (0 <= q <= 24) as Hq.
  { split; [apply Z.div_pos; lia|].
    assert ((n - 1) / 146097 < 25) by (apply Z.div_lt_upper_bound; lia). lia. }
  replace n with (146097 * q + r + 1) by lia.
  rewrite (ord2ymd_shift q r Hr).
  pose proof (cycle_ok_all r Hr) as Hc. unfold cycle_ok in Hc.
  destruct (_ord2ymd (r + 1)) as [[y m] d].
  rewrite !andb_true_iff in Hc.
  destruct Hc as [[[[[[[H1 H2] H3] H4] H5] H6] H7] H8].
  apply Z.eqb_eq in H1. apply Z.leb_le in H2, H3, H4, H5, H6, H7.
  rewrite ymd2ord_shift, days_in_month_shift, H1.
  repeat split; lia.
Qed.

Import Rfc3339.

Lemma digit_val_char (d : Z) :
  0 <= d < 10 -> digit_val (PyInt.digit_char d) = Some d.
Proof.
  intros H. unfold digit_val, PyInt.digit_char.
  rewrite nat_ascii_embedding by lia.
  replace (Nat.leb 48 (48 + Z.to_nat d)) with true
    by (symmetry; apply Nat.leb_le; lia).
  replace (Nat.leb (48 + Z.to_nat d) 57) with true
    by (symmetry; apply Nat.leb_le; lia).
  cbn [andb]. f_equal. lia.
Qed.

(** Reading one more digit after [w] digits. *)
Lemma take_digits_snoc (w : nat) :
  forall acc s v c rest d,
    take_digits w acc s = Some (v, String c rest) ->
    digit_val c = Some d ->
    take_digits (S w) acc s = Some (v * 10 + d, rest).
Proof.
  induction w as [|w IH]; intros acc s v c rest d H Hd.
  - cbn in H. injection H as -> ->. cbn. now rewrite Hd.
  - cbn [take_digits] in H. destruct s as [|x s]; [discriminate|].
    destruct (digit_val x) as [vx|] eqn:Ex; [|discriminate].
    specialize (IH _ _ _ _ _ _ H Hd).
    change (take_digits (S (S w)) acc (String x s))
      with (match digit_val x with
            | Some v0 => take_digits (S w) (acc * 10 + v0) s
            | None => None
            end).
    now rewrite Ex.
Qed.

Lemma take_digits_zpad (w : nat) :
  forall n rest,
    0 <= n < 10 ^ Z.of_nat w ->
    take_digits w 0 (PyInt.zpad w n ++ rest) = Some (n, rest).
Proof.
  induction w as [|w IH]; intros n rest Hn.
  - cbn in *. f_equal. f_equal. lia.
  - cbn [PyInt.zpad]. rewrite PyStrFacts.append_assoc.
    change (String (PyInt.digit_char (n mod 10)) "" ++ rest)
      with (String (PyInt.digit_char (n mod 10)) rest).
    rewrite Nat2Z.inj_succ, Z.pow_succ_r in Hn by lia.
    assert (0 <= n / 10 < 10 ^ Z.of_nat w) as Hq.
    { split; [apply Z.div_pos; lia | apply Z.div_lt_upper_bound; lia]. }
    rewrite (take_digits_snoc w _ _ _ _ _ _ (IH (n / 10) _ Hq)
               (digit_val_char (n mod 10) (Z.mod_pos_bound n 10 ltac:(lia)))).
    f_equal. f_equal. pose proof (Z.div_mod n 10 ltac:(lia)). lia.
Qed.

Lemma years_checked :
  range_all (fun y => String.eqb (PyInt.to_str y) (PyInt.zpad 4 y)) 1000
            (Z.to_nat 9000)
  = true.
Proof. vm_cast_no_check (@eq_refl bool true). Qed.

(** From 1000 on, the year printed without padding has its four digits. *)
Lemma year_four_digits (y : Z) :
  1000 <= y <= 9999 -> PyInt.to_str y = PyInt.zpad 4 y.
Proof.
  intros H. apply String.eqb_eq.
  apply (range_all_spec_Z
           (fun y => String.eqb (PyInt.to_str y) (PyInt.zpad 4 y))
           9000 1000 years_checked y).
  lia.
Qed.

(** The reading of a formatted timestamp is its fields. *)
Lemma fields_strftime (dt : DateTime.t) :
  1000 <= year dt <= 9999 -> 0 <= month dt <= 99 -> 0 <= day dt <= 99 ->
  0 <= hour dt <= 99 -> 0 <= minute dt <= 99 -> 0 <= second dt <= 99 ->
  fields (strftime_rfc3339 dt)
  = Some (year dt, month dt, day dt, hour dt, minute dt, second dt).
Proof.
  intros Hy Hmo Hd Hh Hmi Hs. unfold fields, strftime_rfc3339.
  rewrite (year_four_digits _ Hy).
  rewrite take_digits_zpad by (cbn; lia). cbn [obind expect append Ascii.eqb Bool.eqb].
  rewrite take_digits_zpad by (cbn; lia). cbn [obind expect append Ascii.eqb Bool.eqb].
  rewrite take_digits_zpad by (cbn; lia). cbn [obind expect append Ascii.eqb Bool.eqb].
  rewrite take_digits_zpad by (cbn; lia). cbn [obind expect append Ascii.eqb Bool.eqb].
  rewrite take_digits_zpad by (cbn; lia). cbn [obind expect append Ascii.eqb Bool.eqb].
  rewrite take_digits_zpad by (cbn; lia). reflexivity.
Qed.

Lemma instant_strftime (dt : DateTime.t) :
  1000 <= year dt <= 9999 -> 0 <= month dt <= 99 -> 0 <= day dt <= 99 ->
  0 <= hour dt <= 99 -> 0 <= minute dt <= 99 -> 0 <= second dt <= 99 ->
  instant (strftime_rfc3339 dt)
  = Some (toordinal dt * 86400 + hour dt * 3600 + minute dt * 60 + second dt).
Proof.
  intros. unfold instant. now rewrite fields_strftime.
Qed.

Lemma days_in_month_le_31 (y m : Z) : 1 <= m <= 12 -> _days_in_month y m <= 31.
Proof.
  intros H. unfold _days_in_month.
  destruct (_ && _); [lia|].
  assert (m = 1 \/ m = 2 \/ m = 3 \/ m = 4 \/ m = 5 \/ m = 6 \/ m = 7
          \/ m = 8 \/ m = 9 \/ m = 10 \/ m = 11 \/ m = 12) as Hm by lia.
  destruct Hm as [->|[->|[->|[->|[->|[->|[->|[->|[->|[->|[->| ->]]]]]]]]]]];
    vm_compute; discriminate.
Qed.

(** Subtracting a representable number of days succeeds, keeps the time
    of day and moves the ordinal by that number. *)
Lemma sub_days_ok (dt : DateTime.t) (delta : Z) :
  0 <= delta < toordinal dt -> toordinal dt <= _MAXORDINAL ->
  exists start,
    sub_days dt delta = Ok start
    /\ toordinal start = toordinal dt - delta
    /\ hour start = hour dt /\ minute start = minute dt
    /\ second start = second dt /\ microsecond start = microsecond dt
    /\ MINYEAR <= year start <= MAXYEAR /\ 1 <= month start <= 12
    /\ 1 <= day start <= _days_in_month (year start) (month start).
Proof.
  intros Hd Hmax. unfold sub_days. cbv zeta.
  replace (1 <=? toordinal dt - delta) with true
    by (symmetry; apply Z.leb_le; lia).
  replace (toordinal dt - delta <=? _MAXORDINAL) with true
    by (symmetry; apply Z.leb_le; lia).
  cbn [andb].
  pose proof (ord2ymd_roundtrip (toordinal dt - delta) ltac:(lia)) as Hrt.
  destruct (_ord2ymd (toordinal dt - delta)) as [[y m] d].
  eexists. split; [reflexivity|]. unfold toordinal at 1. cbn.
  destruct Hrt as (H1 & H2 & H3 & H4). repeat split; auto; lia.
Qed.

Lemma month_part_bound (y m d : Z) :
  1 <= m <= 12 -> 1 <= d <= _days_in_month y m ->
  1 <= _days_before_month y m + d <= (if _is_leap y then 366 else 365).
Proof.
  intros Hm Hd. unfold _days_in_month, _days_before_month in *.
  assert (m = 1 \/ m = 2 \/ m = 3 \/ m = 4 \/ m = 5 \/ m = 6 \/ m = 7
          \/ m = 8 \/ m = 9 \/ m = 10 \/ m = 11 \/ m = 12) as Hcase by lia.
  destruct (_is_leap y);
    destruct Hcase as [->|[->|[->|[->|[->|[->|[->|[->|[->|[->|[->| ->]]]]]]]]]]];
    cbv [table _DAYS_IN_MONTH _DAYS_BEFORE_MONTH nth Z.to_nat Pos.to_nat
         Pos.iter_op Nat.add Z.eqb Z.ltb Z.compare Pos.compare
         Pos.compare_cont andb Pos.eqb] in *;
    lia.
Qed.

Lemma days_before_year_bound (y : Z) :
  1 <= y <= 9998 -> 0 <= _days_before_year y <= 3651693.
Proof.
  intros H. unfold _days_before_year. cbv zeta.
  Z.to_euclidean_division_equations. lia.
Qed.

Lemma valid_ordinal (dt : DateTime.t) :
  valid dt -> 1 <= toordinal dt <= _MAXORDINAL.
Proof.
  unfold valid, MINYEAR, MAXYEAR, _MAXORDINAL, toordinal, _ymd2ord.
  intros (Hy & Hm & Hd & _).
  pose proof (month_part_bound _ _ _ Hm Hd) as Hp.
  assert ((if _is_leap (year dt) then 366 else 365) <= 366) as Hl
    by (destruct (_is_leap (year dt)); lia).
  destruct (Z.eq_dec (year dt) 9999) as [E|Hne].
  - rewrite E in *.
    change (_is_leap 9999) with false in Hp.
    change (_days_before_year 9999) with 3651694. lia.
  - pose proof (days_before_year_bound (year dt) ltac:(lia)). lia.
Qed.

(** A day on or after 1000-01-01 lies in a year of four digits. *)
Lemma ordinal_year_1000 (y m d : Z) :
  1 <= y -> 1 <= m <= 12 -> 1 <= d <= _days_in_month y m ->
  _ymd2ord 1000 1 1 <= _ymd2ord y m d -> 1000 <= y.
Proof.
  intros Hy Hm Hd Hord.
  change (_ymd2ord 1000 1 1) with 364878 in Hord. unfold _ymd2ord in Hord.
  pose proof (month_part_bound _ _ _ Hm Hd) as Hp.
  destruct (Z.lt_ge_cases y 1000) as [Hlt|]; [exfalso|assumption].
  destruct (Z.eq_dec y 999) as [E|Hne].
  - rewrite E in *. change (_is_leap 999) with false in Hp.
    change (_days_before_year 999) with 364512 in Hord. lia.
  - assert ((if _is_leap y then 366 else 365) <= 366) as Hl
      by (destruct (_is_leap y); lia).
    assert (_days_before_year y <= 364147) as Hb.
    { unfold _days_before_year. cbv zeta.
      Z.to_euclidean_division_equations. lia. }
    lia.
Qed.

End CalendarFacts.

Lemma timedelta_days_small (d : Z) :
  -999999999 <= d <= 999999999 -> DateTime.timedelta_days d = Ok d.
Proof.
  intros H. unfold DateTime.timedelta_days.
  rewrite !Z.gtb_ltb.
  replace (2147483647 <? d) with false by (symmetry; apply Z.ltb_ge; lia).
  replace (d <? -2147483648) with false by (symmetry; apply Z.ltb_ge; lia).
  replace (999999999 <? Z.abs d) with false by (symmetry; apply Z.ltb_ge; lia).
  reflexivity.
Qed.

(** The payload of a request whose start day is representable. *)
Lemma build_payload_ok (cfg : Config) (now : DateTime.t) (d : Z)
    (lts : option (list string)) :
  DateTime.valid now -> 0 <= d ->
  DateTime._ymd2ord 1000 1 1 <= DateTime.toordinal now - d ->
  exists start,
    DateTime.sub_days now d = Ok start
    /\ build_payload cfg now d lts
       = Ok (JObj ([("startTime", JStr (DateTime.strftime_rfc3339 start));
                    ("endTime", JStr (DateTime.strftime_rfc3339 now));
                    ("gcsBucket", Py.of_opt (GCS_BUCKET cfg))]
                   ++ (if log_types_given lts then
                         [("includeLogTypes",
                           JArr (map (fun lt => JStr (log_type_path cfg lt))
                                     (match lts with Some l => l | None => [] end)))]
                       else [])))
    /\ Rfc3339.instant (DateTime.strftime_rfc3339 now)
       = Some (DateTime.toordinal now * 86400 + DateTime.hour now * 3600
               + DateTime.minute now * 60 + DateTime.second now)
    /\ Rfc3339.instant (DateTime.strftime_rfc3339 start)
       = Some ((DateTime.toordinal now - d) * 86400 + DateTime.hour now * 3600
               + DateTime.minute now * 60 + DateTime.second now).
Proof.
  intros Hv Hd Hfrom. pose proof (valid_ordinal now Hv) as Hord.
  change (DateTime._ymd2ord 1000 1 1) with 364878 in Hfrom.
  destruct (sub_days_ok now d ltac:(lia) (proj2 Hord))
    as (start & Hsub & Ho & Hh & Hmi & Hs & _ & Hy & Hmo & Hday).
  exists start. split; [exact Hsub|].
  unfold build_payload.
  rewrite timedelta_days_small by (unfold DateTime._MAXORDINAL in Hord; lia).
  cbn [pyres_bind]. rewrite Hsub. cbn [pyres_bind].
  split; [reflexivity|].
  destruct Hv as (Vy & Vmo & Vd & Vh & Vmi & Vs & _).
  pose proof (days_in_month_le_31 (DateTime.year now) _ Vmo).
  pose proof (days_in_month_le_31 (DateTime.year start) _ Hmo).
  unfold DateTime.MINYEAR, DateTime.MAXYEAR in *.
  assert (1000 <= DateTime.year start) as Hys.
  { apply (ordinal_year_1000 _ (DateTime.month start) (DateTime.day start));
      try assumption; try lia.
    change (DateTime._ymd2ord 1000 1 1) with 364878.
    change (DateTime._ymd2ord (DateTime.year start) (DateTime.month start)
              (DateTime.day start)) with (DateTime.toordinal start). lia. }
  assert (1000 <= DateTime.year now) as Hyn.
  { apply (ordinal_year_1000 _ (DateTime.month now) (DateTime.day now));
      try assumption; try lia.
    change (DateTime._ymd2ord 1000 1 1) with 364878.
    change (DateTime._ymd2ord (DateTime.year now) (DateTime.month now)
              (DateTime.day now)) with (DateTime.toordinal now). lia. }
  split.
  - apply instant_strftime; lia.
  - rewrite instant_strftime by lia. now rewrite Ho, Hh, Hmi, Hs.
Qed.

Section CreateExport.
Variable W : world.
Variable cfg : Config.
Hypothesis quiet : sigint W = None.

Lemma create_sends_payload s d lts tr payload :
  build_payload cfg (utc_now W (List.length tr)) d lts = Ok payload ->
  exists before rest,
    snd (create_data_export W cfg s d lts tr)
    = (tr ++ before ++ ERequest (create_request cfg payload) :: rest)%list
    /\ Forall (fun e => is_request e = false) before.
Proof.
  intros Hp. unfold create_data_export.
  rewrite bind_now_utc, (bind_lift _ _ _ _ Hp).
  rewrite (bind_run _ _ _ _ _ (print_quiet W quiet _ _)).
  rewrite (bind_run _ _ _ _ _ (print_quiet W quiet _ _)).
  unfold session_post. fold (create_request cfg payload).
  assert (forall resp,
            sound W (fun _ => True)
              (bind (lift (raise_for_status resp)) (fun _ =>
               bind (lift (resp_json resp)) (fun export_data =>
               bind (lift (PyObj.get export_data "name" JNull)) (fun export_id =>
               bind (print W ("Success. Job Created: " ++ Py.str export_id))
                    (fun _ => ret export_id)))))) as Hk.
  { intros resp.
    repeat first
      [ apply sound_bind; [|intros ?]
      | apply sound_ret
      | apply sound_emit; exact I
      | apply sound_lift;
        first [ apply get_no_interrupt | apply raise_for_status_no_interrupt
              | apply resp_json_no_interrupt ] ]. }
  destruct (log_types_given lts).
  - rewrite (bind_run _ _ _ _ _ (print_quiet W quiet _ _)).
    match goal with
    | |- context [bind (send W ?r) ?k ?t] =>
        destruct (bind_send_first W (fun _ => True) r k t Hk) as [rest E]
    end.
    rewrite E. eexists [_; _; _], rest. rewrite <- !app_assoc.
    split; [reflexivity|]. repeat constructor.
  - rewrite bind_ret.
    match goal with
    | |- context [bind (send W ?r) ?k ?t] =>
        destruct (bind_send_first W (fun _ => True) r k t Hk) as [rest E]
    end.
    rewrite E. eexists [_; _], rest. rewrite <- !app_assoc.
    split; [reflexivity|]. repeat constructor.
Qed.
End CreateExport.

Lemma sample_now_valid : DateTime.valid sample_now.
Proof. repeat split; vm_compute; discriminate. Qed.

(** C3, as amended: for every integer daysBack [d] with [0 <= d] whose
    start day is not before 1000-01-01 (the ordinal of the current UTC day
    less [d] is at least that of 1000-01-01, so the start year has four
    digits), [create_data_export] sends a payload whose endTime is the
    current UTC time and whose startTime is the same time of day exactly
    [d] days earlier: both texts have the form YYYY-MM-DDTHH:MM:SSZ and
    the instants they denote differ by exactly [d] days. *)
Theorem export_time_range (W : world) (cfg : Config) (s : session) (d : Z)
    (lts : option (list string)) (tr : trace) :
  sigint W = None ->
  DateTime.valid (utc_now W (List.length tr)) ->
  0 <= d ->
  DateTime._ymd2ord 1000 1 1
  <= DateTime.toordinal (utc_now W (List.length tr)) - d ->
  exists start_text end_text other before rest end_instant start_instant,
    snd (create_data_export W cfg s d lts tr)
    = (tr ++ before
          ++ ERequest (create_request cfg
                         (JObj (("startTime", JStr start_text)
                                :: ("endTime", JStr end_text) :: other)))
          :: rest)%list
    /\ Forall (fun e => is_request e = false) before
    /\ end_text = DateTime.strftime_rfc3339 (utc_now W (List.length tr))
    /\ Rfc3339.instant end_text = Some end_instant
    /\ Rfc3339.instant start_text = Some start_instant
    /\ end_instant - start_instant = d * 86400.
Proof.
  intros quiet Hv Hd Hfrom.
  destruct (build_payload_ok cfg _ d lts Hv Hd Hfrom) as (start & _ & Hp & He & Hs).
  destruct (create_sends_payload W cfg quiet s d lts tr _ Hp)
    as (before & rest & Htr & Hbefore).
  do 7 eexists. split; [exact Htr|]. split; [exact Hbefore|].
  split; [reflexivity|]. split; [exact He|]. split; [exact Hs|]. ring.
Qed.

Lemma export_time_range_witness :
  let W := constant_world (ok_response (JObj [])) None in
  exists start_text end_text other before rest end_instant start_instant,
    snd (create_data_export W example_config sample_session 30 None [])
    = (before
         ++ ERequest (create_request example_config
                        (JObj (("startTime", JStr start_text)
                               :: ("endTime", JStr end_text) :: other)))
         :: rest)%list
    /\ Forall (fun e => is_request e = false) before
    /\ end_text = "2026-11-04T09:30:05Z"
    /\ Rfc3339.instant end_text = Some end_instant
    /\ Rfc3339.instant start_text = Some start_instant
    /\ end_instant - start_instant = 30 * 86400.
Proof.
  exact (export_time_range (constant_world (ok_response (JObj [])) None)
           example_config sample_session 30 None []
           eq_refl sample_now_valid
           (proj1 (Z.leb_le 0 30) eq_refl)
           (proj1 (Z.leb_le 364878 (739924 - 30)) eq_refl)).
Defined.

(** C3 as stated holds for every [d >= 0].  For a [d] that reaches
    before the first representable day the subtraction overflows, and
    [create_data_export] raises before it builds or sends any payload.
    For a [d] that reaches a year below 1000 the payload is sent, but its
    startTime has a year of fewer than four digits: the text
    999-12-31T09:30:05Z is not of the form YYYY-MM-DDTHH:MM:SSZ. *)
Lemma days_back_overflow_counterexample :
  0 <= 1000000
  /\ create_data_export (constant_world (ok_response (JObj [])) None)
       example_config sample_session 1000000 None []
     = (Raise (OverflowError "date value out of range"), [])
  /\ 0 <= 375047
  /\ build_payload example_config sample_now 375047 None
     = Ok (JObj [("startTime", JStr "999-12-31T09:30:05Z");
                 ("endTime", JStr "2026-11-04T09:30:05Z");
                 ("gcsBucket", JStr "my-bucket")])
  /\ Rfc3339.instant "999-12-31T09:30:05Z" = None.
Proof.
  split; [lia|]. split; [reflexivity|]. split; [lia|].
  split; reflexivity.
Qed.

Example strftime_year_999 :
  DateTime.strftime_rfc3339
    {| DateTime.year := 999; DateTime.month := 12; DateTime.day := 31;
       DateTime.hour := 9; DateTime.minute := 30; DateTime.second := 5;
       DateTime.microsecond := 0 |}
  = "999-12-31T09:30:05Z".
Proof. reflexivity. Qed.

Example timedelta_days_int_min :
  DateTime.timedelta_days (-2147483648)
  = Err (OverflowError "days=-2147483648; must have magnitude <= 999999999")
  /\ DateTime.timedelta_days (-2147483649)
     = Err (OverflowError "Python int too large to convert to C int")
  /\ DateTime.timedelta_days 2147483647
     = Err (OverflowError "days=2147483647; must have magnitude <= 999999999")
  /\ DateTime.timedelta_days 2147483648
     = Err (OverflowError "Python int too large to convert to C int").
Proof. repeat split; reflexivity. Qed.

Example payload_thirty_days_back :
  build_payload example_config sample_now 30 None
  = Ok (JObj [("startTime", JStr "2026-10-05T09:30:05Z");
              ("endTime", JStr "2026-11-04T09:30:05Z");
              ("gcsBucket", JStr "my-bucket")]).
Proof. reflexivity. Qed.




(** * Further properties of the code *)

(** ** Identifiers *)

(** X1: whatever text is given as an id, the normalized id is an already
    versioned path: it contains [projects/], does not start with it, and
    the normalizer returns it unchanged. *)
Theorem normalized_is_versioned (cfg : Config) (s : string) :
  exists r,
    _normalize_id cfg (JStr s) = Ok (JStr r)
    /\ has_substring "projects/" r
    /\ ~ has_prefix "projects/" r
    /\ _normalize_id cfg (JStr r) = Ok (JStr r).
Proof.
  destruct (PyStr.contains "projects/" s) eqn:Hc.
  - apply PyStrFacts.contains_iff in Hc.
    destruct (PyStr.startswith s "projects/") eqn:Hs.
    + apply PyStrFacts.startswith_iff in Hs.
      exists ("v1alpha/" ++ s). rewrite (normalize_unversioned cfg s Hs).
      assert (has_substring "projects/" ("v1alpha/" ++ s)) as H1.
      { destruct Hs as [b ->]. now exists "v1alpha/", b. }
      assert (~ has_prefix "projects/" ("v1alpha/" ++ s)) as H2.
      { intros [b E]. discriminate E. }
      repeat split; auto. now apply normalize_versioned.
    + assert (~ has_prefix "projects/" s) as Hp.
      { intros H. apply PyStrFacts.startswith_iff in H. congruence. }
      exists s. rewrite (normalize_versioned cfg s Hc Hp). auto.
  - apply PyStrFacts.contains_false_iff in Hc.
    exists (INSTANCE_BASE_PATH cfg ++ "/dataExports/" ++ s).
    rewrite (normalize_short_id cfg s Hc).
    destruct (base_path_versioned cfg ("/dataExports/" ++ s)) as [H1 H2].
    repeat split; auto. now apply normalize_versioned.
Qed.

Lemma has_char_app (c : ascii) (a b : string) :
  Py.has_char c (a ++ b) = Py.has_char c a || Py.has_char c b.
Proof.
  induction a as [|x a IH]; cbn; [reflexivity|].
  now rewrite IH, orb_assoc.
Qed.

Lemma last_segment_whole (sep : ascii) (t : string) :
  Py.has_char sep t = false -> PyObj.last_segment sep t = t.
Proof. intros H. destruct t; cbn [PyObj.last_segment]; [reflexivity | now rewrite H]. Qed.

Lemma last_segment_after (sep : ascii) (a b : string) :
  Py.has_char sep b = false ->
  PyObj.last_segment sep (a ++ String sep b) = b.
Proof.
  intros Hb. induction a as [|x a IH].
  - change ("" ++ String sep b) with (String sep b).
    cbn [PyObj.last_segment Py.has_char]. rewrite Ascii.eqb_refl. cbn [orb].
    now apply last_segment_whole.
  - change (String x a ++ String sep b) with (String x (a ++ String sep b)).
    cbn [PyObj.last_segment].
    replace (Py.has_char sep (String x (a ++ String sep b))) with true; [exact IH|].
    symmetry. cbn [Py.has_char]. rewrite has_char_app. cbn [Py.has_char].
    rewrite Ascii.eqb_refl. cbn [orb]. now rewrite !orb_true_r.
Qed.

Lemma no_slash_no_projects (s : string) :
  Py.has_char "/"%char s = false -> ~ has_substring "projects/" s.
Proof.
  intros H (a & b & E). subst s.
  rewrite !has_char_app in H. cbn in H. now rewrite orb_true_r in H.
Qed.

(** X2: the short id that the listing shows for a job of this instance
    (the part of its resource name after the last slash) is that final
    part, and normalizing the short id gives the same path as normalizing
    the full resource name the service returned: [--track] and [--cancel]
    reach the same job with either. *)
Theorem short_id_addresses_same_job (cfg : Config) (s : string) :
  Py.has_char "/"%char s = false ->
  let name :=
    "projects/" ++ fmt (PROJECT_ID cfg) ++ "/locations/" ++ fmt (LOCATION cfg)
      ++ "/instances/" ++ fmt (INSTANCE_ID cfg) ++ "/dataExports/" ++ s in
  PyObj.last_segment "/"%char name = s
  /\ _normalize_id cfg (JStr (PyObj.last_segment "/"%char name))
     = _normalize_id cfg (JStr name)
  /\ _normalize_id cfg (JStr name) = Ok (JStr ("v1alpha/" ++ name)).
Proof.
  intros Hs name.
  assert (PyObj.last_segment "/"%char name = s) as Hseg.
  { unfold name.
    replace ("projects/" ++ fmt (PROJECT_ID cfg) ++ "/locations/"
               ++ fmt (LOCATION cfg) ++ "/instances/" ++ fmt (INSTANCE_ID cfg)
               ++ "/dataExports/" ++ s)
      with (("projects/" ++ fmt (PROJECT_ID cfg) ++ "/locations/"
               ++ fmt (LOCATION cfg) ++ "/instances/" ++ fmt (INSTANCE_ID cfg)
               ++ "/dataExports") ++ String "/"%char s)
      by (now rewrite !PyStrFacts.append_assoc).
    now apply last_segment_after. }
  assert (_normalize_id cfg (JStr name) = Ok (JStr ("v1alpha/" ++ name))) as Hfull.
  { apply normalize_unversioned. unfold name. eexists. reflexivity. }
  split; [exact Hseg|]. split; [|exact Hfull].
  rewrite Hseg, Hfull, (normalize_short_id cfg s (no_slash_no_projects s Hs)).
  unfold INSTANCE_BASE_PATH, name. now rewrite !PyStrFacts.append_assoc.
Qed.

Lemma short_id_addresses_same_job_witness :
  PyObj.last_segment "/"%char
    "projects/p1/locations/us/instances/i1/dataExports/f0015a77" = "f0015a77"
  /\ _normalize_id example_config (JStr "f0015a77")
     = _normalize_id example_config
         (JStr "projects/p1/locations/us/instances/i1/dataExports/f0015a77").
Proof.
  destruct (short_id_addresses_same_job example_config "f0015a77" eq_refl)
    as (H1 & H2 & _).
  split; [exact H1|]. cbv zeta in H2. rewrite H1 in H2. exact H2.
Defined.

(** ** Configuration *)

Lemma truthy_opt_false (o : option string) :
  Py.truthy (Py.of_opt o) = false <-> blank o.
Proof.
  unfold blank. destruct o as [v|]; cbn.
  - destruct (String.eqb_spec v ""); cbn; split; intros H; try discriminate.
    + right. now subst.
    + reflexivity.
    + destruct H as [H|H]; [discriminate|]. injection H as ->. now elim n.
  - split; auto.
Qed.

(** X3: the configuration check of [main] treats an empty value like an
    absent one: it passes exactly when the project id, the instance id and
    the bucket are all non-empty texts, and when it does not pass, the
    error message is the only event of the run. *)
Theorem blank_config_value_fails_fast (W : world) (cfg : Config) (fuel : nat)
    (args : Args) (tr : trace) :
  (config_complete cfg = false
   <-> blank (PROJECT_ID cfg) \/ blank (INSTANCE_ID cfg) \/ blank (GCS_BUCKET cfg))
  /\ (blank (PROJECT_ID cfg) \/ blank (INSTANCE_ID cfg) \/ blank (GCS_BUCKET cfg) ->
      snd (main W cfg fuel args tr)
      = (tr ++ [EPrint "Error: Missing critical .env configuration."])%list).
Proof.
  assert (config_complete cfg = false
          <-> blank (PROJECT_ID cfg) \/ blank (INSTANCE_ID cfg)
              \/ blank (GCS_BUCKET cfg)) as Hiff.
  { unfold config_complete. cbn [forallb]. rewrite andb_true_r.
    rewrite <- !truthy_opt_false.
    destruct (Py.truthy (Py.of_opt (PROJECT_ID cfg)));
      destruct (Py.truthy (Py.of_opt (INSTANCE_ID cfg)));
      destruct (Py.truthy (Py.of_opt (GCS_BUCKET cfg))); cbn; intuition congruence. }
  split; [exact Hiff|]. intros H. apply Hiff in H.
  rewrite (main_incomplete_config W cfg fuel args H).
  unfold print, emit. now destruct (interrupted W tr).
Qed.

Lemma blank_config_value_fails_fast_witness :
  let cfg := {|
    SERVICE_ACCOUNT_FILE := Some "sa.json"; SCOPES := None;
    PROJECT_ID := Some "p1"; LOCATION := Some "us"; INSTANCE_ID := Some "i1";
    GCS_BUCKET := Some ""; SECOPS_API_BASE_URL := None; TIMEOUT := 60
  |} in
  snd (main scripted_three cfg 5 no_action [])
  = [EPrint "Error: Missing critical .env configuration."].
Proof.
  intros cfg.
  exact (proj2 (blank_config_value_fails_fast scripted_three cfg 5 no_action [])
           (or_intror (or_intror (or_intror eq_refl)))).
Defined.

(** ** What a computation appends to the trace *)

Section Emits.
Variable W : world.
Variable P : event -> Prop.

Lemma emits_silent {A} (c : M A) :
  (forall tr, snd (c tr) = tr) -> emits P c.
Proof. intros H tr. exists []. rewrite app_nil_r. split; [apply H | constructor]. Qed.

Lemma emits_ret {A} (a : A) : emits P (ret a).
Proof. now apply emits_silent. Qed.

Lemma emits_raise {A} (e : exn) : emits P (@raise A e).
Proof. now apply emits_silent. Qed.

Lemma emits_lift {A} (r : pyres A) : emits P (lift r).
Proof. apply emits_silent. intros tr. now destruct r. Qed.

Lemma emits_now_utc : emits P (now_utc W).
Proof. now apply emits_silent. Qed.

Lemma emits_now_local : emits P (now_local W).
Proof. now apply emits_silent. Qed.

Lemma emits_out_of_fuel {A} : emits P (fun tr => (@OutOfFuel A, tr)).
Proof. now apply emits_silent. Qed.

Lemma emits_emit (e : event) : P e -> emits P (emit W e).
Proof.
  intros He tr. exists [e]. unfold emit.
  destruct (interrupted W tr); (split; [reflexivity | now repeat constructor]).
Qed.

Lemma emits_send (r : request) : P (ERequest r) -> emits P (send W r).
Proof.
  intros He tr. exists [ERequest r]. unfold send.
  destruct (interrupted W tr); [|destruct (server W (count_requests tr) r)];
    (split; [reflexivity | now repeat constructor]).
Qed.

Lemma emits_bind {A B} (c : M A) (k : A -> M B) :
  emits P c -> (forall a, emits P (k a)) -> emits P (bind c k).
Proof.
  intros Hc Hk tr. destruct (Hc tr) as (n1 & E1 & F1). unfold bind.
  destruct (c tr) as [[a|e|] tr1]; cbn [snd] in E1; subst tr1.
  - destruct (Hk a (tr ++ n1)%list) as (n2 & E2 & F2).
    exists (n1 ++ n2)%list. rewrite app_assoc, <- E2.
    split; [reflexivity | now apply Forall_app].
  - now exists n1.
  - now exists n1.
Qed.

Lemma emits_try_except {A} (body : M A) (handler : exn -> option (M A)) :
  emits P body ->
  (forall e h, handler e = Some h -> emits P h) ->
  emits P (try_except body handler).
Proof.
  intros Hb Hh tr. destruct (Hb tr) as (n1 & E1 & F1). unfold try_except.
  destruct (body tr) as [[a|e|] tr1]; cbn [snd] in E1; subst tr1.
  - now exists n1.
  - destruct (handler e) as [h|] eqn:Eh; [|now exists n1].
    destruct (Hh e h Eh (tr ++ n1)%list) as (n2 & E2 & F2).
    exists (n1 ++ n2)%list. rewrite app_assoc, <- E2.
    split; [reflexivity | now apply Forall_app].
  - now exists n1.
Qed.

Lemma emits_for_each (items : list json) (body : json -> M unit) :
  (forall x, emits P (body x)) -> emits P (for_each items body).
Proof.
  intros Hb. induction items as [|x items IH]; cbn [for_each].
  - apply emits_ret.
  - apply emits_bind; [apply Hb | intros _; exact IH].
Qed.

(** The first event of a computation that starts by sending [r]. *)
Lemma send_is_first {A} (r : request) (k : response -> M A) (tr : trace) :
  (forall resp, emits P (k resp)) ->
  exists rest, snd (bind (send W r) k tr) = (tr ++ ERequest r :: rest)%list.
Proof.
  intros Hk. unfold bind, send.
  destruct (interrupted W tr); [now exists []|].
  destruct (server W (count_requests tr) r) as [msg|resp]; [now exists []|].
  destruct (Hk resp (tr ++ [ERequest r])%list) as (new & E & _).
  exists new. rewrite E, <- app_assoc. reflexivity.
Qed.

End Emits.

Ltac emits_steps :=
  repeat first
    [ apply emits_bind; [|intros ?]
    | apply emits_ret
    | apply emits_raise
    | apply emits_lift
    | apply emits_now_utc
    | apply emits_now_local
    | apply emits_out_of_fuel
    | apply emits_emit; exact I
    | apply emits_send; exact I
    | apply emits_for_each; intros ?
    | match goal with
      | |- emits _ (if ?b then _ else _) => destruct b
      | |- emits _ (match ?o with Some _ => _ | None => _ end) => destruct o
      end ].

Section EverythingEmits.
Variable W : world.
Variable cfg : Config.

Lemma emits_get_status s id : emits any_event (get_data_export_status W cfg s id).
Proof. unfold get_data_export_status, session_get. emits_steps. Qed.

Lemma emits_fetch s : emits any_event (fetch_service_account W cfg s).
Proof. unfold fetch_service_account, session_get, print. emits_steps. Qed.

Lemma emits_list s : emits any_event (list_data_exports W cfg s).
Proof.
  unfold list_data_exports, session_get, print_export, print. emits_steps.
Qed.

Lemma emits_cancel s id : emits any_event (cancel_data_export W cfg s id).
Proof.
  unfold cancel_data_export, session_post, print. emits_steps.
Qed.

Lemma emits_create s d lts : emits any_event (create_data_export W cfg s d lts).
Proof. unfold create_data_export, session_post, print. emits_steps. Qed.

Lemma emits_track_loop fuel s id : emits any_event (track_loop W cfg fuel s id).
Proof.
  induction fuel as [|fuel IH]; cbn [track_loop]; [apply emits_out_of_fuel|].
  apply emits_bind; [apply emits_get_status | intros ?].
  unfold print, sleep. emits_steps. exact IH.
Qed.

Lemma emits_track fuel s id :
  emits any_event (track_export_until_completion W cfg fuel s id).
Proof.
  unfold track_export_until_completion, print.
  apply emits_bind; [apply emits_emit; exact I | intros _].
  apply emits_bind; [apply emits_emit; exact I | intros _].
  apply emits_try_except; [apply emits_track_loop|].
  intros e h H. destruct e; try discriminate H. injection H as <-.
  apply emits_emit. exact I.
Qed.

Lemma emits_session : emits any_event (get_authorized_session W cfg).
Proof.
  unfold get_authorized_session, load_session, print.
  apply emits_try_except.
  - emits_steps.
  - intros e h H. destruct (is_Exception e); [|discriminate H].
    injection H as <-. emits_steps.
Qed.

End EverythingEmits.

(** ** The first request of an action fails *)

Section FirstRequestFails.
Variable W : world.
Variable cfg : Config.
Hypothesis quiet : sigint W = None.
Variable n : nat.
Variable e : exn.
Hypothesis first_fails :
  forall A (r : request) (k : response -> M A) (tr : trace),
    count_requests tr = n ->
    bind (send W r) (fun a => bind (lift (raise_for_status a)) (fun _ => k a)) tr
    = (Raise e, (tr ++ [ERequest r])%list).

Lemma send_fails {A} (r : request) (k : response -> M A) (tr : trace) :
  count_requests tr = n ->
  fails_at_first_request e
    (bind (send W r) (fun a => bind (lift (raise_for_status a)) (fun _ => k a))) tr.
Proof. intros Hn. exists [], r. now rewrite first_fails. Qed.

Lemma print_then_fails {A} (line : string) (c : M A) (tr : trace) :
  fails_at_first_request e c (tr ++ [EPrint line])%list ->
  fails_at_first_request e (bind (print W line) (fun _ => c)) tr.
Proof.
  intros (prints & r & E & F). exists (EPrint line :: prints), r.
  rewrite (bind_run _ _ _ _ _ (print_quiet W quiet _ _)), E, <- app_assoc.
  split; [reflexivity | exact F].
Qed.

Lemma fetch_fails s tr :
  count_requests tr = n ->
  fails_at_first_request e (fetch_service_account W cfg s) tr.
Proof.
  intros Hn. unfold fetch_service_account. apply print_then_fails.
  unfold session_get. apply send_fails. now rewrite count_requests_print.
Qed.

Lemma list_fails s tr :
  count_requests tr = n ->
  fails_at_first_request e (list_data_exports W cfg s) tr.
Proof.
  intros Hn. unfold list_data_exports. apply print_then_fails.
  unfold session_get. apply send_fails. now rewrite count_requests_print.
Qed.

Lemma get_status_fails s id tr :
  count_requests tr = n ->
  fails_at_first_request e (get_data_export_status W cfg s (JStr id)) tr.
Proof.
  intros Hn. unfold get_data_export_status.
  destruct (normalize_str_total cfg id) as [path Hp].
  destruct (send_fails (status_request cfg path)
              (fun resp => lift (resp_json resp)) tr Hn) as (prints & r & E & F).
  exists prints, r. split; [|exact F].
  rewrite (bind_lift _ _ _ _ Hp). exact E.
Qed.

Lemma cancel_fails s id tr :
  count_requests tr = n ->
  fails_at_first_request e (cancel_data_export W cfg s (JStr id)) tr.
Proof.
  intros Hn. unfold cancel_data_export.
  destruct (normalize_str_total cfg id) as [path Hp].
  match goal with
  | |- fails_at_first_request _ ?c _ =>
      assert (forall t, c t
                = bind (print W (Py.LF ++ "[Action] Cancelling Data Export job: "
                                   ++ id ++ "..."))
                    (fun _ =>
                       bind (send W (cancel_request cfg path))
                         (fun a => bind (lift (raise_for_status a))
                            (fun _ =>
                               bind (print W "Cancel request issued successfully.")
                                 (fun _ =>
                                    bind (get_data_export_status W cfg s (JStr id))
                                      (fun _ => ret JNull))))) t) as Hshape
  end.
  { intros t. now rewrite (bind_lift _ _ _ _ Hp). }
  unfold fails_at_first_request. rewrite Hshape.
  apply print_then_fails. apply send_fails. now rewrite count_requests_print.
Qed.

Lemma track_fails fuel s id tr :
  count_requests tr = n ->
  fails_at_first_request e
    (track_loop W cfg (S fuel) s (JStr id)) tr.
Proof.
  intros Hn. destruct (get_status_fails s id tr Hn) as (prints & r & E & F).
  exists prints, r. split; [|exact F]. cbn [track_loop].
  now rewrite (bind_raise _ _ _ _ _ E).
Qed.

Lemma create_fails s days_back lts payload tr :
  count_requests tr = n ->
  build_payload cfg (utc_now W (List.length tr)) days_back lts = Ok payload ->
  fails_at_first_request e (create_data_export W cfg s days_back lts) tr.
Proof.
  intros Hn Hp. unfold create_data_export, fails_at_first_request.
  rewrite bind_now_utc, (bind_lift _ _ _ _ Hp).
  apply print_then_fails. apply print_then_fails.
  destruct (log_types_given lts).
  - apply print_then_fails. unfold session_post. apply send_fails.
    now rewrite !count_requests_print.
  - unfold fails_at_first_request. rewrite bind_ret.
    unfold session_post. apply send_fails. now rewrite !count_requests_print.
Qed.


Hypothesis not_interrupt : e <> KeyboardInterrupt.

Lemma track_export_fails fuel s id tr :
  count_requests tr = n ->
  fails_at_first_request e
    (track_export_until_completion W cfg (S fuel) s (JStr id)) tr.
Proof.
  intros Hn. unfold track_export_until_completion.
  apply print_then_fails. apply print_then_fails.
  destruct (track_fails fuel s id
              ((tr ++ [EPrint (Py.LF ++ "[Tracker] Tracking status for: "
                                 ++ Py.str (JStr id))])
                  ++ [EPrint "Press Ctrl+C to stop tracking (job will continue running in background)."])%list)
    as (prints & r & E & F).
  { now rewrite !count_requests_print. }
  exists prints, r. split; [|exact F]. unfold try_except. rewrite E.
  destruct e; try reflexivity. now elim not_interrupt.
Qed.

Lemma main_handler_catches (body : M unit) (tr tr' : trace) :
  body tr = (Raise e, tr') ->
  try_except body
    (fun x =>
       match x with
       | HTTPError msg resp => Some (report_http_error W msg resp)
       | KeyboardInterrupt => None
       | _ => Some (print W (Py.LF ++ "Error: " ++ exn_str x))
       end) tr
  = main_handler W e tr'.
Proof.
  intros E. unfold try_except. rewrite E. now destruct e.
Qed.

Lemma fails_then {A B} (c : M A) (k : A -> M B) (tr : trace) :
  fails_at_first_request e c tr -> fails_at_first_request e (bind c k) tr.
Proof.
  intros (prints & r & E & F). exists prints, r.
  now rewrite (bind_raise _ _ _ _ _ E).
Qed.

Lemma main_first_request_fails fuel args tr :
  config_complete cfg = true ->
  Py.truthy (Py.of_opt (SERVICE_ACCOUNT_FILE cfg)) = true ->
  credentials W (fmt (SERVICE_ACCOUNT_FILE cfg)) = None ->
  count_requests tr = n ->
  (fetch_sa args = false -> list_ args = false ->
   Py.truthy (Py.of_opt (cancel args)) = false ->
   Py.truthy (Py.of_opt (track args)) = false ->
   exists payload,
     build_payload cfg (utc_now W (S (List.length tr))) (days args)
                   (log_types args) = Ok payload) ->
  exists prints r,
    main W cfg (S fuel) args tr
    = main_handler W e (tr ++ load_event cfg :: prints ++ [ERequest r])%list
    /\ forallb is_print prints = true.
Proof.
  intros Hcfg Hfile Hcred Hn Hcreate.
  set (tr1 := (tr ++ [load_event cfg])%list).
  assert (count_requests tr1 = n) as Hn1.
  { unfold tr1. now rewrite count_requests_quiet. }
  assert (List.length tr1 = S (List.length tr)) as Hlen.
  { unfold tr1. rewrite length_app. cbn. lia. }
  assert (fails_at_first_request e
            (if fetch_sa args then
               bind (fetch_service_account W cfg (the_session cfg)) (fun _ => ret tt)
             else if list_ args then
               bind (list_data_exports W cfg (the_session cfg)) (fun _ => ret tt)
             else if Py.truthy (Py.of_opt (cancel args)) then
               bind (cancel_data_export W cfg (the_session cfg)
                       (Py.of_opt (cancel args)))
                    (fun _ => ret tt)
             else if Py.truthy (Py.of_opt (track args)) then
               track_export_until_completion W cfg (S fuel) (the_session cfg)
                 (Py.of_opt (track args))
             else
               bind (create_data_export W cfg (the_session cfg)
                       (days args) (log_types args))
                    (fun new_id =>
                       track_export_until_completion W cfg (S fuel)
                         (the_session cfg) new_id)) tr1) as (prints & r & E & F).
  { destruct (fetch_sa args) eqn:A1; [now apply fails_then, fetch_fails|].
    destruct (list_ args) eqn:A2; [now apply fails_then, list_fails|].
    destruct (Py.truthy (Py.of_opt (cancel args))) eqn:A3.
    { destruct (cancel args) as [id|]; [|discriminate A3].
      now apply fails_then, cancel_fails. }
    destruct (Py.truthy (Py.of_opt (track args))) eqn:A4.
    { destruct (track args) as [id|]; [|discriminate A4].
      now apply track_export_fails. }
    destruct (Hcreate eq_refl eq_refl eq_refl eq_refl) as [payload Hp].
    apply fails_then. apply (create_fails _ _ _ payload); [exact Hn1|].
    now rewrite Hlen. }
  exists prints, r. split; [|exact F].
  unfold main. rewrite Hcfg. cbn [negb].
  apply main_handler_catches.
  rewrite (bind_run _ _ _ _ _ (session_loads W cfg quiet tr Hfile Hcred)).
  fold (the_session cfg). fold (load_event cfg). fold tr1. rewrite E.
  unfold tr1. now rewrite <- app_assoc.
Qed.

End FirstRequestFails.

(** X5: a transport failure (connection error, timeout) of the first
    request of any of the five actions is not retried: that request is the
    only one sent, [main] prints the error with the message of the failure
    and returns normally. *)
Theorem transport_failure_is_reported (W : world) (cfg : Config) (fuel : nat)
    (args : Args) (tr : trace) (msg : string) :
  sigint W = None ->
  config_complete cfg = true ->
  Py.truthy (Py.of_opt (SERVICE_ACCOUNT_FILE cfg)) = true ->
  credentials W (fmt (SERVICE_ACCOUNT_FILE cfg)) = None ->
  (forall r, server W (count_requests tr) r = inl msg) ->
  (fetch_sa args = false -> list_ args = false ->
   Py.truthy (Py.of_opt (cancel args)) = false ->
   Py.truthy (Py.of_opt (track args)) = false ->
   exists payload,
     build_payload cfg (utc_now W (S (List.length tr))) (days args)
                   (log_types args) = Ok payload) ->
  exists prints r,
    main W cfg (S fuel) args tr
    = (Ret tt,
       (tr ++ load_event cfg :: prints
           ++ [ERequest r; EPrint (Py.LF ++ "Error: " ++ msg)])%list)
    /\ forallb is_print prints = true.
Proof.
  intros quiet Hcfg Hfile Hcred Hsrv Hcreate.
  destruct (main_first_request_fails W cfg quiet (count_requests tr)
              (RequestException msg)) with (fuel := fuel) (args := args) (tr := tr)
    as (prints & r & E & F); auto.
  - intros A r k t Ht. unfold bind, send, interrupted.
    now rewrite quiet, Ht, Hsrv.
  - discriminate.
  - exists prints, r. split; [|exact F]. rewrite E.
    cbn [main_handler exn_str]. rewrite print_quiet by exact quiet.
    now rewrite <- app_assoc, <- app_comm_cons, <- app_assoc.
Qed.

Lemma transport_failure_is_reported_witness :
  exists prints r,
    main (scripted_world [] None) example_config 1 no_action []
    = (Ret tt,
       (load_event example_config :: prints
          ++ [ERequest r; EPrint (Py.LF ++ "Error: Connection refused")])%list)
    /\ forallb is_print prints = true.
Proof.
  exact (transport_failure_is_reported (scripted_world [] None) example_config
           0%nat no_action [] "Connection refused"
           eq_refl eq_refl eq_refl eq_refl (fun _ => eq_refl)
           (fun _ _ _ _ => ex_intro _ _ eq_refl)).
Defined.

(** X6: when the first request of any of the five actions is answered
    with a 4xx or 5xx response whose body does not decode as JSON, [main]
    falls back to the raw body: after the API error message it prints the
    text of the response, and returns normally; no second request is
    sent. *)
Theorem http_error_raw_body_is_reported (W : world) (cfg : Config) (fuel : nat)
    (args : Args) (tr : trace) (resp : response) (why : string) :
  sigint W = None ->
  config_complete cfg = true ->
  Py.truthy (Py.of_opt (SERVICE_ACCOUNT_FILE cfg)) = true ->
  credentials W (fmt (SERVICE_ACCOUNT_FILE cfg)) = None ->
  (forall r, server W (count_requests tr) r = inr resp) ->
  400 <= status_code resp < 600 ->
  json_result resp = inl why ->
  (fetch_sa args = false -> list_ args = false ->
   Py.truthy (Py.of_opt (cancel args)) = false ->
   Py.truthy (Py.of_opt (track args)) = false ->
   exists payload,
     build_payload cfg (utc_now W (S (List.length tr))) (days args)
                   (log_types args) = Ok payload) ->
  exists prints r msg,
    main W cfg (S fuel) args tr
    = (Ret tt,
       (tr ++ load_event cfg :: prints
           ++ [ERequest r; EPrint (Py.LF ++ "API Error: " ++ msg);
               EPrint ("API Response: " ++ text resp)])%list)
    /\ forallb is_print prints = true.
Proof.
  intros quiet Hcfg Hfile Hcred Hsrv Hcode Hj Hcreate.
  destruct (raise_for_status_error resp Hcode) as [msg Hmsg].
  destruct (main_first_request_fails W cfg quiet (count_requests tr)
              (HTTPError msg resp)) with (fuel := fuel) (args := args) (tr := tr)
    as (prints & r & E & F); auto.
  - intros A r k t Ht.
    rewrite (bind_run _ _ _ _ _
               (send_quiet_at W quiet r resp t _ Ht (Hsrv r))).
    now rewrite (bind_lift_err _ _ _ _ Hmsg).
  - discriminate.
  - exists prints, r, msg. split; [|exact F]. rewrite E.
    cbn [main_handler]. unfold report_http_error.
    rewrite (bind_run _ _ _ _ _ (print_quiet W quiet _ _)).
    unfold try_except, resp_json. rewrite Hj. cbn [lift bind raise].
    rewrite print_quiet by exact quiet.
    now rewrite <- !app_assoc, <- app_comm_cons, <- app_assoc.
Qed.

Lemma http_error_raw_body_is_reported_witness :
  let resp := {| status_code := 502; reason := "Bad Gateway";
                 resp_url := "https://chronicle.us.googleapis.com/";
                 text := "upstream unavailable";
                 json_result := inl "Expecting value: line 1 column 1 (char 0)" |} in
  exists prints r msg,
    main (constant_world resp None) example_config 1 no_action []
    = (Ret tt,
       (load_event example_config :: prints
          ++ [ERequest r; EPrint (Py.LF ++ "API Error: " ++ msg);
              EPrint "API Response: upstream unavailable"])%list)
    /\ forallb is_print prints = true.
Proof.
  intros resp.
  exact (http_error_raw_body_is_reported (constant_world resp None)
           example_config 0%nat no_action [] resp _
           eq_refl eq_refl eq_refl eq_refl (fun _ => eq_refl)
           (conj (proj1 (Z.leb_le 400 502) eq_refl)
                 (proj1 (Z.ltb_lt 502 600) eq_refl))
           eq_refl
           (fun _ _ _ _ => ex_intro _ _ eq_refl)).
Defined.

(** ** What [main] does before and around an action *)

Lemma bind_extends (P : event -> Prop) {A B} (c : M A) (k : A -> M B)
    (tr : trace) :
  (forall a, emits P (k a)) ->
  exists more, snd (bind c k tr) = (snd (c tr) ++ more)%list.
Proof.
  intros Hk. unfold bind. destruct (c tr) as [[a|e|] tr1]; cbn [snd].
  - destruct (Hk a tr1) as (more & E & _). now exists more.
  - exists []. now rewrite app_nil_r.
  - exists []. now rewrite app_nil_r.
Qed.

Lemma try_extends (P : event -> Prop) {A} (body : M A)
    (handler : exn -> option (M A)) (tr : trace) :
  (forall e h, handler e = Some h -> emits P h) ->
  exists more, snd (try_except body handler tr) = (snd (body tr) ++ more)%list.
Proof.
  intros Hh. unfold try_except. destruct (body tr) as [[a|e|] tr1]; cbn [snd].
  - exists []. now rewrite app_nil_r.
  - destruct (handler e) as [h|] eqn:Eh.
    + destruct (Hh e h Eh tr1) as (more & E & _). now exists more.
    + exists []. now rewrite app_nil_r.
  - exists []. now rewrite app_nil_r.
Qed.

Lemma emits_report (W : world) (msg : string) (resp : response) :
  emits any_event (report_http_error W msg resp).
Proof.
  unfold report_http_error, print.
  apply emits_bind; [apply emits_emit; exact I | intros _].
  apply emits_try_except.
  - emits_steps.
  - intros e h H. injection H as <-. apply emits_emit. exact I.
Qed.

Lemma emits_main_handlers (W : world) (e : exn) (h : M unit) :
  match e with
  | HTTPError msg resp => Some (report_http_error W msg resp)
  | KeyboardInterrupt => None
  | _ => Some (print W (Py.LF ++ "Error: " ++ exn_str e))
  end = Some h ->
  emits any_event h.
Proof.
  destruct e; intros H; try discriminate H; injection H as <-;
    try (apply emits_emit; exact I).
  apply emits_report.
Qed.

(** X7: when authentication fails, [main] sends no request.  With the
    path of the credential file absent or empty it does not even try to
    load one: it prints the authentication error and then the error again,
    and returns.  When loading the file fails, the same two lines follow
    the attempt. *)
Theorem authentication_failure_makes_no_request (W : world) (cfg : Config)
    (fuel : nat) (args : Args) (tr : trace) :
  sigint W = None ->
  config_complete cfg = true ->
  (blank (SERVICE_ACCOUNT_FILE cfg) ->
     main W cfg fuel args tr
     = (Ret tt,
        (tr ++ [EPrint "Authentication Error: SECOPS_ACCOUNT_JSON not found in .env";
                EPrint (Py.LF ++ "Error: SECOPS_ACCOUNT_JSON not found in .env")])%list))
  /\ (forall why,
        ~ blank (SERVICE_ACCOUNT_FILE cfg) ->
        credentials W (fmt (SERVICE_ACCOUNT_FILE cfg)) = Some why ->
        main W cfg fuel args tr
        = (Ret tt,
           (tr ++ [load_event cfg;
                   EPrint ("Authentication Error: " ++ why);
                   EPrint (Py.LF ++ "Error: " ++ why)])%list)).
Proof.
  intros quiet Hcfg. split.
  - intros Hblank. apply truthy_opt_false in Hblank.
    unfold main. rewrite Hcfg. cbn [negb].
    unfold try_except at 1, bind at 1, get_authorized_session, try_except.
    rewrite Hblank. cbn [negb raise is_Exception].
    rewrite (bind_run _ _ _ _ _ (print_quiet W quiet _ _)). cbn [raise].
    rewrite print_quiet by exact quiet. now rewrite <- app_assoc.
  - intros why Hfile Hcred.
    assert (Py.truthy (Py.of_opt (SERVICE_ACCOUNT_FILE cfg)) = true) as Ht.
    { destruct (Py.truthy (Py.of_opt (SERVICE_ACCOUNT_FILE cfg))) eqn:E; auto.
      elim Hfile. now apply truthy_opt_false. }
    unfold main. rewrite Hcfg. cbn [negb].
    unfold try_except at 1, bind at 1, get_authorized_session, try_except.
    rewrite Ht. cbn [negb]. unfold load_session.
    rewrite (bind_run _ _ _ _ _ (emit_quiet W quiet _ _)), Hcred.
    cbn [raise is_Exception].
    rewrite (bind_run _ _ _ _ _ (print_quiet W quiet _ _)). cbn [raise exn_str].
    rewrite print_quiet by exact quiet. now rewrite <- !app_assoc.
Qed.

Lemma authentication_failure_makes_no_request_witness :
  let cfg := {|
    SERVICE_ACCOUNT_FILE := None; SCOPES := None;
    PROJECT_ID := Some "p1"; LOCATION := Some "us"; INSTANCE_ID := Some "i1";
    GCS_BUCKET := Some "my-bucket"; SECOPS_API_BASE_URL := None; TIMEOUT := 60
  |} in
  main scripted_three cfg 5 no_action []
  = (Ret tt,
     [EPrint "Authentication Error: SECOPS_ACCOUNT_JSON not found in .env";
      EPrint (Py.LF ++ "Error: SECOPS_ACCOUNT_JSON not found in .env")]).
Proof.
  intros cfg.
  exact (proj1 (authentication_failure_makes_no_request scripted_three cfg 5
                  no_action [] eq_refl eq_refl) (or_introl eq_refl)).
Defined.

(** The trace of [main] when the configuration is complete and the
    session loads: the credential load, then what the dispatched action
    does, then what an [except] clause adds. *)
Lemma main_runs_action (W : world) (cfg : Config) (fuel : nat) (args : Args)
    (tr : trace) :
  sigint W = None ->
  config_complete cfg = true ->
  Py.truthy (Py.of_opt (SERVICE_ACCOUNT_FILE cfg)) = true ->
  credentials W (fmt (SERVICE_ACCOUNT_FILE cfg)) = None ->
  exists more,
    snd (main W cfg fuel args tr)
    = (snd ((if fetch_sa args then
               bind (fetch_service_account W cfg (the_session cfg)) (fun _ => ret tt)
             else if list_ args then
               bind (list_data_exports W cfg (the_session cfg)) (fun _ => ret tt)
             else if Py.truthy (Py.of_opt (cancel args)) then
               bind (cancel_data_export W cfg (the_session cfg)
                       (Py.of_opt (cancel args)))
                    (fun _ => ret tt)
             else if Py.truthy (Py.of_opt (track args)) then
               track_export_until_completion W cfg fuel (the_session cfg)
                 (Py.of_opt (track args))
             else
               bind (create_data_export W cfg (the_session cfg)
                       (days args) (log_types args))
                    (fun new_id =>
                       track_export_until_completion W cfg fuel
                         (the_session cfg) new_id))
              (tr ++ [load_event cfg])%list) ++ more)%list.
Proof.
  intros quiet Hcfg Hfile Hcred. unfold main. rewrite Hcfg. cbn [negb].
  match goal with
  | |- context [try_except ?b ?h tr] =>
      destruct (try_extends any_event b h tr (emits_main_handlers W)) as [more E]
  end.
  exists more. rewrite E. f_equal.
  now rewrite (bind_run _ _ _ _ _ (session_loads W cfg quiet tr Hfile Hcred)).
Qed.

Lemma config_complete_location (cfg : Config) (loc : option string) :
  config_complete (with_location cfg loc) = config_complete cfg.
Proof. reflexivity. Qed.

(** X8: the location is not part of the configuration check.  The check
    gives the same verdict whatever the location is, and with the location
    unset and no base URL given, [main] goes on: the listing request is
    sent to the host [chronicle.None.googleapis.com], for a resource path
    whose location is [None]. *)
Theorem location_is_not_checked :
  (forall (cfg : Config) (loc : option string),
      config_complete (with_location cfg loc) = config_complete cfg)
  /\ (forall (W : world) (cfg : Config) (fuel : nat) (args : Args) (tr : trace),
        sigint W = None ->
        config_complete cfg = true ->
        Py.truthy (Py.of_opt (SERVICE_ACCOUNT_FILE cfg)) = true ->
        credentials W (fmt (SERVICE_ACCOUNT_FILE cfg)) = None ->
        LOCATION cfg = None ->
        SECOPS_API_BASE_URL cfg = None ->
        fetch_sa args = false ->
        list_ args = true ->
        exists rest,
          snd (main W cfg fuel args tr)
          = (tr ++ [load_event cfg;
                    EPrint (Py.LF ++ "[Action] Listing Data Exports...");
                    ERequest (list_request cfg)] ++ rest)%list
          /\ req_url (list_request cfg)
             = "https://chronicle.None.googleapis.com/v1alpha/projects/"
                 ++ fmt (PROJECT_ID cfg) ++ "/locations/None/instances/"
                 ++ fmt (INSTANCE_ID cfg) ++ "/dataExports").
Proof.
  split; [exact config_complete_location|].
  intros W cfg fuel args tr quiet Hcfg Hfile Hcred Hloc Hurl Hf Hl.
  destruct (main_runs_action W cfg fuel args tr quiet Hcfg Hfile Hcred)
    as [more E].
  rewrite Hf, Hl in E.
  match type of E with
  | context [bind ?c ?k ?t] =>
      destruct (bind_extends any_event c k t (fun _ => emits_ret any_event tt))
        as [more1 E1]
  end.
  rewrite E1 in E. clear E1.
  unfold list_data_exports in E.
  rewrite (bind_run _ _ _ _ _ (print_quiet W quiet _ _)) in E.
  unfold session_get in E. fold (list_request cfg) in E.
  match type of E with
  | context [bind (send W ?r) ?k ?t] =>
      destruct (send_is_first W any_event r k t) as [rest E2]
  end.
  { intros resp. unfold print_export, print. emits_steps. }
  rewrite E2 in E. clear E2.
  exists (rest ++ more1 ++ more)%list. split.
  - rewrite E. rewrite <- !app_assoc. reflexivity.
  - cbn [list_request req_url]. unfold API_BASE_URL, INSTANCE_BASE_PATH.
    rewrite Hloc, Hurl. cbn [fmt Py.of_opt Py.str Py.repr].
    now rewrite !PyStrFacts.append_assoc.
Qed.

Lemma location_is_not_checked_witness :
  let cfg := with_location example_config None in
  exists rest,
    snd (main (listing_world []) cfg 1 (nth 1 five_actions no_action) [])
    = ([load_event cfg;
        EPrint (Py.LF ++ "[Action] Listing Data Exports...");
        ERequest (list_request cfg)] ++ rest)%list
    /\ req_url (list_request cfg)
       = "https://chronicle.None.googleapis.com/v1alpha/projects/p1/locations/None/instances/i1/dataExports".
Proof.
  exact (proj2 location_is_not_checked (listing_world [])
           (with_location example_config None) 1%nat
           (nth 1 five_actions no_action) []
           eq_refl eq_refl eq_refl eq_refl eq_refl eq_refl eq_refl eq_refl).
Defined.

(** X9: an empty [--cancel] or [--track] value selects no action, so the
    default action runs: [main] behaves as if the option had not been
    given, and when no other action is chosen its first request is the
    POST that creates a new export job. *)
Theorem empty_id_runs_create (W : world) (cfg : Config) (fuel : nat)
    (args : Args) (tr : trace) (payload : json) :
  sigint W = None ->
  config_complete cfg = true ->
  Py.truthy (Py.of_opt (SERVICE_ACCOUNT_FILE cfg)) = true ->
  credentials W (fmt (SERVICE_ACCOUNT_FILE cfg)) = None ->
  fetch_sa args = false ->
  list_ args = false ->
  blank (cancel args) ->
  blank (track args) ->
  build_payload cfg (utc_now W (S (List.length tr))) (days args) (log_types args)
  = Ok payload ->
  main W cfg fuel args = main W cfg fuel (without_ids args)
  /\ exists before rest,
       snd (main W cfg fuel args tr)
       = (tr ++ load_event cfg :: before
             ++ ERequest (create_request cfg payload) :: rest)%list
       /\ Forall (fun e => is_request e = false) before.
Proof.
  intros quiet Hcfg Hfile Hcred Hf Hl Hc Ht Hp.
  apply truthy_opt_false in Hc, Ht.
  split.
  - unfold main. cbn [without_ids cancel track fetch_sa list_ days log_types
                       Py.of_opt Py.truthy].
    now rewrite Hf, Hl, Hc, Ht.
  - destruct (main_runs_action W cfg fuel args tr quiet Hcfg Hfile Hcred)
      as [more E].
    rewrite Hf, Hl, Hc, Ht in E.
    match type of E with
    | context [bind ?c ?k ?t] =>
        destruct (bind_extends any_event c k t) as [more1 E1]
    end.
    { intros new_id. apply emits_track. }
    rewrite E1 in E. clear E1.
    destruct (create_sends_payload W cfg quiet (the_session cfg) (days args)
                (log_types args) (tr ++ [load_event cfg])%list payload)
      as (before & rest & E2 & F).
    { rewrite length_app, Nat.add_comm. exact Hp. }
    rewrite E2 in E. exists before, (rest ++ more1 ++ more)%list.
    split; [|exact F]. rewrite E.
    repeat (rewrite <- app_assoc; cbn [app]). reflexivity.
Qed.

Lemma empty_id_runs_create_witness :
  let args := {| create := false; track := None; fetch_sa := false;
                 list_ := false; cancel := Some ""; days := 1;
                 log_types := None |} in
  exists before rest payload,
    snd (main forbidden_world example_config 1 args [])
    = (load_event example_config :: before
         ++ ERequest (create_request example_config payload) :: rest)%list
    /\ Forall (fun e => is_request e = false) before.
Proof.
  intros args.
  destruct (empty_id_runs_create forbidden_world example_config 1%nat args []
              _ eq_refl eq_refl eq_refl eq_refl eq_refl eq_refl
              (or_intror eq_refl) (or_introl eq_refl) eq_refl)
    as (_ & before & rest & E & F).
  exists before, rest. eexists. split; [exact E | exact F].
Defined.

(** ** More on the tracker *)

Section TrackerEvents.
Variable W : world.
Variable cfg : Config.
Variable export_id : json.
Variable path : string.
Hypothesis normalized : _normalize_id cfg export_id = Ok (JStr path).

Lemma emits_status_fetch s :
  emits (tracker_event cfg path) (get_data_export_status W cfg s export_id).
Proof.
  intros tr. unfold get_data_export_status.
  rewrite (bind_lift _ _ _ _ normalized). revert tr.
  unfold session_get. cbn [Py.str]. fold (status_request cfg path).
  change (emits (tracker_event cfg path)
            (bind (send W (status_request cfg path))
                  (fun resp => bind (lift (raise_for_status resp))
                                    (fun _ => lift (resp_json resp))))).
  apply emits_bind; [apply emits_send; reflexivity | intros resp].
  apply emits_bind; [apply emits_lift | intros _; apply emits_lift].
Qed.

Lemma emits_tracker_print line : emits (tracker_event cfg path) (print W line).
Proof. apply emits_emit. exact I. Qed.

Lemma emits_tracker_loop fuel s :
  emits (tracker_event cfg path) (track_loop W cfg fuel s export_id).
Proof.
  induction fuel as [|fuel IH]; cbn [track_loop]; [apply emits_out_of_fuel|].
  apply emits_bind; [apply emits_status_fetch | intros status_data].
  apply emits_bind; [apply emits_lift | intros status].
  apply emits_bind; [apply emits_lift | intros state].
  apply emits_bind; [apply emits_now_local | intros timestamp].
  apply emits_bind; [apply emits_tracker_print | intros _].
  destruct (PyObj.eq_str _ _); [apply emits_tracker_print|].
  destruct (PyObj.in_strs _ _).
  { apply emits_bind; [apply emits_tracker_print | intros _; apply emits_tracker_print]. }
  destruct (PyObj.in_strs _ _).
  { apply emits_bind; [apply emits_emit; reflexivity | intros _; exact IH]. }
  apply emits_bind; [apply emits_tracker_print | intros _; apply emits_tracker_print].
Qed.

End TrackerEvents.

(** X10: whatever the server answers and whenever Ctrl+C arrives, the
    tracker of a job does nothing but print, wait exactly 30 seconds, and
    send GET requests for the one status URL of that job, always with the
    configured timeout: the interval never changes and no other resource
    is requested. *)
Theorem tracker_polls_one_url_every_30_seconds (W : world) (cfg : Config)
    (fuel : nat) (s : session) (export_id : json) (path : string) (tr : trace) :
  _normalize_id cfg export_id = Ok (JStr path) ->
  exists new,
    snd (track_export_until_completion W cfg fuel s export_id tr)
    = (tr ++ new)%list
    /\ Forall (fun e =>
                 match e with
                 | EPrint _ => True
                 | ESleep seconds => seconds = 30
                 | ERequest r => r = status_request cfg path
                 | ELoadCredentials _ _ => False
                 end) new.
Proof.
  intros Hn. revert tr.
  change (emits (tracker_event cfg path)
            (track_export_until_completion W cfg fuel s export_id)).
  unfold track_export_until_completion.
  apply emits_bind; [apply emits_tracker_print | intros _].
  apply emits_bind; [apply emits_tracker_print | intros _].
  apply emits_try_except; [now apply emits_tracker_loop|].
  intros e h H. destruct e; try discriminate H. injection H as <-.
  apply emits_tracker_print.
Qed.

Lemma tracker_polls_one_url_every_30_seconds_witness :
  exists new,
    snd (track_export_until_completion scripted_three example_config 5
           sample_session (JStr "f0") []) = new
    /\ Forall (fun e =>
                 match e with
                 | EPrint _ => True
                 | ESleep seconds => seconds = 30
                 | ERequest r =>
                     r = status_request example_config
                           "v1alpha/projects/p1/locations/us/instances/i1/dataExports/f0"
                 | ELoadCredentials _ _ => False
                 end) new.
Proof.
  exact (tracker_polls_one_url_every_30_seconds scripted_three example_config
           5%nat sample_session (JStr "f0") _ [] eq_refl).
Defined.

Lemma count_sleeps_app (a b : trace) :
  count_sleeps (a ++ b)%list = (count_sleeps a + count_sleeps b)%nat.
Proof. unfold count_sleeps. now rewrite filter_app, length_app. Qed.

Lemma non_terminal_cases (st : string) :
  In st non_terminal_stages ->
  JStr st = JStr "IN_QUEUE" \/ JStr st = JStr "PROCESSING"
  \/ JStr st = JStr "PENDING".
Proof.
  cbn. intros [<-|[<-|[<-|[]]]]; auto.
Qed.

Lemma observes_script (cfg : Config) (id path : string) (script : list string)
    (tr : trace) (st : string) :
  _normalize_id cfg (JStr id) = Ok (JStr path) ->
  nth_error script (count_requests tr) = Some st ->
  observes (scripted_world (stage_script script) None) cfg tr (JStr id) path
           (status_payload (JStr st)) (JStr st).
Proof.
  intros Hn Hnth. split; [exact Hn|].
  exists (ok_response (status_payload (JStr st))), (JObj [("stage", JStr st)]).
  cbn [scripted_world server]. unfold stage_script.
  rewrite nth_error_map, Hnth. repeat split.
Qed.

Lemma polling_script (cfg : Config) (s : session) (id path : string)
    (stages : list string) :
  _normalize_id cfg (JStr id) = Ok (JStr path) ->
  Forall (fun st => In st non_terminal_stages) stages ->
  forall (pre : list string) (tr : trace) (fuel : nat),
    count_requests tr = List.length pre ->
    (List.length stages < fuel)%nat ->
    exists new,
      track_loop
        (scripted_world
           (stage_script (pre ++ stages ++ ["FINISHED_SUCCESS"])%list) None)
        cfg fuel s (JStr id) tr
      = (Ret tt, (tr ++ new)%list)
      /\ count_requests new = S (List.length stages)
      /\ count_sleeps new = List.length stages
      /\ last new (ESleep 0) = EPrint success_line.
Proof.
  intros Hn Hstages. induction Hstages as [|st stages Hst _ IH];
    intros pre tr fuel Hc Hfuel.
  - destruct fuel as [|fuel]; [cbn in Hfuel; lia|].
    set (W := scripted_world _ None).
    assert (observes W cfg tr (JStr id) path
              (status_payload (JStr "FINISHED_SUCCESS"))
              (JStr "FINISHED_SUCCESS")) as Hobs.
    { apply observes_script; [exact Hn|].
      rewrite Hc, nth_error_app2, Nat.sub_diag by lia. reflexivity. }
    destruct (poller_classification W cfg eq_refl fuel s _ _ _ _ _ Hobs)
      as (H1 & _).
    rewrite (H1 eq_refl). eexists. rewrite <- app_assoc.
    split; [reflexivity|]. split; [reflexivity | split; reflexivity].
  - destruct fuel as [|fuel]; [cbn in Hfuel; lia|].
    set (script := (pre ++ (st :: stages) ++ ["FINISHED_SUCCESS"])%list).
    set (W := scripted_world (stage_script script) None).
    assert (observes W cfg tr (JStr id) path
              (status_payload (JStr st)) (JStr st)) as Hobs.
    { apply observes_script; [exact Hn|]. unfold script.
      rewrite Hc, nth_error_app2, Nat.sub_diag by lia. reflexivity. }
    destruct (poller_classification W cfg eq_refl fuel s _ _ _ _ _ Hobs)
      as (_ & _ & _ & H4).
    destruct (H4 (non_terminal_cases st Hst)) as [Hstep _].
    rewrite Hstep.
    assert (script = ((pre ++ [st]) ++ stages ++ ["FINISHED_SUCCESS"])%list)
      as Hscript.
    { unfold script. rewrite <- app_assoc. reflexivity. }
    unfold W. rewrite Hscript.
    match goal with
    | |- context [track_loop _ cfg fuel s (JStr id) ?t] =>
        destruct (IH (pre ++ [st])%list t fuel) as (new & E & Hr & Hs & Hl)
    end.
    { rewrite !count_requests_app, Hc, length_app. cbn. lia. }
    { cbn in Hfuel. lia. }
    rewrite E. eexists. rewrite <- !app_assoc.
    split; [reflexivity|].
    rewrite !count_requests_app, !count_sleeps_app, Hr, Hs.
    split; [cbn; lia|]. split; [cbn; lia|].
    cbn [app]. destruct new as [|e new]; [discriminate Hr|].
    exact Hl.
Qed.

(** X11: for every script of waiting stages (IN_QUEUE, PROCESSING or
    PENDING, in any number and order) followed by FINISHED_SUCCESS, the
    polling loop makes exactly one status request per stage, sleeps once
    after each waiting stage and not after the last, and ends by reporting
    success. *)
Theorem polling_runs_to_the_terminal_stage (cfg : Config) (fuel : nat)
    (s : session) (id : string) (stages : list string) :
  Forall (fun st => In st non_terminal_stages) stages ->
  (List.length stages < fuel)%nat ->
  exists new,
    track_loop
      (scripted_world (stage_script (stages ++ ["FINISHED_SUCCESS"])%list) None)
      cfg fuel s (JStr id) []
    = (Ret tt, new)
    /\ count_requests new = S (List.length stages)
    /\ count_sleeps new = List.length stages
    /\ last new (ESleep 0) = EPrint success_line.
Proof.
  intros Hstages Hfuel. destruct (normalize_str_total cfg id) as [path Hn].
  exact (polling_script cfg s id path stages Hn Hstages [] [] fuel eq_refl Hfuel).
Qed.

Lemma polling_runs_to_the_terminal_stage_witness :
  exists new,
    track_loop
      (scripted_world
         (stage_script ["PENDING"; "IN_QUEUE"; "PROCESSING"; "PROCESSING";
                        "FINISHED_SUCCESS"]) None)
      example_config 9 sample_session (JStr "f0") []
    = (Ret tt, new)
    /\ count_requests new = 5%nat
    /\ count_sleeps new = 4%nat
    /\ last new (ESleep 0) = EPrint success_line.
Proof.
  apply (polling_runs_to_the_terminal_stage example_config 9%nat sample_session
           "f0" ["PENDING"; "IN_QUEUE"; "PROCESSING"; "PROCESSING"]).
  - repeat (apply Forall_cons; [cbn; auto 6|]). apply Forall_nil.
  - cbn. lia.
Defined.

(** X12: the polling loop has no retry bound.  Against a service that
    keeps answering with a waiting stage, no number of iterations ends the
    loop: after [fuel] iterations it has sent [fuel] requests, slept
    [fuel] times, and is still polling. *)
Theorem polling_has_no_retry_bound (W : world) (cfg : Config) (s : session)
    (id : string) (resp : response) (payload status : json) (st : string)
    (fuel : nat) (tr : trace) :
  sigint W = None ->
  (forall n r, server W n r = inr resp) ->
  raise_for_status resp = Ok tt ->
  json_result resp = inr payload ->
  PyObj.get payload "dataExportStatus" (JObj []) = Ok status ->
  PyObj.get status "stage" (JStr "UNKNOWN") = Ok (JStr st) ->
  In st non_terminal_stages ->
  exists new,
    track_loop W cfg fuel s (JStr id) tr = (OutOfFuel, (tr ++ new)%list)
    /\ count_requests new = fuel
    /\ count_sleeps new = fuel.
Proof.
  intros quiet Hsrv Hr Hj Hg1 Hg2 Hst.
  destruct (normalize_str_total cfg id) as [path Hn].
  revert tr. induction fuel as [|fuel IH]; intros tr.
  - exists []. rewrite app_nil_r. repeat split.
  - assert (observes W cfg tr (JStr id) path payload (JStr st)) as Hobs.
    { split; [exact Hn|]. exists resp, status. auto. }
    destruct (poller_classification W cfg quiet fuel s _ _ _ _ _ Hobs)
      as (_ & _ & _ & H4).
    destruct (H4 (non_terminal_cases st Hst)) as [Hstep _].
    rewrite Hstep.
    match goal with
    | |- context [track_loop W cfg fuel s (JStr id) ?t] =>
        destruct (IH t) as (new & E & Hc & Hs)
    end.
    rewrite E. eexists. rewrite <- !app_assoc.
    split; [reflexivity|].
    rewrite !count_requests_app, !count_sleeps_app, Hc, Hs.
    split; cbn; lia.
Qed.

Lemma polling_has_no_retry_bound_witness :
  exists new,
    track_loop (constant_world (ok_response (status_payload (JStr "PROCESSING"))) None)
               example_config 40 sample_session (JStr "f0") []
    = (OutOfFuel, new)
    /\ count_requests new = 40%nat
    /\ count_sleeps new = 40%nat.
Proof.
  exact (polling_has_no_retry_bound
           (constant_world (ok_response (status_payload (JStr "PROCESSING"))) None)
           example_config sample_session "f0" _ _ _ "PROCESSING" 40%nat []
           eq_refl (fun _ _ => eq_refl) eq_refl eq_refl eq_refl eq_refl
           (or_intror (or_introl eq_refl))).
Defined.

(** X13: a status resource that has no [dataExportStatus] field, or whose
    [dataExportStatus] has no [stage], is read as the stage UNKNOWN: the
    tracker prints that status, reports the unknown state with the full
    payload and stops after this one request. *)
Theorem missing_stage_stops_tracking (W : world) (cfg : Config) (fuel : nat)
    (s : session) (id path : string) (resp : response)
    (fields : list (string * json)) (tr : trace) :
  sigint W = None ->
  _normalize_id cfg (JStr id) = Ok (JStr path) ->
  server W (count_requests tr) (status_request cfg path) = inr resp ->
  raise_for_status resp = Ok tt ->
  json_result resp = inr (JObj fields) ->
  (Py.dict_get fields "dataExportStatus" = None
   \/ exists inner,
        Py.dict_get fields "dataExportStatus" = Some (JObj inner)
        /\ Py.dict_get inner "stage" = None) ->
  track_loop W cfg (S fuel) s (JStr id) tr
  = (Ret tt,
     (tr ++ [ERequest (status_request cfg path);
             status_line W (tr ++ [ERequest (status_request cfg path)])
                         (JStr "UNKNOWN");
             EPrint "Unknown state 'UNKNOWN'. Stopping tracker.";
             EPrint (Py.dumps_indent2 (JObj fields))])%list).
Proof.
  intros quiet Hn Hs Hr Hj Hmiss.
  assert (observes W cfg tr (JStr id) path (JObj fields) (JStr "UNKNOWN")) as Hobs.
  { split; [exact Hn|]. destruct Hmiss as [H | (inner & H & Hi)].
    - exists resp, (JObj []). cbn [PyObj.get]. rewrite H. auto.
    - exists resp, (JObj inner). cbn [PyObj.get]. rewrite H, Hi. auto. }
  destruct (poller_classification W cfg quiet fuel s _ _ _ _ _ Hobs)
    as (_ & _ & H3 & _).
  rewrite H3.
  - rewrite <- app_assoc. reflexivity.
  - intros k Hk E. injection E as <-. cbn in Hk.
    repeat (destruct Hk as [Hk|Hk]; [discriminate Hk|]). exact Hk.
Qed.

Lemma missing_stage_stops_tracking_witness :
  fst (track_loop (constant_world (ok_response (JObj [("name", JStr "x")])) None)
                  example_config 3 sample_session (JStr "f0") []) = Ret tt
  /\ count_requests
       (snd (track_loop (constant_world (ok_response (JObj [("name", JStr "x")])) None)
                        example_config 3 sample_session (JStr "f0") [])) = 1%nat.
Proof.
  rewrite (missing_stage_stops_tracking
             (constant_world (ok_response (JObj [("name", JStr "x")])) None)
             example_config 2%nat sample_session "f0" _ _ [("name", JStr "x")] []
             eq_refl eq_refl eq_refl eq_refl eq_refl (or_introl eq_refl)).
  split; reflexivity.
Defined.

(** X14: a status resource whose [dataExportStatus] is present but is
    not an object (for instance null) is not classified: reading its stage
    raises [AttributeError], which leaves the tracker after that one
    request, before any status line is printed. *)
Theorem malformed_status_raises (W : world) (cfg : Config) (fuel : nat)
    (s : session) (id path : string) (resp : response)
    (fields : list (string * json)) (v : json) (tr : trace) :
  sigint W = None ->
  _normalize_id cfg (JStr id) = Ok (JStr path) ->
  server W (count_requests tr) (status_request cfg path) = inr resp ->
  raise_for_status resp = Ok tt ->
  json_result resp = inr (JObj fields) ->
  Py.dict_get fields "dataExportStatus" = Some v ->
  (forall inner, v <> JObj inner) ->
  track_loop W cfg (S fuel) s (JStr id) tr
  = (Raise (AttributeError ("'" ++ PyObj.type_name v
                                ++ "' object has no attribute 'get'")),
     (tr ++ [ERequest (status_request cfg path)])%list)
  /\ track_export_until_completion W cfg (S fuel) s (JStr id) tr
     = (Raise (AttributeError ("'" ++ PyObj.type_name v
                                   ++ "' object has no attribute 'get'")),
        (tr ++ [EPrint (Py.LF ++ "[Tracker] Tracking status for: " ++ id);
                EPrint "Press Ctrl+C to stop tracking (job will continue running in background).";
                ERequest (status_request cfg path)])%list).
Proof.
  intros quiet Hn Hs Hr Hj Hv Hobj.
  assert (forall t, count_requests t = count_requests tr ->
            track_loop W cfg (S fuel) s (JStr id) t
            = (Raise (PyObj.no_attribute v "get"),
               (t ++ [ERequest (status_request cfg path)])%list)) as Hloop.
  { intros t Ht. cbn [track_loop]. unfold get_data_export_status.
    rewrite bind_assoc, (bind_lift _ _ _ _ Hn), bind_assoc.
    unfold session_get. cbn [Py.str]. fold (status_request cfg path).
    rewrite (bind_run _ _ _ _ _
               (send_quiet_at W quiet _ _ _ _ Ht Hs)).
    rewrite bind_assoc, (bind_lift _ _ _ _ Hr).
    rewrite (bind_lift _ _ (JObj fields) _); [|unfold resp_json; now rewrite Hj].
    rewrite (bind_lift _ _ v _); [|cbn [PyObj.get]; now rewrite Hv].
    apply bind_lift_err.
    destruct v; try reflexivity. now elim (Hobj fields0). }
  split; [exact (Hloop tr eq_refl)|].
  unfold track_export_until_completion.
  rewrite (bind_run _ _ _ _ _ (print_quiet W quiet _ _)).
  rewrite (bind_run _ _ _ _ _ (print_quiet W quiet _ _)).
  unfold try_except. rewrite Hloop by (now rewrite !count_requests_print).
  cbn [PyObj.no_attribute Py.str]. now rewrite <- !app_assoc.
Qed.

Lemma malformed_status_raises_witness :
  track_loop (constant_world (ok_response (JObj [("dataExportStatus", JNull)])) None)
             example_config 3 sample_session (JStr "f0") []
  = (Raise (AttributeError "'NoneType' object has no attribute 'get'"),
     [ERequest (status_request example_config
                  "v1alpha/projects/p1/locations/us/instances/i1/dataExports/f0")]).
Proof.
  refine (proj1 (malformed_status_raises
                   (constant_world (ok_response (JObj [("dataExportStatus", JNull)])) None)
                   example_config 2%nat sample_session "f0" _ _
                   [("dataExportStatus", JNull)] JNull []
                   eq_refl eq_refl eq_refl eq_refl eq_refl eq_refl _)).
  intros inner H. discriminate H.
Defined.

(** X15: an error of a status fetch is not retried.  Wherever polling
    stands, when the next status request fails in the transport, or is
    answered with a 4xx or 5xx response, the loop ends at once with that
    exception: the failed request is its only event, with no sleep and no
    further request. *)
Theorem polling_error_is_not_retried (W : world) (cfg : Config) (fuel : nat)
    (s : session) (id : string) (tr : trace) :
  sigint W = None ->
  exists path,
    _normalize_id cfg (JStr id) = Ok (JStr path)
    /\ (forall why,
          server W (count_requests tr) (status_request cfg path) = inl why ->
          track_loop W cfg (S fuel) s (JStr id) tr
          = (Raise (RequestException why),
             (tr ++ [ERequest (status_request cfg path)])%list))
    /\ (forall resp,
          server W (count_requests tr) (status_request cfg path) = inr resp ->
          400 <= status_code resp < 600 ->
          exists msg,
            track_loop W cfg (S fuel) s (JStr id) tr
            = (Raise (HTTPError msg resp),
               (tr ++ [ERequest (status_request cfg path)])%list)).
Proof.
  intros quiet. destruct (normalize_str_total cfg id) as [path Hn].
  exists path. split; [exact Hn|].
  assert (forall t, track_loop W cfg (S fuel) s (JStr id) t
            = bind (send W (status_request cfg path))
                (fun a =>
                   bind (bind (lift (raise_for_status a))
                              (fun _ => lift (resp_json a)))
                     (fun status_data =>
                        bind (lift (PyObj.get status_data "dataExportStatus" (JObj [])))
                          (fun status =>
                             bind (lift (PyObj.get status "stage" (JStr "UNKNOWN")))
                               (fun state =>
                                  bind (now_local W)
                                    (fun timestamp =>
                                       bind (print W ("[" ++ DateTime.strftime_hms timestamp
                                                          ++ "] Status: " ++ Py.str state))
                                         (fun _ =>
                                            if PyObj.eq_str state "FINISHED_SUCCESS" then
                                              print W (Py.LF ++ "--- Export COMPLETED SUCCESSFULLY ---")
                                            else if PyObj.in_strs state ["FINISHED_FAILURE"; "CANCELLED"] then
                                              bind (print W (Py.LF ++ "--- Export " ++ Py.str state ++ " ---"))
                                                   (fun _ => print W (Py.dumps_indent2 status_data))
                                            else if PyObj.in_strs state ["IN_QUEUE"; "PROCESSING"; "PENDING"] then
                                              bind (sleep W 30) (fun _ => track_loop W cfg fuel s (JStr id))
                                            else
                                              bind (print W ("Unknown state '" ++ Py.str state
                                                               ++ "'. Stopping tracker."))
                                                   (fun _ => print W (Py.dumps_indent2 status_data)))))))) t)
    as Hshape.
  { intros t. cbn [track_loop]. unfold get_data_export_status.
    now rewrite bind_assoc, (bind_lift _ _ _ _ Hn), bind_assoc. }
  split.
  - intros why Hs. rewrite Hshape. unfold bind at 1, send, interrupted.
    now rewrite quiet, Hs.
  - intros resp Hs Hcode. destruct (raise_for_status_error resp Hcode) as [msg Hmsg].
    exists msg. rewrite Hshape.
    rewrite (bind_run _ _ _ _ _ (send_quiet W quiet _ _ _ Hs)).
    rewrite bind_assoc. now rewrite (bind_lift_err _ _ _ _ Hmsg).
Qed.

Lemma polling_error_is_not_retried_witness :
  track_loop (scripted_world (stage_script ["PROCESSING"]) None)
             example_config 4 sample_session (JStr "f0")
             [ERequest (status_request example_config
                          "v1alpha/projects/p1/locations/us/instances/i1/dataExports/f0")]
  = (Raise (RequestException "Connection refused"),
     [ERequest (status_request example_config
                  "v1alpha/projects/p1/locations/us/instances/i1/dataExports/f0");
      ERequest (status_request example_config
                  "v1alpha/projects/p1/locations/us/instances/i1/dataExports/f0")]).
Proof.
  destruct (polling_error_is_not_retried
              (scripted_world (stage_script ["PROCESSING"]) None)
              example_config 3%nat sample_session "f0"
              [ERequest (status_request example_config
                           "v1alpha/projects/p1/locations/us/instances/i1/dataExports/f0")]
              eq_refl) as (path & Hn & Htransport & _).
  injection Hn as <-.
  exact (Htransport "Connection refused" eq_refl).
Defined.

(** ** Cancelling, listing and creating *)

(** X16: [cancel_data_export] sends one POST to the status URL of the
    job followed by [:cancel].  When that request is answered without an
    HTTP error, whatever its body, the function prints the confirmation,
    fetches the status of the job once and returns [None]; when it is
    answered with a 4xx or 5xx response the function raises at once,
    without the confirmation and without the status fetch. *)
Theorem cancel_posts_then_fetches_status (W : world) (cfg : Config)
    (s : session) (id : string) (tr : trace) :
  sigint W = None ->
  exists path,
    _normalize_id cfg (JStr id) = Ok (JStr path)
    /\ req_url (cancel_request cfg path)
       = req_url (status_request cfg path) ++ ":cancel"
    /\ (forall reply answer status,
          server W (count_requests tr) (cancel_request cfg path) = inr reply ->
          raise_for_status reply = Ok tt ->
          server W (S (count_requests tr)) (status_request cfg path) = inr answer ->
          raise_for_status answer = Ok tt ->
          json_result answer = inr status ->
          cancel_data_export W cfg s (JStr id) tr
          = (Ret JNull,
             (tr ++ [EPrint (Py.LF ++ "[Action] Cancelling Data Export job: "
                               ++ id ++ "...");
                     ERequest (cancel_request cfg path);
                     EPrint "Cancel request issued successfully.";
                     ERequest (status_request cfg path)])%list))
    /\ (forall reply,
          server W (count_requests tr) (cancel_request cfg path) = inr reply ->
          400 <= status_code reply < 600 ->
          exists msg,
            cancel_data_export W cfg s (JStr id) tr
            = (Raise (HTTPError msg reply),
               (tr ++ [EPrint (Py.LF ++ "[Action] Cancelling Data Export job: "
                                 ++ id ++ "...");
                       ERequest (cancel_request cfg path)])%list)).
Proof.
  intros quiet. destruct (normalize_str_total cfg id) as [path Hn].
  exists path. split; [exact Hn|]. split.
  { cbn [cancel_request status_request req_url].
    now rewrite !PyStrFacts.append_assoc. }
  assert (forall t, cancel_data_export W cfg s (JStr id) t
            = bind (print W (Py.LF ++ "[Action] Cancelling Data Export job: "
                               ++ id ++ "..."))
                (fun _ =>
                   bind (send W (cancel_request cfg path))
                     (fun a => bind (lift (raise_for_status a))
                        (fun _ =>
                           bind (print W "Cancel request issued successfully.")
                             (fun _ =>
                                bind (get_data_export_status W cfg s (JStr id))
                                  (fun _ => ret JNull))))) t) as Hshape.
  { intros t. unfold cancel_data_export. now rewrite (bind_lift _ _ _ _ Hn). }
  split.
  - intros reply answer status Hs1 Hr1 Hs2 Hr2 Hj.
    rewrite Hshape.
    rewrite (bind_run _ _ _ _ _ (print_quiet W quiet _ _)).
    rewrite (bind_run _ _ _ _ _
               (send_quiet_at W quiet _ _ _ _ (count_requests_print tr _) Hs1)).
    rewrite (bind_lift _ _ _ _ Hr1).
    rewrite (bind_run _ _ _ _ _ (print_quiet W quiet _ _)).
    unfold get_data_export_status.
    rewrite bind_assoc, (bind_lift _ _ _ _ Hn), bind_assoc.
    unfold session_get. cbn [Py.str]. fold (status_request cfg path).
    match goal with
    | |- context [bind (send W (status_request cfg path)) _ ?t] =>
        assert (count_requests t = S (count_requests tr)) as Hcount
    end.
    { rewrite count_requests_print, count_requests_app, count_requests_print.
      cbn. lia. }
    rewrite (bind_run _ _ _ _ _ (send_quiet_at W quiet _ _ _ _ Hcount Hs2)).
    rewrite bind_assoc, (bind_lift _ _ _ _ Hr2).
    rewrite (bind_lift _ _ status _); [|unfold resp_json; now rewrite Hj].
    unfold ret. now rewrite <- !app_assoc.
  - intros reply Hs1 Hcode.
    destruct (raise_for_status_error reply Hcode) as [msg Hmsg].
    exists msg. rewrite Hshape.
    rewrite (bind_run _ _ _ _ _ (print_quiet W quiet _ _)).
    rewrite (bind_run _ _ _ _ _
               (send_quiet_at W quiet _ _ _ _ (count_requests_print tr _) Hs1)).
    rewrite (bind_lift_err _ _ _ _ Hmsg). now rewrite <- app_assoc.
Qed.

Lemma cancel_posts_then_fetches_status_witness :
  let W := scripted_world
             [{| status_code := 200; reason := "OK"; resp_url := "";
                 text := ""; json_result := inl "Expecting value" |};
              ok_response (status_payload (JStr "PROCESSING"))] None in
  let path := "v1alpha/projects/p1/locations/us/instances/i1/dataExports/f0" in
  cancel_data_export W example_config sample_session (JStr "f0") []
  = (Ret JNull,
     [EPrint (Py.LF ++ "[Action] Cancelling Data Export job: f0...");
      ERequest (cancel_request example_config path);
      EPrint "Cancel request issued successfully.";
      ERequest (status_request example_config path)]).
Proof.
  intros W path.
  destruct (cancel_posts_then_fetches_status W example_config sample_session
              "f0" [] eq_refl) as (p & Hn & _ & Hok & _).
  injection Hn as <-.
  exact (Hok _ _ _ eq_refl eq_refl eq_refl eq_refl eq_refl).
Defined.

(** X17: a listed export with missing fields is printed with defaults:
    the id column shows UNKNOWN for a missing name and otherwise the part
    of the name after its last slash, the stage column shows UNKNOWN for a
    missing status, and a missing creation time is left empty; the id is
    padded to 38 and the stage to 20 characters. *)
Theorem listing_line_uses_defaults (W : world) (name stage created : option string)
    (tr : trace) :
  sigint W = None ->
  print_export W (export_entry name stage created) tr
  = (Ret tt,
     (tr ++ [EPrint ("ID: "
                       ++ PyObj.ljust 38
                            (PyObj.last_segment "/"%char (or_default name "UNKNOWN"))
                       ++ " | Stage: "
                       ++ PyObj.ljust 20 (or_default stage "UNKNOWN")
                       ++ " | Created: " ++ or_default created "")])%list).
Proof.
  intros quiet. unfold print_export.
  destruct name as [n|], stage as [st|], created as [c|];
    repeat lift_step; apply print_quiet; exact quiet.
Qed.

Lemma listing_line_uses_defaults_witness :
  print_export scripted_three (export_entry None None None) []
  = (Ret tt,
     [EPrint ("ID: UNKNOWN" ++ Py.spaces 31 ++ " | Stage: UNKNOWN"
                ++ Py.spaces 13 ++ " | Created: ")]).
Proof.
  exact (listing_line_uses_defaults scripted_three None None None [] eq_refl).
Defined.

Section DefaultAction.
Variable W : world.
Variable cfg : Config.
Hypothesis quiet : sigint W = None.

Ltac send_step Hs :=
  match goal with
  | |- context [bind (send ?W ?r) ?k ?t] =>
      let Hc := fresh "Hcount" in
      assert (count_requests t = _) as Hc
        by (rewrite !count_requests_print; reflexivity);
      rewrite (bind_run _ _ _ _ _ (send_quiet_at W quiet _ _ _ _ Hc Hs));
      clear Hc
  end.

Lemma create_succeeds s d lts tr payload resp data new_id :
  build_payload cfg (utc_now W (List.length tr)) d lts = Ok payload ->
  server W (count_requests tr) (create_request cfg payload) = inr resp ->
  raise_for_status resp = Ok tt ->
  json_result resp = inr data ->
  PyObj.get data "name" JNull = Ok new_id ->
  create_data_export W cfg s d lts tr
  = (Ret new_id,
     (tr ++ create_banner cfg d lts
         ++ [ERequest (create_request cfg payload);
             EPrint ("Success. Job Created: " ++ Py.str new_id)])%list).
Proof.
  intros Hp Hs Hr Hj Hname. unfold create_data_export, create_banner.
  rewrite bind_now_utc, (bind_lift _ _ _ _ Hp).
  rewrite (bind_run _ _ _ _ _ (print_quiet W quiet _ _)).
  rewrite (bind_run _ _ _ _ _ (print_quiet W quiet _ _)).
  unfold session_post. fold (create_request cfg payload).
  destruct (log_types_given lts).
  - rewrite (bind_run _ _ _ _ _ (print_quiet W quiet _ _)).
    send_step Hs.
    rewrite (bind_lift _ _ _ _ Hr).
    rewrite (bind_lift _ _ data _); [|unfold resp_json; now rewrite Hj].
    rewrite (bind_lift _ _ _ _ Hname).
    rewrite (bind_run _ _ _ _ _ (print_quiet W quiet _ _)).
    unfold ret. cbn [app]. now rewrite <- !app_assoc.
  - rewrite bind_ret.
    send_step Hs.
    rewrite (bind_lift _ _ _ _ Hr).
    rewrite (bind_lift _ _ data _); [|unfold resp_json; now rewrite Hj].
    rewrite (bind_lift _ _ _ _ Hname).
    rewrite (bind_run _ _ _ _ _ (print_quiet W quiet _ _)).
    unfold ret. cbn [app]. now rewrite <- !app_assoc.
Qed.

Lemma main_default_action fuel args tr :
  config_complete cfg = true ->
  Py.truthy (Py.of_opt (SERVICE_ACCOUNT_FILE cfg)) = true ->
  credentials W (fmt (SERVICE_ACCOUNT_FILE cfg)) = None ->
  fetch_sa args = false ->
  list_ args = false ->
  blank (cancel args) ->
  blank (track args) ->
  main W cfg fuel args tr
  = main_except W
      (bind (create_data_export W cfg (the_session cfg) (days args) (log_types args))
            (fun new_id =>
               track_export_until_completion W cfg fuel (the_session cfg) new_id)
            (tr ++ [load_event cfg])%list).
Proof.
  intros Hcfg Hfile Hcred Hf Hl Hc Ht. apply truthy_opt_false in Hc, Ht.
  unfold main. rewrite Hcfg. cbn [negb]. unfold try_except at 1.
  rewrite (bind_run _ _ _ _ _ (session_loads W cfg quiet tr Hfile Hcred)).
  rewrite Hf, Hl, Hc, Ht. fold (the_session cfg). fold (load_event cfg).
  unfold main_except.
  match goal with |- context [bind ?c ?k ?t] => destruct (bind c k t) as [[[]|e|] t'] end;
    try reflexivity.
  now destruct e.
Qed.

End DefaultAction.

(** X18: when the reply to the creation request has no [name] (or a
    null one), the job has been created but cannot be tracked: [main]
    reports the creation with the id [None], the tracker prints its two
    opening lines and fails on the id before any status request (the
    normalizer's [in] test raises [TypeError] on [None]), and [main]
    reports that error and returns. *)
Theorem created_job_without_name_is_not_tracked (W : world) (cfg : Config)
    (fuel : nat) (args : Args) (tr : trace) (payload : json) (resp : response)
    (fields : list (string * json)) :
  sigint W = None ->
  config_complete cfg = true ->
  Py.truthy (Py.of_opt (SERVICE_ACCOUNT_FILE cfg)) = true ->
  credentials W (fmt (SERVICE_ACCOUNT_FILE cfg)) = None ->
  fetch_sa args = false ->
  list_ args = false ->
  blank (cancel args) ->
  blank (track args) ->
  build_payload cfg (utc_now W (S (List.length tr))) (days args) (log_types args)
  = Ok payload ->
  server W (count_requests tr) (create_request cfg payload) = inr resp ->
  raise_for_status resp = Ok tt ->
  json_result resp = inr (JObj fields) ->
  (Py.dict_get fields "name" = None \/ Py.dict_get fields "name" = Some JNull) ->
  exists msg,
    _normalize_id cfg JNull = Err (TypeError msg)
    /\ main W cfg (S fuel) args tr
       = (Ret tt,
          (tr ++ load_event cfg :: create_banner cfg (days args) (log_types args)
              ++ [ERequest (create_request cfg payload);
                  EPrint "Success. Job Created: None"]
              ++ tracker_banner JNull
              ++ [EPrint (Py.LF ++ "Error: " ++ msg)])%list).
Proof.
  intros quiet Hcfg Hfile Hcred Hf Hl Hc Ht Hp Hs Hr Hj Hname.
  eexists. split; [reflexivity|].
  rewrite (main_default_action W cfg quiet (S fuel) args tr Hcfg Hfile Hcred
             Hf Hl Hc Ht).
  assert (PyObj.get (JObj fields) "name" JNull = Ok JNull) as Hget.
  { cbn [PyObj.get]. now destruct Hname as [-> | ->]. }
  assert (build_payload cfg (utc_now W (List.length (tr ++ [load_event cfg])%list))
            (days args) (log_types args) = Ok payload) as Hp'.
  { rewrite length_app, Nat.add_comm. exact Hp. }
  assert (server W (count_requests (tr ++ [load_event cfg])%list)
            (create_request cfg payload) = inr resp) as Hs'.
  { now rewrite count_requests_quiet. }
  rewrite (bind_run _ _ _ _ _
             (create_succeeds W cfg quiet (the_session cfg) _ _ _ payload resp _
                JNull Hp' Hs' Hr Hj Hget)).
  unfold track_export_until_completion, tracker_banner.
  rewrite (bind_run _ _ _ _ _ (print_quiet W quiet _ _)).
  rewrite (bind_run _ _ _ _ _ (print_quiet W quiet _ _)).
  unfold try_except. cbn [track_loop]. unfold get_data_export_status.
  cbn [_normalize_id PyObj.str_in lift bind raise main_except main_handler
       exn_str PyObj.type_name].
  rewrite print_quiet by exact quiet. cbn [Py.str Py.repr].
  repeat (rewrite <- app_assoc; cbn [app]). reflexivity.
Qed.

Lemma created_job_without_name_is_not_tracked_witness :
  main (constant_world (ok_response (JObj [])) None) example_config 1 no_action []
  = (Ret tt,
     [load_event example_config;
      EPrint (Py.LF ++ "[Action] Creating Data Export Job...");
      EPrint "Target: my-bucket | Range: Last 1 days";
      ERequest (create_request example_config
                  (JObj [("startTime", JStr "2026-11-03T09:30:05Z");
                         ("endTime", JStr "2026-11-04T09:30:05Z");
                         ("gcsBucket", JStr "my-bucket")]));
      EPrint "Success. Job Created: None";
      EPrint (Py.LF ++ "[Tracker] Tracking status for: None");
      EPrint "Press Ctrl+C to stop tracking (job will continue running in background).";
      EPrint (Py.LF ++ "Error: argument of type 'NoneType' is not iterable")]).
Proof.
  destruct (created_job_without_name_is_not_tracked
           (constant_world (ok_response (JObj [])) None) example_config 0%nat
           no_action [] _ _ []
           eq_refl eq_refl eq_refl eq_refl eq_refl eq_refl
           (or_introl eq_refl) (or_introl eq_refl)
           eq_refl eq_refl eq_refl eq_refl (or_introl eq_refl))
    as (msg & Hn & E).
  injection Hn as <-. exact E.
Defined.

(** X19: the default action chains creation into tracking of the
    created job: after a successful creation whose reply names the job,
    [main] reports the name, the tracker opens, and the next request is
    the GET of the status of that job, at the path the normalizer gives
    for the returned name. *)
Theorem created_job_is_tracked (W : world) (cfg : Config) (fuel : nat)
    (args : Args) (tr : trace) (payload : json) (resp : response)
    (fields : list (string * json)) (name : string) :
  sigint W = None ->
  config_complete cfg = true ->
  Py.truthy (Py.of_opt (SERVICE_ACCOUNT_FILE cfg)) = true ->
  credentials W (fmt (SERVICE_ACCOUNT_FILE cfg)) = None ->
  fetch_sa args = false ->
  list_ args = false ->
  blank (cancel args) ->
  blank (track args) ->
  build_payload cfg (utc_now W (S (List.length tr))) (days args) (log_types args)
  = Ok payload ->
  server W (count_requests tr) (create_request cfg payload) = inr resp ->
  raise_for_status resp = Ok tt ->
  json_result resp = inr (JObj fields) ->
  Py.dict_get fields "name" = Some (JStr name) ->
  exists path rest,
    _normalize_id cfg (JStr name) = Ok (JStr path)
    /\ snd (main W cfg (S fuel) args tr)
       = (tr ++ load_event cfg :: create_banner cfg (days args) (log_types args)
             ++ [ERequest (create_request cfg payload);
                 EPrint ("Success. Job Created: " ++ name)]
             ++ tracker_banner (JStr name)
             ++ ERequest (status_request cfg path) :: rest)%list.
Proof.
  intros quiet Hcfg Hfile Hcred Hf Hl Hc Ht Hp Hs Hr Hj Hname.
  destruct (normalize_str_total cfg name) as [path Hn].
  destruct (main_runs_action W cfg (S fuel) args tr quiet Hcfg Hfile Hcred)
    as [more E].
  apply truthy_opt_false in Hc, Ht. rewrite Hf, Hl, Hc, Ht in E.
  assert (PyObj.get (JObj fields) "name" JNull = Ok (JStr name)) as Hget.
  { cbn [PyObj.get]. now rewrite Hname. }
  assert (build_payload cfg (utc_now W (List.length (tr ++ [load_event cfg])%list))
            (days args) (log_types args) = Ok payload) as Hp'.
  { rewrite length_app, Nat.add_comm. exact Hp. }
  assert (server W (count_requests (tr ++ [load_event cfg])%list)
            (create_request cfg payload) = inr resp) as Hs'.
  { now rewrite count_requests_quiet. }
  rewrite (bind_run _ _ _ _ _
             (create_succeeds W cfg quiet (the_session cfg) _ _ _ payload resp _
                (JStr name) Hp' Hs' Hr Hj Hget)) in E.
  unfold track_export_until_completion in E.
  rewrite (bind_run _ _ _ _ _ (print_quiet W quiet _ _)) in E.
  rewrite (bind_run _ _ _ _ _ (print_quiet W quiet _ _)) in E.
  match type of E with
  | context [try_except ?b ?h ?t] =>
      destruct (try_extends any_event b h t) as [more1 E1]
  end.
  { intros e h H. destruct e; try discriminate H. injection H as <-.
    apply emits_emit. exact I. }
  rewrite E1 in E. clear E1.
  match type of E with
  | context [track_loop W cfg (S fuel) ?s (JStr name) ?t] =>
      destruct (track_loop_fetches_first W cfg fuel s (JStr name) path t Hn)
        as [rest E2]
  end.
  rewrite E2 in E. clear E2.
  exists path, (rest ++ more1 ++ more)%list. split; [exact Hn|].
  rewrite E. unfold tracker_banner. cbn [Py.str].
  repeat (rewrite <- app_assoc; cbn [app]). reflexivity.
Qed.

Lemma created_job_is_tracked_witness :
  exists rest,
    snd (main (constant_world
                 (ok_response
                    (JObj [("name",
                            JStr "projects/p1/locations/us/instances/i1/dataExports/f0")]))
                 None)
              example_config 1 no_action [])
    = ([load_event example_config]
         ++ create_banner example_config 1 None
         ++ [ERequest (create_request example_config
                         (JObj [("startTime", JStr "2026-11-03T09:30:05Z");
                                ("endTime", JStr "2026-11-04T09:30:05Z");
                                ("gcsBucket", JStr "my-bucket")]));
             EPrint "Success. Job Created: projects/p1/locations/us/instances/i1/dataExports/f0"]
         ++ tracker_banner
              (JStr "projects/p1/locations/us/instances/i1/dataExports/f0")
         ++ ERequest (status_request example_config
                        "v1alpha/projects/p1/locations/us/instances/i1/dataExports/f0")
            :: rest)%list.
Proof.
  destruct (created_job_is_tracked
              (constant_world
                 (ok_response
                    (JObj [("name",
                            JStr "projects/p1/locations/us/instances/i1/dataExports/f0")]))
                 None)
              example_config 0%nat no_action [] _ _ _ _
              eq_refl eq_refl eq_refl eq_refl eq_refl eq_refl
              (or_introl eq_refl) (or_introl eq_refl)
              eq_refl eq_refl eq_refl eq_refl eq_refl)
    as (path & rest & Hn & E).
  injection Hn as <-. exists rest. exact E.
Defined.

(** Adding days: [sub_days] with a negative [delta] that keeps the day
    representable moves the ordinal forward. *)
Lemma sub_days_in_range (dt : DateTime.t) (delta : Z) :
  1 <= DateTime.toordinal dt - delta <= DateTime._MAXORDINAL ->
  exists start,
    DateTime.sub_days dt delta = Ok start
    /\ DateTime.toordinal start = DateTime.toordinal dt - delta
    /\ DateTime.hour start = DateTime.hour dt
    /\ DateTime.minute start = DateTime.minute dt
    /\ DateTime.second start = DateTime.second dt
    /\ DateTime.MINYEAR <= DateTime.year start <= DateTime.MAXYEAR
    /\ 1 <= DateTime.month start <= 12
    /\ 1 <= DateTime.day start
       <= DateTime._days_in_month (DateTime.year start) (DateTime.month start).
Proof.
  intros Hn. unfold DateTime.sub_days. cbv zeta.
  replace (1 <=? DateTime.toordinal dt - delta) with true
    by (symmetry; apply Z.leb_le; lia).
  replace (DateTime.toordinal dt - delta <=? DateTime._MAXORDINAL) with true
    by (symmetry; apply Z.leb_le; lia).
  cbn [andb].
  pose proof (ord2ymd_roundtrip (DateTime.toordinal dt - delta) ltac:(lia)) as Hrt.
  destruct (DateTime._ord2ymd (DateTime.toordinal dt - delta)) as [[y m] d].
  eexists. split; [reflexivity|]. unfold DateTime.toordinal at 1. cbn.
  destruct Hrt as (H1 & H2 & H3 & H4). repeat split; auto; lia.
Qed.

(** From the year 1000 on, a day is on or after 1000-01-01. *)
Lemma year_1000_ordinal (dt : DateTime.t) :
  DateTime.valid dt -> 1000 <= DateTime.year dt ->
  DateTime._ymd2ord 1000 1 1 <= DateTime.toordinal dt.
Proof.
  intros (_ & Hm & Hd & _) Hy.
  change (DateTime._ymd2ord 1000 1 1) with 364878.
  unfold DateTime.toordinal, DateTime._ymd2ord.
  pose proof (month_part_bound _ _ _ Hm Hd) as Hp.
  assert (364877 <= DateTime._days_before_year (DateTime.year dt)) as Hb.
  { unfold DateTime._days_before_year. cbv zeta.
    Z.to_euclidean_division_equations. lia. }
  lia.
Qed.

(** X20: [--days] is not validated.  For a negative [d] whose start day
    is still representable, on a clock in the year 1000 or later (so that
    the years have four digits), [create_data_export] raises nothing
    before its request and posts a payload whose startTime lies [-d] days
    AFTER its endTime (the current UTC time): the requested window is
    empty and in the future. *)
Theorem negative_days_put_start_after_end (W : world) (cfg : Config)
    (s : session) (d : Z) (lts : option (list string)) (tr : trace) :
  sigint W = None ->
  DateTime.valid (utc_now W (List.length tr)) ->
  1000 <= DateTime.year (utc_now W (List.length tr)) ->
  d < 0 ->
  DateTime.toordinal (utc_now W (List.length tr)) - d <= DateTime._MAXORDINAL ->
  exists start_text end_text other before rest end_instant start_instant,
    snd (create_data_export W cfg s d lts tr)
    = (tr ++ before
          ++ ERequest (create_request cfg
                         (JObj (("startTime", JStr start_text)
                                :: ("endTime", JStr end_text) :: other)))
          :: rest)%list
    /\ Forall (fun e => is_request e = false) before
    /\ end_text = DateTime.strftime_rfc3339 (utc_now W (List.length tr))
    /\ Rfc3339.instant end_text = Some end_instant
    /\ Rfc3339.instant start_text = Some start_instant
    /\ start_instant - end_instant = - d * 86400
    /\ end_instant < start_instant.
Proof.
  intros quiet Hv Hyear Hd Hmax.
  set (now := utc_now W (List.length tr)) in *.
  pose proof (valid_ordinal now Hv) as Hord.
  pose proof (year_1000_ordinal now Hv Hyear) as Hfrom.
  change (DateTime._ymd2ord 1000 1 1) with 364878 in Hfrom.
  destruct (sub_days_in_range now d ltac:(lia))
    as (start & Hsub & Ho & Hh & Hmi & Hs & Hy & Hmo & Hday).
  assert (DateTime.timedelta_days d = Ok d) as Htd.
  { apply timedelta_days_small. unfold DateTime._MAXORDINAL in *. lia. }
  assert (build_payload cfg now d lts
          = Ok (JObj ([("startTime", JStr (DateTime.strftime_rfc3339 start));
                       ("endTime", JStr (DateTime.strftime_rfc3339 now));
                       ("gcsBucket", Py.of_opt (GCS_BUCKET cfg))]
                      ++ (if log_types_given lts then
                            [("includeLogTypes",
                              JArr (map (fun lt => JStr (log_type_path cfg lt))
                                        (match lts with Some l => l | None => [] end)))]
                          else [])))) as Hp.
  { unfold build_payload. rewrite Htd. cbn [pyres_bind]. rewrite Hsub. reflexivity. }
  destruct (create_sends_payload W cfg quiet s d lts tr _ Hp)
    as (before & rest & Htr & Hbefore).
  destruct Hv as (Vy & Vmo & Vd & Vh & Vmi & Vs & _).
  pose proof (days_in_month_le_31 (DateTime.year now) _ Vmo).
  pose proof (days_in_month_le_31 (DateTime.year start) _ Hmo).
  unfold DateTime.MINYEAR, DateTime.MAXYEAR in *.
  assert (1000 <= DateTime.year start) as Hys.
  { apply (ordinal_year_1000 _ (DateTime.month start) (DateTime.day start));
      try assumption; try lia.
    change (DateTime._ymd2ord 1000 1 1) with 364878.
    change (DateTime._ymd2ord (DateTime.year start) (DateTime.month start)
              (DateTime.day start)) with (DateTime.toordinal start). lia. }
  do 7 eexists.
  split; [exact Htr|]. split; [exact Hbefore|]. split; [reflexivity|].
  split; [apply instant_strftime; lia|].
  split; [apply instant_strftime; lia|].
  rewrite Ho, Hh, Hmi, Hs. split; lia.
Qed.

Lemma negative_days_put_start_after_end_witness :
  exists start_text end_text other before rest end_instant start_instant,
    snd (create_data_export (constant_world (ok_response (JObj [])) None)
           example_config sample_session (-3) None [])
    = ([] ++ before
          ++ ERequest (create_request example_config
                         (JObj (("startTime", JStr start_text)
                                :: ("endTime", JStr end_text) :: other)))
          :: rest)%list
    /\ Forall (fun e => is_request e = false) before
    /\ end_text = "2026-11-04T09:30:05Z"
    /\ Rfc3339.instant end_text = Some end_instant
    /\ Rfc3339.instant start_text = Some start_instant
    /\ start_instant - end_instant = 3 * 86400
    /\ end_instant < start_instant.
Proof.
  exact (negative_days_put_start_after_end
           (constant_world (ok_response (JObj [])) None)
           example_config sample_session (-3) None []
           eq_refl sample_now_valid
           (proj1 (Z.leb_le 1000 (DateTime.year sample_now)) eq_refl) eq_refl
           (proj1 (Z.leb_le (DateTime.toordinal sample_now - -3)
                            DateTime._MAXORDINAL) eq_refl)).
Defined.

Lemma for_each_app (items rest : list json) (body : json -> M unit) (tr : trace) :
  for_each (items ++ rest)%list body tr
  = bind (for_each items body) (fun _ => for_each rest body) tr.
Proof.
  revert tr. induction items as [|x items IH]; intros tr; cbn [app for_each].
  - reflexivity.
  - rewrite bind_assoc.
    change (bind (body x) (fun _ => for_each (items ++ rest)%list body) tr
            = bind (body x)
                (fun _ => bind (for_each items body) (fun _ => for_each rest body))
                tr).
    unfold bind at 1 2.
    destruct (body x tr) as [[[]|e|] tr1]; [apply IH | reflexivity | reflexivity].
Qed.

Lemma bind_for_each_app {B} (items rest : list json) (body : json -> M unit)
    (k : unit -> M B) (tr : trace) :
  bind (for_each (items ++ rest)%list body) k tr
  = bind (for_each items body) (fun _ => bind (for_each rest body) k) tr.
Proof.
  rewrite <- bind_assoc. unfold bind at 1 2. now rewrite for_each_app.
Qed.

(** X21: one malformed entry aborts the listing.  When the service lists
    well-formed jobs followed by an entry whose [name] is present but is
    not a text (for instance null), [list_data_exports] prints the
    heading with the total number of entries and the lines of the jobs
    before that entry, then raises [AttributeError] from the [split]:
    neither that entry nor any later one is printed. *)
Theorem malformed_entry_aborts_listing (W : world) (cfg : Config) (s : session)
    (tr : trace) (resp : response) (fields bad : list (string * json))
    (good : list export_job) (later : list json) (v : json) :
  sigint W = None ->
  server W (count_requests tr) (list_request cfg) = inr resp ->
  raise_for_status resp = Ok tt ->
  json_result resp = inr (JObj fields) ->
  Py.dict_get fields "dataExports"
  = Some (JArr (map export_json good ++ JObj bad :: later)%list) ->
  Py.dict_get bad "name" = Some v ->
  (forall t, v <> JStr t) ->
  list_data_exports W cfg s tr
  = (Raise (PyObj.no_attribute v "split"),
     (tr ++ [EPrint (Py.LF ++ "[Action] Listing Data Exports...");
             ERequest (list_request cfg);
             EPrint ("Found "
                       ++ PyInt.to_str
                            (Z.of_nat (S (List.length good + List.length later)))
                       ++ " export(s):" ++ Py.LF)]
         ++ map (fun j => EPrint (summary_line j)) good)%list).
Proof.
  intros quiet Hs Hr Hj Hlist Hname Hv. unfold list_data_exports.
  rewrite (bind_run _ _ _ _ _ (print_quiet W quiet _ _)).
  unfold session_get. fold (list_request cfg).
  rewrite (bind_run _ _ _ _ _
             (send_quiet_at W quiet _ _ _ _ (count_requests_print tr _) Hs)).
  rewrite (bind_lift _ _ _ _ Hr).
  rewrite (bind_lift _ _ (JObj fields) _); [|unfold resp_json; now rewrite Hj].
  rewrite (bind_lift _ _ (JArr (map export_json good ++ JObj bad :: later)%list) _);
    [|cbn [PyObj.get]; now rewrite Hlist].
  replace (Py.truthy (JArr (map export_json good ++ JObj bad :: later)%list))
    with true by (now destruct good).
  cbn [negb]. lift_step.
  rewrite (bind_run _ _ _ _ _ (print_quiet W quiet _ _)).
  lift_step. rewrite bind_for_each_app.
  rewrite (bind_run _ _ _ _ _ (for_each_lines W quiet good _)).
  cbn [for_each]. unfold print_export at 1.
  rewrite !bind_assoc.
  rewrite (bind_lift _ _ v _); [|cbn [PyObj.get]; now rewrite Hname].
  assert (PyObj.split_last v = Err (PyObj.no_attribute v "split")) as Hsplit.
  { destruct v; try reflexivity. now elim (Hv s0). }
  rewrite !bind_assoc. unfold bind at 1. unfold lift at 1. rewrite Hsplit.
  rewrite length_app, length_map. cbn [List.length].
  rewrite Nat.add_succ_r. repeat (rewrite <- app_assoc; cbn [app]). reflexivity.
Qed.

Lemma malformed_entry_aborts_listing_witness :
  list_data_exports
    (constant_world
       (ok_response
          (JObj [("dataExports",
                  JArr [export_json sample_job;
                        JObj [("name", JNull)];
                        export_json second_job])]))
       None)
    example_config sample_session []
  = (Raise (AttributeError "'NoneType' object has no attribute 'split'"),
     [EPrint (Py.LF ++ "[Action] Listing Data Exports...");
      ERequest (list_request example_config);
      EPrint ("Found 3 export(s):" ++ Py.LF);
      EPrint (summary_line sample_job)]).
Proof.
  exact (malformed_entry_aborts_listing
           (constant_world
              (ok_response
                 (JObj [("dataExports",
                         JArr [export_json sample_job;
                               JObj [("name", JNull)];
                               export_json second_job])]))
              None)
           example_config sample_session [] _ _ [("name", JNull)]
           [sample_job] [export_json second_job] JNull
           eq_refl eq_refl eq_refl eq_refl eq_refl eq_refl
           (fun t H => eq_ind JNull (fun j => match j with JNull => True | _ => False end)
                         I (JStr t) H)).
Defined.
